(** * OA_Server_Manager: event pipeline, status parsers and round state machine

    A shallow embedding of the parts of the server manager that carry
    invariants: the two console status parsers and message processors
    (OpenArena subprocess transport, AMP HTTP-poll transport), the AMP
    adapter's dedup cache, the round state machine with its shutdown
    strategies, and the client registry of the network manager.

    Python values are modelled as follows.
    - [str] is [string]; a character is a code point below 256.
    - [int] is [Z] (unbounded).
    - [dict] is stdpp's [gmap]; an [OrderedDict] used as an insertion-ordered
      key set is the list of its keys, oldest first.
    - A function that raises returns [option]; [None] is the exception.
    - Mutable objects are records threaded through the calls. *)

From Stdlib Require Import ZArith Lia Bool Ascii String.
From stdpp Require Import gmap strings list.

Local Open Scope string_scope.
Local Open Scope list_scope.
Local Open Scope Z_scope.

(** ** Python string primitives *)

Module Py.

(** [str.isspace] on one character: the white space of [str.strip],
    [str.split()] and of [\s] in [re]. *)
Definition is_space (c : ascii) : bool :=
  let n := N_of_ascii c in
  (((9 <=? n) && (n <=? 13)) || ((28 <=? n) && (n <=? 32))
   || (n =? 133) || (n =? 160))%N.

(** The decimal digits [0-9]; below code point 256 these are also the
    characters accepted by [int()] and by [\d]. *)
Definition is_digit (c : ascii) : bool :=
  let n := N_of_ascii c in ((48 <=? n) && (n <=? 57))%N.

Definition digit_val (c : ascii) : Z := Z.of_N (N_of_ascii c) - 48.

Definition is_empty (s : string) : bool :=
  match s with EmptyString => true | String _ _ => false end.

(** Stripping the characters of a set from the left end, the right end
    and both ends. *)
Fixpoint lstrip_with (p : ascii -> bool) (s : string) : string :=
  match s with
  | EmptyString => EmptyString
  | String c r => if p c then lstrip_with p r else s
  end.

Fixpoint rstrip_with (p : ascii -> bool) (s : string) : string :=
  match s with
  | EmptyString => EmptyString
  | String c r =>
      let r' := rstrip_with p r in
      if p c && is_empty r' then EmptyString else String c r'
  end.

Definition strip_with (p : ascii -> bool) (s : string) : string :=
  rstrip_with p (lstrip_with p s).

(** [s.strip()] *)
Definition strip (s : string) : string := strip_with is_space s.

(** [s.split(sep)] for a one-character separator: always at least one
    part, one more than the number of separators. *)
Fixpoint split_on (sep : ascii) (s : string) : list string :=
  match s with
  | EmptyString => [EmptyString]
  | String c r =>
      if Ascii.eqb c sep then EmptyString :: split_on sep r
      else match split_on sep r with
           | [] => [String c EmptyString]
           | p :: ps => String c p :: ps
           end
  end.

(** [s.split()]: the maximal runs of characters that are not white space. *)
Fixpoint split_ws (s : string) : list string :=
  match s with
  | EmptyString => []
  | String c r =>
      if is_space c then split_ws r
      else match r with
           | EmptyString => [String c EmptyString]
           | String c' _ =>
               if is_space c' then String c EmptyString :: split_ws r
               else match split_ws r with
                    | [] => [String c EmptyString]
                    | p :: ps => String c p :: ps
                    end
           end
  end.

(** [needle in hay] *)
Fixpoint contains (needle hay : string) : bool :=
  String.prefix needle hay
  || match hay with
     | EmptyString => false
     | String _ r => contains needle r
     end.

(** [s.startswith(p)] *)
Definition startswith (p s : string) : bool := String.prefix p s.

(** [s.isdigit()]: below code point 256 the digit characters are [0-9]
    and the three superscripts, which [int()] does not accept. *)
Definition isdigit_char (c : ascii) : bool :=
  let n := N_of_ascii c in
  (is_digit c || (n =? 178) || (n =? 179) || (n =? 185))%N.

Fixpoint all_isdigit (s : string) : bool :=
  match s with
  | EmptyString => true
  | String c r => isdigit_char c && all_isdigit r
  end.

Definition isdigit (s : string) : bool := negb (is_empty s) && all_isdigit s.

(** [s.lower()]: the letters A-Z, and below code point 256 the accented
    capitals 192-222 without the multiplication sign 215. *)
Definition lower_char (c : ascii) : ascii :=
  let n := N_of_ascii c in
  if (((65 <=? n) && (n <=? 90))
      || ((192 <=? n) && (n <=? 222) && negb (n =? 215)))%N
  then ascii_of_N (n + 32) else c.

Fixpoint lower (s : string) : string :=
  match s with
  | EmptyString => EmptyString
  | String c r => String (lower_char c) (lower r)
  end.

(** Digits of an [int()] literal after the sign: a digit, then digits with
    single underscores between them. *)
Fixpoint int_digits (acc : Z) (prev_us : bool) (s : string) : option Z :=
  match s with
  | EmptyString => if prev_us then None else Some acc
  | String c r =>
      if is_digit c then int_digits (10 * acc + digit_val c) false r
      else if Ascii.eqb c "_" && negb prev_us then int_digits acc true r
      else None
  end.

Definition int_body (s : string) : option Z :=
  match s with
  | EmptyString => None
  | String c _ => if is_digit c then int_digits 0 false s else None
  end.

(** The white space [int()] drops around a literal: the C white space
    and the white space above code point 127, but not the separators
    28-31. *)
Definition is_int_space (c : ascii) : bool :=
  let n := N_of_ascii c in
  (((9 <=? n) && (n <=? 13)) || (n =? 32) || (n =? 133) || (n =? 160))%N.

(** [sys.get_int_max_str_digits()]: the interpreter's default, which
    nothing in the repository changes. *)
Definition int_max_str_digits : Z := 4300.

(** The number of digit characters of [s], leading zeros included. *)
Fixpoint count_digits (s : string) : Z :=
  match s with
  | EmptyString => 0
  | String c r => (if is_digit c then 1 else 0) + count_digits r
  end.

(** [int(s)]; [None] is [ValueError].  White space around the literal is
    dropped, one sign is allowed, leading zeros are allowed.  A literal
    of more than [int_max_str_digits] digits is refused: the sign, the
    underscores and the white space do not count, leading zeros do. *)
Definition int (s : string) : option Z :=
  if int_max_str_digits <? count_digits s then None
  else
    match strip_with is_int_space s with
    | EmptyString => None
    | String c r =>
        if Ascii.eqb c "+" then int_body r
        else if Ascii.eqb c "-" then Z.opp <$> int_body r
        else int_body (String c r)
    end.

(** A non-empty string of decimal digits and the number it denotes. *)
Fixpoint all_digits (s : string) : bool :=
  match s with
  | EmptyString => true
  | String c r => is_digit c && all_digits r
  end.

Definition is_decimal (s : string) : bool := negb (is_empty s) && all_digits s.

Fixpoint decimal_value_from (acc : Z) (s : string) : Z :=
  match s with
  | EmptyString => acc
  | String c r => decimal_value_from (10 * acc + digit_val c) r
  end.

Definition decimal_value (s : string) : Z := decimal_value_from 0 s.

(** No character of [s] is the separator. *)
Fixpoint free_of (sep : ascii) (s : string) : Prop :=
  match s with
  | EmptyString => True
  | String c r => c ≠ sep ∧ free_of sep r
  end.

(** Four segments written with dots between them. *)
Definition dotted_quad (a b c d : string) : string :=
  a +:+ "." +:+ b +:+ "." +:+ c +:+ "." +:+ d.

End Py.

(** ** The fragment of Python's [re] used by the sources

    A backtracking matcher in continuation-passing style: alternatives are
    tried left to right, repetition is greedy, and the first success wins,
    which is the order in which [re] explores matches. *)

Module Re.

Inductive re : Type :=
| Eps
| Chr (c : ascii)
| Cls (p : ascii -> bool)
| Seq (r1 r2 : re)
| Alt (r1 r2 : re)
| Star (r : re)
| Grp (i : nat) (r : re)
| Bol
| Eol.

(** A position in the subject: [pos] characters consumed, [rest] to go,
    and the spans of the groups closed so far (latest first). *)
Record cursor : Type := Cursor {
  pos : nat;
  rest : string;
  caps : list (nat * (nat * nat))
}.

Definition newline : ascii := "010"%char.

Definition step_char (p : ascii -> bool) (cur : cursor) : option cursor :=
  match rest cur with
  | String d t => if p d then Some (Cursor (S (pos cur)) t (caps cur)) else None
  | EmptyString => None
  end.

Fixpoint run (r : re) (cur : cursor) (k : cursor -> option cursor)
  : option cursor :=
  match r with
  | Eps => k cur
  | Chr c => c' ← step_char (Ascii.eqb c) cur; k c'
  | Cls p => c' ← step_char p cur; k c'
  | Seq r1 r2 => run r1 cur (fun c1 => run r2 c1 k)
  | Alt r1 r2 =>
      match run r1 cur k with
      | Some c => Some c
      | None => run r2 cur k
      end
  | Star r1 =>
      (fix loop (fuel : nat) (c : cursor) : option cursor :=
         match fuel with
         | O => k c
         | S fuel' =>
             match run r1 c (fun c' => if (pos c <? pos c')%nat
                                       then loop fuel' c' else None) with
             | Some c' => Some c'
             | None => k c
             end
         end) (S (String.length (rest cur))) cur
  | Grp i r1 =>
      run r1 cur (fun c' =>
        k (Cursor (pos c') (rest c') ((i, (pos cur, pos c')) :: caps c')))
  | Bol => if (pos cur =? 0)%nat then k cur else None
  | Eol =>
      match rest cur with
      | EmptyString => k cur
      | String c EmptyString => if Ascii.eqb c newline then k cur else None
      | _ => None
      end
  end.

Fixpoint lit (s : string) : re :=
  match s with
  | EmptyString => Eps
  | String c r => Seq (Chr c) (lit r)
  end.

Fixpoint seq (rs : list re) : re :=
  match rs with
  | [] => Eps
  | r :: rest => Seq r (seq rest)
  end.

Definition plus (r : re) : re := Seq r (Star r).
Definition opt (r : re) : re := Alt r Eps.
(** [r{1,3}] *)
Definition rep1_3 (r : re) : re := Seq r (opt (Seq r (opt r))).

Definition digit09 : re := Cls Py.is_digit.      (* [0-9] and \d *)
Definition space : re := Cls Py.is_space.        (* \s *)
Definition dot : re := Cls (fun c => negb (Ascii.eqb c newline)).  (* . *)

(** A match object: where the match starts and ends and its groups. *)
Record match_obj : Type := Match {
  subject : string;
  m_start : nat;
  m_end : nat;
  m_caps : list (nat * (nat * nat))
}.

Definition match_at (r : re) (s : string) (start : nat) (tail : string)
  : option match_obj :=
  c ← run r (Cursor start tail []) Some;
  Some (Match s start (pos c) (caps c)).

(** [pattern.match(s)] *)
Definition re_match (r : re) (s : string) : option match_obj :=
  match_at r s 0 s.

(** [pattern.search(s)]: the leftmost start that matches. *)
Fixpoint search_from (r : re) (s : string) (start : nat) (tail : string)
  : option match_obj :=
  match match_at r s start tail with
  | Some m => Some m
  | None =>
      match tail with
      | EmptyString => None
      | String _ t => search_from r s (S start) t
      end
  end.

Definition search (r : re) (s : string) : option match_obj :=
  search_from r s 0 s.

Fixpoint lookup_cap (i : nat) (cs : list (nat * (nat * nat)))
  : option (nat * nat) :=
  match cs with
  | [] => None
  | (j, span) :: rest => if (i =? j)%nat then Some span else lookup_cap i rest
  end.

(** [m.group(i)] for a group that took part in the match; a group that did
    not is [None]. *)
Definition group (i : nat) (m : match_obj) : option string :=
  span ← lookup_cap i (m_caps m);
  Some (String.substring (fst span) (snd span - fst span) (subject m)).

(** [s[:n]] and [s[n:]] *)
Definition slice_to (n : nat) (s : string) : string := String.substring 0 n s.
Definition slice_from (n : nat) (s : string) : string :=
  String.substring n (String.length s - n) s.

End Re.

(** ** core/adapters/status_parser.py *)

Module StatusParser.

Inductive StatusParseState : Type := IDLE | PARSING.

Record StatusParseContext : Type := Ctx {
  state : StatusParseState;
  lines : list string;
  seen_separator : bool
}.

Definition new : StatusParseContext := Ctx IDLE [] false.

Definition reset (ctx : StatusParseContext) : StatusParseContext :=
  Ctx IDLE [] false.

Definition is_parsing (ctx : StatusParseContext) : bool :=
  match state ctx with PARSING => true | IDLE => false end.

Definition line_count (ctx : StatusParseContext) : Z :=
  Z.of_nat (length (lines ctx)).

Definition start_parsing (ctx : StatusParseContext) : StatusParseContext :=
  let ctx := reset ctx in
  Ctx PARSING (lines ctx) (seen_separator ctx).

Definition add_line (ctx : StatusParseContext) (line : string)
  : StatusParseContext :=
  Ctx (state ctx) (lines ctx ++ [line]) (seen_separator ctx).

Definition mark_separator_seen (ctx : StatusParseContext)
  : StatusParseContext :=
  Ctx (state ctx) (lines ctx) true.

Definition complete (ctx : StatusParseContext)
  : StatusParseContext * list string :=
  (reset ctx, lines ctx).

End StatusParser.

(** ** core/adapters/openarena/status_parser.py *)

Module OAStatusParser.

(** The [for part in parts] loop of [_is_valid_ip]; [None] is the
    [ValueError] of [int(part)]. *)
Fixpoint check_parts (parts : list string) : option bool :=
  match parts with
  | [] => Some true
  | part :: rest =>
      match Py.int part with
      | None => None
      | Some num =>
          if (num <? 0) || (255 <? num) then Some false else check_parts rest
      end
  end.

Definition _is_valid_ip (ip : string) : bool :=
  if Py.is_empty ip then false
  else
    let parts := Py.split_on "." ip in
    if negb (length parts =? 4)%nat then false
    else match check_parts parts with
         | Some b => b
         | None => false
         end.

(** The dictionary returned by [parse_client_line]. *)
Record client : Type := Client {
  client_id : Z;
  score : Z;
  ping : Z;
  name : string;
  lastmsg : Z;
  ip : string;
  qport : Z;
  rate : Z;
  type : string
}.

Definition is_status_header (line : string) : bool :=
  Py.contains "num score ping name" line && Py.contains "address" line.

Definition is_separator (line : string) : bool := Py.startswith "---" line.

(** [address.split(":")[0] if ":" in address else address] *)
Definition ip_of_address (address : string) : string :=
  if Py.contains ":" address
  then match Py.split_on ":" address with
       | p :: _ => p
       | [] => address
       end
  else address.

(** [parse_client_line]; every exception ends in [return None]. *)
Definition parse_client_line (line : string) : option client :=
  let parts := Py.split_ws line in
  if (length parts <? 6)%nat then None
  else
    p0 ← parts !! 0%nat; p1 ← parts !! 1%nat; p2 ← parts !! 2%nat;
    p3 ← parts !! 3%nat; p4 ← parts !! 4%nat; p5 ← parts !! 5%nat;
    client_id ← Py.int p0;
    score ← Py.int p1;
    ping ← Py.int p2;
    let name := p3 in
    lastmsg ← Py.int p4;
    let address := p5 in
    qport ← match parts !! 6%nat with
            | Some p6 => if String.eqb p6 "0" then Some 0 else Py.int p6
            | None => Some 0
            end;
    rate ← match parts !! 7%nat with
           | Some p7 => Py.int p7
           | None => Some 0
           end;
    if String.eqb address "bot"
    then Some (Client client_id score ping name lastmsg "bot" qport rate "BOT")
    else
      let ip_address := ip_of_address address in
      if negb (_is_valid_ip ip_address) then None
      else Some (Client client_id score ping name lastmsg ip_address
                        qport rate "HUMAN").

End OAStatusParser.

(** ** core/adapters/amp/status_parser.py *)

Module AMPStatusParser.

(** [all(0 <= int(p) <= 255 for p in parts)]: the generator is consumed
    left to right and stops at the first false element; [None] is an
    exception raised by [int]. *)
Fixpoint all_octets (parts : list string) : option bool :=
  match parts with
  | [] => Some true
  | p :: rest =>
      match Py.int p with
      | None => None
      | Some n => if (0 <=? n) && (n <=? 255) then all_octets rest else Some false
      end
  end.

Definition _is_valid_ip (ip : string) : bool :=
  let parts := Py.split_on "." ip in
  if negb (length parts =? 4)%nat then false
  else match all_octets parts with
       | Some b => b
       | None => false
       end.

Record client : Type := Client {
  client_id : Z;
  time : string;
  ping : Z;
  loss : Z;
  state : string;
  rate : Z;
  ip : string;
  address : string;
  name : string;
  type : string
}.

Definition PLAYER_SECTION_START : string := "---------players--------".
Definition PLAYER_SECTION_END : string := "#end".

(** [(\d{1,3}\.\d{1,3}\.\d{1,3}\.\d{1,3}:\d+)] *)
Definition IP_PORT_PATTERN : Re.re :=
  Re.Grp 1 (Re.seq [
    Re.rep1_3 Re.digit09; Re.Chr "."; Re.rep1_3 Re.digit09; Re.Chr ".";
    Re.rep1_3 Re.digit09; Re.Chr "."; Re.rep1_3 Re.digit09; Re.Chr ":";
    Re.plus Re.digit09 ]).

Definition is_status_header (line : string) : bool :=
  Py.contains PLAYER_SECTION_START line.

Definition is_section_end (line : string) : bool :=
  String.eqb (Py.strip line) PLAYER_SECTION_END.

Definition is_column_header (line : string) : bool :=
  Py.contains "id" line && Py.contains "ping" line
  && Py.contains "adr" line && Py.contains "name" line.

Definition is_separator (line : string) : bool := false.

(** The character set of [after_ip.strip(...)]: single quote, double
    quote and blank. *)
Definition is_quote_or_blank (c : ascii) : bool :=
  Ascii.eqb c "'" || Ascii.eqb c "034" || Ascii.eqb c " ".

(** [int(x)] guarded by [except ValueError: ... = 0] *)
Definition int_or_zero (s : string) : Z :=
  match Py.int s with Some z => z | None => 0 end.

Definition parse_client_line (line : string) : option client :=
  if Py.contains " BOT " line then None
  else
    ip_match ← Re.search IP_PORT_PATTERN line;
    address ← Re.group 1 ip_match;
    ip ← head (Py.split_on ":" address);
    if negb (_is_valid_ip ip) then None
    else
      let ip_start := Re.m_start ip_match in
      let ip_end := Re.m_end ip_match in
      let before_ip := Py.split_ws (Re.slice_to ip_start line) in
      let after_ip := Py.strip (Re.slice_from ip_end line) in
      if (length before_ip <? 5)%nat then None
      else
        b0 ← before_ip !! 0%nat; b1 ← before_ip !! 1%nat;
        b2 ← before_ip !! 2%nat; b3 ← before_ip !! 3%nat;
        b4 ← before_ip !! 4%nat;
        client_id ← Py.int b0;
        let time_connected := b1 in
        let ping := int_or_zero b2 in
        let loss := int_or_zero b3 in
        let state := b4 in
        rate ← match before_ip !! 5%nat with
               | Some rate_str =>
                   if Py.isdigit rate_str then Py.int rate_str else Some 0
               | None => Some 0
               end;
        let name := Py.strip_with is_quote_or_blank after_ip in
        Some (Client client_id time_connected ping loss state rate ip
                     address name "HUMAN").

End AMPStatusParser.

(** ** core/adapters/base.py: message types and parsed messages *)

Module Base.

Inductive MessageType : Type :=
| CLIENT_CONNECT | CLIENT_DISCONNECT | GAME_START | GAME_END
| WARMUP_START | WARMUP_END | PLAYER_KILL | CHAT_MESSAGE
| STATUS_UPDATE | SERVER_SHUTDOWN | GAME_INITIALIZATION | UNKNOWN.

#[export] Instance MessageType_eq_dec : EqDecision MessageType.
Proof. solve_decision. Defined.

(** The values stored in [ParsedMessage.data]. *)
Inductive value : Type :=
| VInt (z : Z)
| VStr (s : string)
| VBool (b : bool)
| VOAClient (c : OAStatusParser.client)
| VOAClients (cs : list OAStatusParser.client)
| VAMPClient (c : AMPStatusParser.client)
| VAMPClients (cs : list AMPStatusParser.client).

(** [ParsedMessage]; the [timestamp] field is never set by the processors
    and stays [None]. *)
Record ParsedMessage : Type := Parsed {
  message_type : MessageType;
  raw_message : string;
  data : gmap string value
}.

Definition no_data : gmap string value := ∅.

(** [msg.data.get("status_complete")] holds. *)
Definition status_complete (m : ParsedMessage) : Prop :=
  data m !! "status_complete" = Some (VBool true).

End Base.

(** ** core/adapters/openarena/message_processor.py *)

Module OAMessageProcessor.
Import Base.

Definition pat_CLIENT_CONNECT : Re.re :=
  Re.seq [ Re.Bol; Re.lit "Client "; Re.Grp 1 (Re.plus Re.digit09);
           Re.lit " connecting with "; Re.Grp 2 (Re.plus Re.digit09);
           Re.lit " challenge ping"; Re.Eol ].

Definition pat_CLIENT_DISCONNECT : Re.re :=
  Re.seq [ Re.Bol; Re.lit "ClientDisconnect: ";
           Re.Grp 1 (Re.plus Re.digit09); Re.Eol ].

Definition pat_GAME_INITIALIZATION : Re.re :=
  Re.seq [ Re.Bol; Re.lit "------- Game Initialization -------"; Re.Eol ].

Definition pat_GAME_END : Re.re :=
  Re.seq [ Re.Bol; Re.lit "Exit: ";
           Re.Grp 1 (Re.Alt (Re.lit "Fraglimit") (Re.lit "Timelimit"));
           Re.lit " hit"; Re.Chr "."; Re.Eol ].

Definition pat_WARMUP_START : Re.re :=
  Re.seq [ Re.Bol; Re.lit "Warmup:"; Re.Star Re.space;
           Re.Grp 1 (Re.Star Re.dot); Re.Eol ].

Definition pat_SERVER_SHUTDOWN : Re.re :=
  Re.seq [ Re.Bol; Re.lit "ShutdownGame:"; Re.Star Re.space;
           Re.Grp 1 (Re.Star Re.dot); Re.Eol ].

(** [^\s*\d+\s+], the test for a client row inside a status block *)
Definition pat_client_row : Re.re :=
  Re.seq [ Re.Bol; Re.Star Re.space; Re.plus Re.digit09; Re.plus Re.space ].

(** The processor object.  [send_command] is the optional callback;
    [commands_sent] records the commands handed to it. *)
Record t : Type := Processor {
  send_command : bool;
  commands_sent : list string;
  _status_parser : StatusParser.StatusParseContext;
  _status_client_count : Z;
  _recent_fraglimit_hit : bool;
  _recent_game_initialization : bool
}.

Definition new (send_command_callback : bool) : t :=
  Processor send_command_callback [] StatusParser.new 0 false false.

Definition set_parser (p : t) (ctx : StatusParser.StatusParseContext) : t :=
  Processor (send_command p) (commands_sent p) ctx (_status_client_count p)
            (_recent_fraglimit_hit p) (_recent_game_initialization p).

Definition set_client_count (p : t) (n : Z) : t :=
  Processor (send_command p) (commands_sent p) (_status_parser p) n
            (_recent_fraglimit_hit p) (_recent_game_initialization p).

Definition set_fraglimit_hit (p : t) (b : bool) : t :=
  Processor (send_command p) (commands_sent p) (_status_parser p)
            (_status_client_count p) b (_recent_game_initialization p).

Definition set_game_initialization (p : t) (b : bool) : t :=
  Processor (send_command p) (commands_sent p) (_status_parser p)
            (_status_client_count p) (_recent_fraglimit_hit p) b.

Definition call_send_command (p : t) (cmd : string) : t :=
  if send_command p
  then Processor true (commands_sent p ++ [cmd]) (_status_parser p)
                 (_status_client_count p) (_recent_fraglimit_hit p)
                 (_recent_game_initialization p)
  else p.

(** [int(match.group(i))]; [None] is the ValueError that [int] raises on
    a group of more than 4300 digits. *)
Definition int_group (i : nat) (m : Re.match_obj) : option Z :=
  Re.group i m ≫= Py.int.

(** [match.group(1).strip() if match.group(1) else ""] *)
Definition stripped_group (i : nat) (m : Re.match_obj) : string :=
  match Re.group i m with
  | Some g => if Py.is_empty g then "" else Py.strip g
  | None => ""
  end.

(** [None] is the ValueError of one of the two [int] calls; both come
    before the command is sent, so nothing has happened when it is
    raised. *)
Definition _handle_client_connecting (p : t) (raw_message : string)
    (m : Re.match_obj) : option (t * ParsedMessage) :=
  client_id ← int_group 1 m;
  challenge_ping ← int_group 2 m;
  let p := call_send_command p "status" in
  Some (p, Parsed CLIENT_CONNECT raw_message
             (<["client_id" := VInt client_id]>
              (<["challenge_ping" := VInt challenge_ping]>
               {["needs_status_parse" := VBool true]}))).

Definition _handle_client_disconnect (p : t) (raw_message : string)
    (m : Re.match_obj) : option (t * ParsedMessage) :=
  client_id ← int_group 1 m;
  Some (p, Parsed CLIENT_DISCONNECT raw_message
             {["client_id" := VInt client_id]}).

Definition _handle_game_initialization (p : t) (raw_message : string)
  : t * ParsedMessage :=
  let p := set_game_initialization p true in
  (p, Parsed GAME_INITIALIZATION raw_message
        (<["event" := VStr "game_initialization"]>
         {["awaiting_type_determination" := VBool true]})).

Definition _handle_match_end (p : t) (raw_message : string)
    (m : Re.match_obj) : t * ParsedMessage :=
  let reason := Py.lower (default "" (Re.group 1 m)) in
  let p := set_fraglimit_hit p true in
  (p, Parsed GAME_END raw_message
        (<["event" := VStr "match_ended"]> {["reason" := VStr reason]})).

Definition _handle_warmup_state (p : t) (raw_message : string)
    (m : Re.match_obj) : t * ParsedMessage :=
  let warmup_info := stripped_group 1 m in
  let initialization_type :=
    if _recent_game_initialization p
    then "warmup_initialization" else "warmup_only" in
  let p := set_fraglimit_hit p false in
  let p := set_game_initialization p false in
  (p, Parsed WARMUP_START raw_message
        (<["event" := VStr "warmup_started"]>
         (<["warmup_info" := VStr warmup_info]>
          (<["is_active" := VBool true]>
           (<["initialization_type" := VStr initialization_type]>
            {["follows_game_initialization" :=
                VBool (String.eqb initialization_type
                                  "warmup_initialization")]}))))).

Definition _handle_shutdown_game (p : t) (raw_message : string)
    (m : Re.match_obj) : t * ParsedMessage :=
  let shutdown_info := stripped_group 1 m in
  let is_match_end := _recent_fraglimit_hit p in
  let '(event_type, p) :=
    if _recent_fraglimit_hit p
    then ("match_end", set_fraglimit_hit p false)
    else ("warmup_end", p) in
  (p, Parsed SERVER_SHUTDOWN raw_message
        (<["event" := VStr event_type]>
         (<["shutdown_info" := VStr shutdown_info]>
          {["is_match_end" := VBool is_match_end]}))).

(** The [for i, line in enumerate(lines, 1)] loop of
    [_extract_client_data_from_status]. *)
Fixpoint extract_loop (i : Z) (lines : list string)
    (client_data_list : list OAStatusParser.client)
  : list OAStatusParser.client :=
  match lines with
  | [] => client_data_list
  | line :: rest =>
      if i <=? 3 then extract_loop (i + 1) rest client_data_list
      else
        match OAStatusParser.parse_client_line line with
        | Some client_data =>
            let existing :=
              find (fun c => OAStatusParser.client_id c
                             =? OAStatusParser.client_id client_data)
                   client_data_list in
            match existing with
            | None => extract_loop (i + 1) rest
                                   (client_data_list ++ [client_data])
            | Some _ => extract_loop (i + 1) rest client_data_list
            end
        | None => extract_loop (i + 1) rest client_data_list
        end
  end.

Definition _extract_client_data_from_status (p : t)
  : list OAStatusParser.client :=
  extract_loop 1 (StatusParser.lines (_status_parser p)) [].

Definition status_complete_message (client_data : list OAStatusParser.client)
  : ParsedMessage :=
  Parsed STATUS_UPDATE "STATUS_COMPLETE"
    (<["client_data" := VOAClients client_data]>
     {["status_complete" := VBool true]}).

Definition _complete_status_parsing (p : t) : t * ParsedMessage :=
  let client_data := _extract_client_data_from_status p in
  let p := set_parser p (fst (StatusParser.complete (_status_parser p))) in
  (p, status_complete_message client_data).

Definition _complete_status_parsing_and_reprocess (p : t)
    (raw_message : string) : t * ParsedMessage :=
  let client_data := _extract_client_data_from_status p in
  let p := set_parser p (fst (StatusParser.complete (_status_parser p))) in
  match client_data with
  | _ :: _ => (p, status_complete_message client_data)
  | [] => (p, Parsed UNKNOWN raw_message no_data)
  end.

Definition _handle_status_line (p : t) (raw_message : string)
  : t * ParsedMessage :=
  let p := set_parser p (StatusParser.add_line (_status_parser p) raw_message) in
  let line_count := StatusParser.line_count (_status_parser p) in
  if OAStatusParser.is_separator raw_message then
    let p := set_parser p (StatusParser.mark_separator_seen (_status_parser p)) in
    (p, Parsed STATUS_UPDATE raw_message no_data)
  else if Py.startswith "map:" raw_message then
    (p, Parsed STATUS_UPDATE raw_message no_data)
  else if OAStatusParser.is_status_header raw_message then
    (p, Parsed STATUS_UPDATE raw_message no_data)
  else if StatusParser.seen_separator (_status_parser p) then
    match Re.re_match pat_client_row raw_message with
    | Some _ =>
        match OAStatusParser.parse_client_line raw_message with
        | Some client_data =>
            let p := set_client_count p (_status_client_count p + 1) in
            (p, Parsed STATUS_UPDATE raw_message
                  (<["client_data" := VOAClient client_data]>
                   {["line_number" := VInt line_count]}))
        | None => (p, Parsed STATUS_UPDATE raw_message no_data)
        end
    | None => _complete_status_parsing_and_reprocess p raw_message
    end
  else (p, Parsed STATUS_UPDATE raw_message no_data).

(** [process_message]; [None] is the ValueError that escapes from the
    handlers of the two client lines.  It is raised before the processor
    is changed. *)
Definition process_message (p : t) (raw_message : string)
  : option (t * ParsedMessage) :=
  let raw_message := Py.strip raw_message in
  if Py.is_empty raw_message then
    if StatusParser.is_parsing (_status_parser p)
    then Some (_complete_status_parsing p)
    else Some (p, Parsed UNKNOWN raw_message no_data)
  else
  match Re.re_match pat_CLIENT_CONNECT raw_message with
  | Some m => _handle_client_connecting p raw_message m
  | None =>
  match Re.re_match pat_CLIENT_DISCONNECT raw_message with
  | Some m => _handle_client_disconnect p raw_message m
  | None =>
  match Re.re_match pat_GAME_INITIALIZATION raw_message with
  | Some _ => Some (_handle_game_initialization p raw_message)
  | None =>
  match Re.re_match pat_GAME_END raw_message with
  | Some m => Some (_handle_match_end p raw_message m)
  | None =>
  match Re.re_match pat_WARMUP_START raw_message with
  | Some m => Some (_handle_warmup_state p raw_message m)
  | None =>
  match Re.re_match pat_SERVER_SHUTDOWN raw_message with
  | Some m => Some (_handle_shutdown_game p raw_message m)
  | None =>
    if OAStatusParser.is_status_header raw_message then
      let p := set_parser p (StatusParser.start_parsing (_status_parser p)) in
      let p := set_client_count p 0 in
      Some (_handle_status_line p raw_message)
    else if StatusParser.is_parsing (_status_parser p) then
      Some (_handle_status_line p raw_message)
    else Some (p, Parsed UNKNOWN raw_message no_data)
  end end end end end end.

(** Feeding console lines one after the other, as [run_server_loop] and
    [read_messages] do; the messages come out in line order.  Both loops
    end at the first line on which [process_message] raises: the lines
    after it are not read. *)
Fixpoint process_all (p : t) (raws : list string) : t * list ParsedMessage :=
  match raws with
  | [] => (p, [])
  | raw :: rest =>
      match process_message p raw with
      | Some (p1, m) =>
          let '(p2, ms) := process_all p1 rest in
          (p2, m :: ms)
      | None => (p, [])
      end
  end.

End OAMessageProcessor.

(** ** core/adapters/amp/message_processor.py *)

Module AMPMessageProcessor.
Import Base.

(** The processor object; the base-class parser context it also owns is
    never read or written by [process_message]. *)
Record t : Type := Processor {
  _in_player_section : bool;
  _collected_clients : list AMPStatusParser.client
}.

Definition new : t := Processor false [].

Definition process_message (p : t) (raw_message : string)
  : t * ParsedMessage :=
  let raw_message := Py.strip raw_message in
  if Py.is_empty raw_message then
    (p, Parsed UNKNOWN raw_message no_data)
  else if AMPStatusParser.is_status_header raw_message then
    (Processor true [], Parsed STATUS_UPDATE raw_message no_data)
  else if _in_player_section p && AMPStatusParser.is_section_end raw_message
  then
    let clients := _collected_clients p in
    (Processor false [],
     Parsed STATUS_UPDATE raw_message
       (<["clients" := VAMPClients clients]>
        {["status_complete" := VBool true]}))
  else if _in_player_section p then
    if AMPStatusParser.is_column_header raw_message then
      (p, Parsed STATUS_UPDATE raw_message no_data)
    else
      match AMPStatusParser.parse_client_line raw_message with
      | Some client =>
          (Processor (_in_player_section p) (_collected_clients p ++ [client]),
           Parsed STATUS_UPDATE raw_message {["client_data" := VAMPClient client]})
      | None => (p, Parsed STATUS_UPDATE raw_message no_data)
      end
  else (p, Parsed UNKNOWN raw_message no_data).

Fixpoint process_all (p : t) (raws : list string) : t * list ParsedMessage :=
  match raws with
  | [] => (p, [])
  | raw :: rest =>
      let '(p1, m) := process_message p raw in
      let '(p2, ms) := process_all p1 rest in
      (p2, m :: ms)
  end.

(** The client of one row of a player section: a row that is blank or is
    the column header has none. *)
Definition row_client (raw : string) : option AMPStatusParser.client :=
  let line := Py.strip raw in
  if Py.is_empty line || AMPStatusParser.is_column_header line then None
  else AMPStatusParser.parse_client_line line.

(** The clients of the rows of a block, one for every row that parses, in
    row order. *)
Definition block_clients (rows : list string) : list AMPStatusParser.client :=
  omap row_client rows.

(** A row inside a block: neither a new start marker nor the end marker. *)
Definition inner_row (raw : string) : Prop :=
  AMPStatusParser.is_status_header (Py.strip raw) = false
  ∧ AMPStatusParser.is_section_end (Py.strip raw) = false.

(** The message that closes a block whose rows gave [clients]. *)
Definition section_end_message (raw_message : string)
    (clients : list AMPStatusParser.client) : ParsedMessage :=
  Parsed STATUS_UPDATE raw_message
    (<["clients" := VAMPClients clients]> {["status_complete" := VBool true]}).

End AMPMessageProcessor.

(** ** core/adapters/amp/adapter.py: the polling loop and its dedup cache *)

Module AMPGameAdapter.
Import Base.

(** A console entry; [timestamp] holds [entry.timestamp.isoformat()]. *)
Record ConsoleEntry : Type := Entry {
  timestamp : string;
  source : string;
  entry_type : string;
  contents : string
}.

(** The adapter fields the polling loop reads and writes.
    [authenticated] is [api.is_authenticated], which [is_connected]
    returns; [_seen_messages] lists the keys of the ordered dictionary,
    oldest first. *)
Record t : Type := Adapter {
  _polling : bool;
  _shutdown_requested : bool;
  authenticated : bool;
  _seen_messages : list string;
  _message_processor : AMPMessageProcessor.t
}.

(** [self._max_seen_cache = 1000], assigned once in [__init__]. *)
Definition _max_seen_cache : nat := 1000.

Definition new : t := Adapter false false false [] AMPMessageProcessor.new.

(** [f"{entry.timestamp.isoformat()}:{entry.contents}"] *)
Definition msg_key (entry : ConsoleEntry) : string :=
  timestamp entry +:+ ":" +:+ contents entry.

(** [key in self._seen_messages] *)
Definition seen (key : string) (cache : list string) : bool :=
  existsb (String.eqb key) cache.

(** [while len(seen) > max: seen.popitem(last=False)] *)
Fixpoint evict (max : nat) (cache : list string) : list string :=
  match cache with
  | [] => []
  | _ :: rest => if (max <? length cache)%nat then evict max rest else cache
  end.

(** The [for line in lines] loop: every line that is not blank is parsed
    and yielded. *)
Fixpoint yield_lines (p : AMPMessageProcessor.t) (lines : list string)
  : AMPMessageProcessor.t * list ParsedMessage :=
  match lines with
  | [] => (p, [])
  | line :: rest =>
      if Py.is_empty (Py.strip line) then yield_lines p rest
      else
        let '(p1, parsed) := AMPMessageProcessor.process_message p line in
        let '(p2, out) := yield_lines p1 rest in
        (p2, parsed :: out)
  end.

(** The body of [for entry in updates.console_entries]. *)
Definition handle_entry (a : t) (entry : ConsoleEntry)
  : t * list ParsedMessage :=
  let key := msg_key entry in
  if seen key (_seen_messages a) then (a, [])
  else
    let cache := evict _max_seen_cache (_seen_messages a ++ [key]) in
    let lines := Py.split_on Re.newline (contents entry) in
    let '(p, out) := yield_lines (_message_processor a) lines in
    (Adapter (_polling a) (_shutdown_requested a) (authenticated a)
             cache p, out).

(** The messages an entry yields when it is not suppressed: its lines that
    are not blank, parsed in order. *)
Definition entry_events (a : t) (entry : ConsoleEntry) : list ParsedMessage :=
  snd (yield_lines (_message_processor a)
                   (Py.split_on Re.newline (contents entry))).

Fixpoint handle_entries (a : t) (entries : list ConsoleEntry)
  : t * list ParsedMessage :=
  match entries with
  | [] => (a, [])
  | entry :: rest =>
      let '(a1, out1) := handle_entry a entry in
      let '(a2, out2) := handle_entries a1 rest in
      (a2, out1 ++ out2)
  end.

(** What one [await self.api.get_updates()] does: it returns the console
    entries, or raises [AMPAPIError], after which [api.login()] is tried
    once and succeeds or raises. *)
Inductive rpc_result : Type :=
| Updates (console_entries : list ConsoleEntry)
| RpcError (relogin_ok : bool).

Definition set_authenticated (a : t) (b : bool) : t :=
  Adapter (_polling a) (_shutdown_requested a) b (_seen_messages a)
          (_message_processor a).

Definition loop_condition (a : t) : bool :=
  _polling a && authenticated a && negb (_shutdown_requested a).

(** One iteration of the [while] loop; the boolean tells whether the loop
    goes on ([false] after [break]). *)
Definition poll_once (a : t) (r : rpc_result) : t * list ParsedMessage * bool :=
  match r with
  | Updates entries =>
      let '(a', out) := handle_entries a entries in (a', out, true)
  | RpcError true => (set_authenticated a true, [], true)
  | RpcError false => (set_authenticated a false, [], false)
  end.

Fixpoint poll_loop (a : t) (polls : list rpc_result) : t * list ParsedMessage :=
  match polls with
  | [] => (a, [])
  | r :: rest =>
      if loop_condition a then
        let '(a1, out1, continue) := poll_once a r in
        if continue then
          let '(a2, out2) := poll_loop a1 rest in (a2, out1 ++ out2)
        else (a1, out1)
      else (a, [])
  end.

(** [self._polling = True; self._seen_messages.clear()] *)
Definition start_reading (a : t) : t :=
  Adapter true (_shutdown_requested a) (authenticated a) []
          (_message_processor a).

(** [read_messages] run against the given answers of the panel: the
    messages it yields, in order, and the adapter afterwards. *)
Definition read_messages (a : t) (polls : list rpc_result)
  : t * list ParsedMessage :=
  poll_loop (start_reading a) polls.

(** [connect]; [login_ok] tells whether [api.login()] returns or raises. *)
Definition connect (a : t) (login_ok : bool) : t * bool :=
  (Adapter false false login_ok (_seen_messages a) (_message_processor a),
   login_ok).

(** [disconnect] *)
Definition disconnect (a : t) : t :=
  if negb (authenticated a)
  then Adapter false true (authenticated a) (_seen_messages a)
               (_message_processor a)
  else Adapter false true false [] (_message_processor a).

(** The key [k] is in the cache with at most [n] keys newer than it. *)
Definition cached_within (k : string) (n : nat) (cache : list string) : Prop :=
  ∃ older newer, cache = older ++ k :: newer ∧ (length newer <= n)%nat.

End AMPGameAdapter.

(** ** core/game/state_manager.py *)

Module GameStateManager.

Inductive GameState : Type := WAITING | WARMUP | RUNNING.

#[export] Instance GameState_eq_dec : EqDecision GameState.
Proof. solve_decision. Defined.

Record t : Type := Manager {
  current_state : GameState;
  round_count : Z;
  warmup_round_count : Z;
  max_rounds : Z
}.

(** [__init__]; [latencies] and [repeats] are read from the settings. *)
Definition new (latencies : list Z) (repeats : Z) : t :=
  Manager WAITING 1 0 (Z.of_nat (length latencies) * repeats).

(** The values of the result dictionaries. *)
Inductive rvalue : Type :=
| RBool (b : bool)
| RActions (actions : list string).

Definition set_state (g : t) (s : GameState) : t :=
  Manager s (round_count g) (warmup_round_count g) (max_rounds g).

Definition state_result (state_changed : bool) (actions : list string)
  : gmap string rvalue :=
  <["state_changed" := RBool state_changed]> {["actions" := RActions actions]}.

Definition handle_warmup_detected (g : t) : t * gmap string rvalue :=
  match current_state g with
  | WAITING => (set_state g WARMUP, state_result true [])
  | WARMUP => (g, state_result false [])
  | RUNNING => (set_state g WARMUP, state_result true [])
  end.

Definition handle_game_initialization_detected (g : t)
  : t * gmap string rvalue :=
  (set_state g RUNNING, state_result true []).

Definition handle_match_start_detected (g : t) : t * gmap string rvalue :=
  match current_state g with
  | WARMUP =>
      (set_state g RUNNING,
       state_result true ["start_match_recording"; "apply_latency"])
  | _ => (g, state_result false [])
  end.

Definition shutdown_result (round_completed experiment_finished : bool)
    (actions : list string) : gmap string rvalue :=
  <["round_completed" := RBool round_completed]>
  (<["experiment_finished" := RBool experiment_finished]>
   {["actions" := RActions actions]}).

Definition handle_match_shutdown_detected (g : t) : t * gmap string rvalue :=
  match current_state g with
  | RUNNING =>
      let g := Manager (current_state g) (round_count g + 1)
                       (warmup_round_count g) (max_rounds g) in
      if max_rounds g <=? round_count g
      then (g, shutdown_result false true [])
      else (g, shutdown_result true false ["rotate_latency"])
  | _ => (g, shutdown_result false false [])
  end.

Definition transition_to (g : t) (new_state : GameState) : t :=
  set_state g new_state.

Definition reset_to_waiting (g : t) : t := transition_to g WAITING.

Definition get_current_state (g : t) : GameState := current_state g.

Definition is_experiment_finished (g : t) : bool :=
  bool_decide (current_state g = RUNNING) && (max_rounds g <=? round_count g).

(** The operations that write to the manager. *)
Inductive op : Type :=
| OpWarmupDetected
| OpGameInitialization
| OpMatchStart
| OpMatchShutdown
| OpTransitionTo (new_state : GameState)
| OpResetToWaiting.

Definition apply (o : op) (g : t) : t :=
  match o with
  | OpWarmupDetected => fst (handle_warmup_detected g)
  | OpGameInitialization => fst (handle_game_initialization_detected g)
  | OpMatchStart => fst (handle_match_start_detected g)
  | OpMatchShutdown => fst (handle_match_shutdown_detected g)
  | OpTransitionTo s => transition_to g s
  | OpResetToWaiting => reset_to_waiting g
  end.

Definition apply_all (os : list op) (g : t) : t :=
  fold_left (fun g o => apply o g) os g.

(** [result.get(key)] as a truth value, and the action list. *)
Definition flag (key : string) (result : gmap string rvalue) : bool :=
  match result !! key with
  | Some (RBool b) => b
  | Some (RActions l) => negb (bool_decide (l = []))
  | None => false
  end.

Definition actions_of (result : gmap string rvalue) : option (list string) :=
  match result !! "actions" with
  | Some (RActions l) => Some l
  | _ => None
  end.

End GameStateManager.

(** ** core/server/shutdown_strategies.py *)

Module ShutdownStrategies.
Import GameStateManager.

(** Coroutines handed to [adapter.run_async]. *)
Inductive coroutine : Type :=
| stop_match_recording
| start_match_recording.

(** Calls into the collaborators of the adapter, in program order. *)
Inductive effect : Type :=
| Scheduled (c : coroutine)
| SendCommandSync (command : string)
| RotateLatencies
| ApplyLatencyRules
| SetNextRoundWithWarmupPhase.

(** The part of the adapter the strategies use. [async_loop] tells whether
    an event loop was provided; [latency_enabled] is
    [network_manager.is_enabled()]. *)
Record adapter : Type := Adapter {
  game_state_manager : GameStateManager.t;
  insufficient_humans : bool;
  async_loop : bool;
  shutdown_requested : bool;
  latency_enabled : bool;
  effects : list effect
}.

Definition emit (a : adapter) (e : effect) : adapter :=
  Adapter (game_state_manager a) (insufficient_humans a) (async_loop a)
          (shutdown_requested a) (latency_enabled a) (effects a ++ [e]).

Definition set_manager (a : adapter) (g : GameStateManager.t) : adapter :=
  Adapter g (insufficient_humans a) (async_loop a) (shutdown_requested a)
          (latency_enabled a) (effects a).

(** [adapter.run_async(coro)] *)
Definition run_async (a : adapter) (c : coroutine) : adapter :=
  if async_loop a && negb (shutdown_requested a)
  then emit a (Scheduled c) else a.

Definition in_actions (action : string) (actions : list string) : bool :=
  bool_decide (action ∈ actions).

Definition _process_match_shutdown_actions (a : adapter)
    (actions : list string) : adapter :=
  if in_actions "rotate_latency" actions then emit a RotateLatencies else a.

Definition MatchShutdownStrategy_handle (a : adapter) : adapter :=
  let a := run_async a stop_match_recording in
  let '(g, result) := handle_match_shutdown_detected (game_state_manager a) in
  let a := set_manager a g in
  let a := match actions_of result with
           | Some actions => _process_match_shutdown_actions a actions
           | None => a
           end in
  let a := if flag "experiment_finished" result
           then emit a (SendCommandSync "killserver")
           else emit a (SendCommandSync "say Match completed!") in
  set_manager a (reset_to_waiting (game_state_manager a)).

Definition WarmupShutdownStrategy_handle (a : adapter) : adapter :=
  if insufficient_humans a then emit a SetNextRoundWithWarmupPhase
  else
    let '(g, result) := handle_match_start_detected (game_state_manager a) in
    let a := set_manager a g in
    let a :=
      match actions_of result with
      | Some actions =>
          let a := if in_actions "start_match_recording" actions
                   then run_async a start_match_recording else a in
          if in_actions "apply_latency" actions
          then (if latency_enabled a then emit a ApplyLatencyRules else a)
          else a
      | None => a
      end in
    set_manager a (reset_to_waiting (game_state_manager a)).

(** The two members of the strategy table, keyed by the [event] of the
    shutdown message. *)
Inductive strategy : Type := MatchShutdownStrategy | WarmupShutdownStrategy.

Definition handle (s : strategy) (a : adapter) : adapter :=
  match s with
  | MatchShutdownStrategy => MatchShutdownStrategy_handle a
  | WarmupShutdownStrategy => WarmupShutdownStrategy_handle a
  end.

End ShutdownStrategies.

(** ** core/network/network_manager.py: the client registry *)

Module NetworkManager.

Definition BOT_NAMES : list string :=
  [ "Angelyss"; "Arachna"; "Major"; "Sarge";
    "Skelebot"; "Merman"; "Beret"; "Kyonshi" ].

Record t : Type := Manager {
  ip_latency_map : gmap string Z;
  client_ip_map : gmap Z string;
  client_type_map : gmap Z string;
  client_name_map : gmap Z string;
  obs_status_map : gmap string bool;
  player_count : Z;
  human_count : Z;
  bot_count : Z
}.

Definition new : t := Manager ∅ ∅ ∅ ∅ ∅ 0 0 0.

(** Truth value of an optional string: [None] and [""] are false. *)
Definition truthy (o : option string) : bool :=
  match o with
  | Some s => negb (Py.is_empty s)
  | None => false
  end.

(** [len([cid for cid, ctype in client_type_map.items() if ctype == kind])] *)
Definition count_type (kind : string) (m : gmap Z string) : Z :=
  Z.of_nat (size (filter (fun kv : Z * string => kv.2 = kind) m)).

Definition add_client (st : t) (client_id : Z) (ip : option string)
    (latency : option Z) (name : option string) (is_bot : bool) : t :=
  let is_bot :=
    if truthy name && bool_decide (default "" name ∈ BOT_NAMES)
    then true else is_bot in
  let types := <[client_id := if is_bot then "BOT" else "HUMAN"]>
                 (client_type_map st) in
  let names := if truthy name
               then <[client_id := default "" name]> (client_name_map st)
               else client_name_map st in
  if negb is_bot && truthy ip then
    let ip := default "" ip in
    let '(ips, lats, obs) :=
      match ip_latency_map st !! ip with
      | None =>
          (<[client_id := ip]> (client_ip_map st),
           <[ip := default 0 latency]> (ip_latency_map st),
           <[ip := false]> (obs_status_map st))
      | Some _ =>
          (<[client_id := ip]> (client_ip_map st),
           ip_latency_map st, obs_status_map st)
      end in
    let humans := count_type "HUMAN" types in
    Manager lats ips types names obs (humans + bot_count st) humans
            (bot_count st)
  else if is_bot then
    let bots := count_type "BOT" types in
    Manager (ip_latency_map st) (client_ip_map st) types names
            (obs_status_map st) (human_count st + bots) (human_count st) bots
  else
    Manager (ip_latency_map st) (client_ip_map st) types names
            (obs_status_map st) (human_count st + bot_count st)
            (human_count st) (bot_count st).

End NetworkManager.

(** ** Vocabulary of the statements about the OpenArena processor *)

Module OAEvents.
Import Base.

(** The message is a warmup start or a shutdown: one of the two events
    that clear the recent-fraglimit flag. *)
Definition clears_flag (m : ParsedMessage) : Prop :=
  message_type m = WARMUP_START ∨ message_type m = SERVER_SHUTDOWN.

(** Among the messages [ms], oldest first, there is a GameEnd with no
    warmup start and no shutdown after it. *)
Definition game_end_pending (ms : list ParsedMessage) : Prop :=
  ∃ pre g post,
    ms = pre ++ g :: post
    ∧ message_type g = GAME_END
    ∧ Forall (fun m => ¬ clears_flag m) post.

(** The shutdown message is classified as a match end. *)
Definition is_match_end (m : ParsedMessage) : Prop :=
  data m !! "event" = Some (VStr "match_end").

Definition is_warmup_end (m : ParsedMessage) : Prop :=
  data m !! "event" = Some (VStr "warmup_end").

(** What one processed line does to the recent-fraglimit flag, read off
    the type of the message it produced. *)
Definition flag_after (m : ParsedMessage) (before : bool) : bool :=
  match message_type m with
  | GAME_END => true
  | WARMUP_START | SERVER_SHUTDOWN => false
  | _ => before
  end.

(** The client record [c] is the parse of one of the lines [source]. *)
Definition parsed_from (source : list string) (c : OAStatusParser.client)
  : Prop :=
  ∃ line, line ∈ source ∧ OAStatusParser.parse_client_line line = Some c.

(** The shape of a status-complete message of the OpenArena processor:
    the client list under [client_data], no key [clients], no client id
    twice, every record parsed from a line of [source]. *)
Definition well_formed (source : list string) (m : ParsedMessage) : Prop :=
  status_complete m →
  data m !! "clients" = None
  ∧ ∃ l, data m !! "client_data" = Some (VOAClients l)
         ∧ NoDup (map OAStatusParser.client_id l)
         ∧ Forall (parsed_from source) l.

(** A status or unknown message: none of the events above. *)
Definition quiet (m : ParsedMessage) : Prop :=
  message_type m = STATUS_UPDATE ∨ message_type m = UNKNOWN.

(** None of the six event patterns of [process_message] matches the
    line. *)
Definition no_event (line : string) : Prop :=
  Re.re_match OAMessageProcessor.pat_CLIENT_CONNECT line = None
  ∧ Re.re_match OAMessageProcessor.pat_CLIENT_DISCONNECT line = None
  ∧ Re.re_match OAMessageProcessor.pat_GAME_INITIALIZATION line = None
  ∧ Re.re_match OAMessageProcessor.pat_GAME_END line = None
  ∧ Re.re_match OAMessageProcessor.pat_WARMUP_START line = None
  ∧ Re.re_match OAMessageProcessor.pat_SERVER_SHUTDOWN line = None.

(** The line that opens a status block. *)
Definition block_header (raw : string) : Prop :=
  Py.is_empty (Py.strip raw) = false
  ∧ no_event (Py.strip raw)
  ∧ OAStatusParser.is_status_header (Py.strip raw) = true.

(** The separator line under the header. *)
Definition block_separator (raw : string) : Prop :=
  Py.is_empty (Py.strip raw) = false
  ∧ no_event (Py.strip raw)
  ∧ OAStatusParser.is_status_header (Py.strip raw) = false
  ∧ OAStatusParser.is_separator (Py.strip raw) = true.

(** A row of a status block: a line that [_handle_status_line] takes for
    client data, [re.match(r"^\s*\d+\s+", line)]. *)
Definition block_row (raw : string) : Prop :=
  Py.is_empty (Py.strip raw) = false
  ∧ no_event (Py.strip raw)
  ∧ OAStatusParser.is_status_header (Py.strip raw) = false
  ∧ OAStatusParser.is_separator (Py.strip raw) = false
  ∧ Py.startswith "map:" (Py.strip raw) = false
  ∧ Re.re_match OAMessageProcessor.pat_client_row (Py.strip raw) ≠ None.

End OAEvents.

(** ** Concrete inputs used by the examples below *)

Module Scenarios.

(** Warmup is running and fewer humans than the threshold are connected. *)
Definition short_of_players : ShutdownStrategies.adapter :=
  ShutdownStrategies.Adapter
    (GameStateManager.Manager GameStateManager.WARMUP 1 0 3)
    true true false false [].

(** A console entry numbered [n] (below 1000), all stamped alike. *)
Definition digit_char (n : nat) : ascii := ascii_of_nat (48 + n mod 10).

Definition numbered_entry (n : nat) : AMPGameAdapter.ConsoleEntry :=
  AMPGameAdapter.Entry "2025-01-01T12:00:01" "Console" "Console"
    (String (digit_char (n / 100))
       (String (digit_char (n / 10)) (String (digit_char n) ""))).

Definition hello : AMPGameAdapter.ConsoleEntry :=
  AMPGameAdapter.Entry "2025-01-01T12:00:00" "Console" "Console" "hello".

(** An OpenArena status block with two clients, ended by an empty line. *)
Definition oa_block : list string :=
  [ "num score ping name            lastmsg address               qport rate";
    "--- ----- ---- --------------- ------- --------------------- ----- -----";
    "  0    5  100 Player1              0 192.168.1.100:27961   12345 25000";
    "  1    3   50 BotPlayer            0 bot                       0 25000";
    "" ].

(** An AMP player section in which the id 3 appears on two rows. *)
Definition amp_block_rows : list string :=
  [ "  id     time ping loss      state   rate adr name";
    "  3    00:05   12    0   spawning  80000 127.190.6.117:52271 'first'";
    "  3    00:09   15    0   spawning  80000 127.190.6.118:52272 'second'" ].

Definition amp_block : list string :=
  "---------players--------" :: amp_block_rows ++ ["#end"].

(** A segment of 4301 digits that denotes the number 1: 4300 zeros and
    a one. *)
Definition padded_one : string := Pos.iter (String "0") "1" 4300%positive.

(** An adapter that has logged in. *)
Definition logged_in : AMPGameAdapter.t :=
  fst (AMPGameAdapter.connect AMPGameAdapter.new true).

(** The same adapter once [read_messages] has started. *)
Definition polling : AMPGameAdapter.t := AMPGameAdapter.start_reading logged_in.

(** The polling adapter after a thousand numbered entries: the cache is
    full. *)
Definition full_cache : AMPGameAdapter.t :=
  fst (AMPGameAdapter.handle_entries polling (map numbered_entry (seq 0 1000))).

End Scenarios.

(** ** More string primitives *)

Module PyText.

(** [s.split(sep, 1)] for a separator that occurs in [s]: the text before
    its first occurrence and the text after it; [None] when it does not
    occur. *)
Fixpoint split_once (sep : ascii) (s : string) : option (string * string) :=
  match s with
  | EmptyString => None
  | String c r =>
      if Ascii.eqb c sep then Some (EmptyString, r)
      else '(u, p) ← split_once sep r; Some (String c u, p)
  end.

(** [sep.join(parts)] *)
Fixpoint join (sep : string) (parts : list string) : string :=
  match parts with
  | [] => EmptyString
  | p :: rest =>
      match rest with
      | [] => p
      | _ :: _ => p +:+ sep +:+ join sep rest
      end
  end.

(** [str(n)] and the formatting of an integer in an f-string; [None] is
    the ValueError for a number of more than 4300 decimal digits (the
    sign does not count). *)
Definition str_of_int (n : Z) : option string :=
  if Py.int_max_str_digits
     <? Z.of_nat (String.length (pretty.pretty (Z.abs_N n)))
  then None else Some (pretty.pretty n).

End PyText.

(** ** core/adapters/amp/adapter.py: credentials and shutdown flags *)

Module AMPAdapterControl.
Import AMPGameAdapter.

(** [_parse_credentials]; [None] is [ValueError]. *)
Definition _parse_credentials (password_field : option string)
  : option (string * string) :=
  match password_field with
  | None => None
  | Some field =>
      if Py.is_empty field then None
      else if negb (Py.contains ":" field) then None
      else
        '(username, password) ← PyText.split_once ":" field;
        if Py.is_empty (Py.strip username) then None
        else if Py.is_empty (Py.strip password) then None
        else Some (Py.strip username, Py.strip password)
  end.

(** [request_shutdown]; [stop_server] sets the same two flags before it
    asks the panel to stop the instance. *)
Definition request_shutdown (a : t) : t :=
  Adapter false true (authenticated a) (_seen_messages a)
          (_message_processor a).

(** The line is one of the lines of a console entry that one of the
    polls returned. *)
Definition delivered (polls : list rpc_result) (line : string) : Prop :=
  ∃ entries e,
    Updates entries ∈ polls ∧ e ∈ entries
    ∧ line ∈ Py.split_on Re.newline (contents e).

End AMPAdapterControl.

(** ** core/network/network_manager.py: removal and OBS status *)

Module NetworkOps.
Import NetworkManager.

(** [ip in self.client_ip_map.values()] *)
Definition ip_in_use (ip : string) (m : gmap Z string) : bool :=
  bool_decide (map_Exists (fun _ v => v = ip) m).

Definition remove_client (st : t) (client_id : Z) : t :=
  let '(ips, lats, obs) :=
    match client_ip_map st !! client_id with
    | Some ip =>
        let ips := delete client_id (client_ip_map st) in
        if negb (ip_in_use ip ips)
        then (ips, delete ip (ip_latency_map st), delete ip (obs_status_map st))
        else (ips, ip_latency_map st, obs_status_map st)
    | None => (client_ip_map st, ip_latency_map st, obs_status_map st)
    end in
  let types := delete client_id (client_type_map st) in
  let names := delete client_id (client_name_map st) in
  let humans := count_type "HUMAN" types in
  let bots := count_type "BOT" types in
  Manager lats ips types names obs (humans + bots) humans bots.

Definition get_client_ip (st : t) (client_id : Z) : option string :=
  client_ip_map st !! client_id.

Definition set_obs_status (st : t) (ip : string) (connected : bool) : t :=
  match ip_latency_map st !! ip with
  | Some _ =>
      Manager (ip_latency_map st) (client_ip_map st) (client_type_map st)
              (client_name_map st) (<[ip := connected]> (obs_status_map st))
              (player_count st) (human_count st) (bot_count st)
  | None => st
  end.

(** The counters agree with the type map. *)
Definition counts_exact (st : t) : Prop :=
  human_count st = count_type "HUMAN" (client_type_map st)
  ∧ bot_count st = count_type "BOT" (client_type_map st)
  ∧ player_count st = human_count st + bot_count st.

(** Nothing is recorded about the client or about the address. *)
Definition unknown_client (st : t) (client_id : Z) (ip : string) : Prop :=
  client_type_map st !! client_id = None
  ∧ client_name_map st !! client_id = None
  ∧ client_ip_map st !! client_id = None
  ∧ ip_latency_map st !! ip = None
  ∧ obs_status_map st !! ip = None
  ∧ ip_in_use ip (client_ip_map st) = false.

(** The calls that write to the registry. *)
Inductive op : Type :=
| OpAdd (client_id : Z) (ip : option string) (latency : option Z)
        (name : option string) (is_bot : bool)
| OpRemove (client_id : Z)
| OpSetObs (ip : string) (connected : bool).

Definition apply (o : op) (st : t) : t :=
  match o with
  | OpAdd client_id ip latency name is_bot =>
      add_client st client_id ip latency name is_bot
  | OpRemove client_id => remove_client st client_id
  | OpSetObs ip connected => set_obs_status st ip connected
  end.

Definition run (os : list op) (st : t) : t :=
  fold_left (fun st o => apply o st) os st.

(** Every address a client is mapped to has a latency and an OBS entry,
    and the latency map and the OBS map have the same keys. *)
Definition addresses_covered (st : t) : Prop :=
  dom (obs_status_map st) = dom (ip_latency_map st)
  ∧ ∀ client_id ip,
      client_ip_map st !! client_id = Some ip →
      is_Some (ip_latency_map st !! ip).

End NetworkOps.

(** ** core/network/network_manager.py: latency assignment and rotation

    Here the order of the keys of [ip_latency_map] matters, so the
    dictionary is the list of its items in insertion order. *)

Module LatencyRotation.

Record t : Type := Manager {
  ip_latency_map : list (string * Z);
  _current_latencies : list Z;
  _round_count : Z;
  _enabled : bool;
  send_command : bool;
  commands_sent : list string
}.

(** [__init__]: the latencies and the switch come from the settings. *)
Definition new (latencies : list Z) (enable_latency_control callback : bool)
  : t :=
  Manager [] latencies 0 enable_latency_control callback [].

(** [d[key] = value] *)
Fixpoint dict_set (key : string) (value : Z) (d : list (string * Z))
  : list (string * Z) :=
  match d with
  | [] => [(key, value)]
  | (k, v) :: rest =>
      if String.eqb k key then (k, value) :: rest
      else (k, v) :: dict_set key value rest
  end.

(** [latencies[i % len(latencies)]] for a list that is not empty *)
Definition pick (latencies : list Z) (i : nat) : Z :=
  default 0 (latencies !! (i mod length latencies)%nat).

(** [for i, ip in enumerate(ips): self.ip_latency_map[ip] = ...] *)
Fixpoint assign_loop (latencies : list Z) (i : nat) (ips : list string)
    (d : list (string * Z)) : list (string * Z) :=
  match ips with
  | [] => d
  | ip :: rest =>
      assign_loop latencies (S i) rest (dict_set ip (pick latencies i) d)
  end.

Definition set_map (st : t) (d : list (string * Z)) : t :=
  Manager d (_current_latencies st) (_round_count st) (_enabled st)
          (send_command st) (commands_sent st).

(** [str(n)] returns. *)
Definition printable (n : Z) : bool :=
  match PyText.str_of_int n with Some _ => true | None => false end.

(** [assign_latencies]: the manager after the call, and whether the call
    returned.  The log line that follows the loop formats the assigned
    latencies, and raises ValueError on one of more than 4300 digits; the
    assignments are done by then. *)
Definition assign_latencies (st : t) (latencies : list Z) : t * bool :=
  match ip_latency_map st, latencies with
  | [], _ => (st, true)
  | _ :: _, [] => (st, true)
  | _ :: _, _ :: _ =>
      let ips := map fst (ip_latency_map st) in
      (set_map st (assign_loop latencies 0 ips (ip_latency_map st)),
       forallb (fun i => printable (pick latencies i)) (seq 0 (length ips)))
  end.

Definition call_send_command (st : t) (command : string) : t :=
  if send_command st
  then Manager (ip_latency_map st) (_current_latencies st) (_round_count st)
               (_enabled st) true (commands_sent st ++ [command])
  else st.

(** [l[1:] + l[:1]] *)
Definition step (l : list Z) : list Z := drop 1 l ++ take 1 l.

(** [f"{lat}ms"] for each latency; [None] when one cannot be formatted. *)
Fixpoint latency_strings (latencies : list Z) : option (list string) :=
  match latencies with
  | [] => Some []
  | lat :: rest =>
      s ← PyText.str_of_int lat;
      strings ← latency_strings rest;
      Some ((s +:+ "ms") :: strings)
  end.

(** The announcement of [rotate_latencies]; [None] when the round count
    or one of the latencies has more than 4300 digits.  The log line
    before it formats the same numbers. *)
Definition rotation_message (round_count : Z) (latencies : list Z)
  : option string :=
  round ← PyText.str_of_int round_count;
  strings ← latency_strings latencies;
  Some ("say Round " +:+ round +:+ ": New latencies - "
        +:+ PyText.join ", " strings).

(** [rotate_latencies]: the manager after the call and the result.  A
    ValueError of the formatting, in a log line or in the announcement,
    is caught by the [except] clause and gives [False]: the rotation and
    the assignment are done by then, and nothing is sent. *)
Definition rotate_latencies (st : t) : t * bool :=
  if negb (_enabled st) then (st, true)
  else
    let current := step (_current_latencies st) in
    let st := Manager (ip_latency_map st) current (_round_count st + 1)
                      (_enabled st) (send_command st) (commands_sent st) in
    let '(st, logged) := assign_latencies st (_current_latencies st) in
    match (if logged
           then rotation_message (_round_count st) (_current_latencies st)
           else None) with
    | Some message => (call_send_command st message, true)
    | None => (st, false)
    end.

(** [k] calls of [rotate_latencies]. *)
Definition rotations (k : nat) (st : t) : t :=
  Nat.iter k (fun st => fst (rotate_latencies st)) st.

End LatencyRotation.

(** ** core/game/game_manager.py: bots *)

Module GameManager.

(** The settings the manager reads. *)
Record settings : Type := Settings {
  bot_enable : bool;
  bot_count : Z;
  bot_difficulty : Z;
  bot_names : list string
}.

Record t : Type := Manager {
  _bots_added : bool;
  _bot_addition_in_progress : bool;
  commands_sent : list string
}.

Definition new : t := Manager false false [].

Definition send (g : t) (command : string) : t :=
  Manager (_bots_added g) (_bot_addition_in_progress g)
          (commands_sent g ++ [command]).

Definition should_add_bots (cfg : settings) : bool :=
  bot_enable cfg && (0 <? bot_count cfg).

(** The names used when the settings give none. *)
Definition default_bot_names : list string :=
  [ "Angelyss"; "Arachna"; "Major"; "Sarge";
    "Skelebot"; "Merman"; "Beret"; "Kyonshi" ].

(** The name of the bot number [i]. *)
Definition bot_name (cfg : settings) (i : nat) : string :=
  match bot_names cfg !! i with
  | Some name =>
      if Py.is_empty name
      then default "" (default_bot_names !! (i mod length default_bot_names)%nat)
      else name
  | None => default "" (default_bot_names !! (i mod length default_bot_names)%nat)
  end.

(** [f"addbot {bot_name} {settings.bot_difficulty}"]; [None] is the
    ValueError of formatting a difficulty of more than 4300 digits. *)
Definition addbot_command (cfg : settings) (i : nat) : option string :=
  difficulty ← PyText.str_of_int (bot_difficulty cfg);
  Some ("addbot " +:+ bot_name cfg i +:+ " " +:+ difficulty).

(** The [for i in range(settings.bot_count)] loop: the manager when it
    ends, and whether it ran to its end ([false] after an exception). *)
Fixpoint addbot_loop (cfg : settings) (indices : list nat) (g : t)
  : t * bool :=
  match indices with
  | [] => (g, true)
  | i :: rest =>
      match addbot_command cfg i with
      | Some command => addbot_loop cfg rest (send g command)
      | None => (g, false)
      end
  end.

(** [add_bots_to_server_async], run to its end.  An exception inside the
    [try] block gives [False]; the [finally] clause clears the progress
    flag on every path through the block. *)
Definition add_bots_to_server_async (cfg : settings) (g : t) : t * bool :=
  if _bots_added g then (g, true)
  else if negb (should_add_bots cfg) then (g, false)
  else if _bot_addition_in_progress g then (g, false)
  else
    let g := Manager (_bots_added g) true (commands_sent g) in
    let '(g, completed) :=
      addbot_loop cfg (seq 0 (Z.to_nat (bot_count cfg))) g in
    if negb completed
    then (Manager (_bots_added g) false (commands_sent g), false)
    else
      let g := Manager true (_bot_addition_in_progress g) (commands_sent g) in
      match PyText.str_of_int (bot_count cfg) with
      | Some count =>
          let g := send g ("say Added " +:+ count +:+ " bots to the server") in
          (Manager (_bots_added g) false (commands_sent g), true)
      | None => (Manager (_bots_added g) false (commands_sent g), false)
      end.

End GameManager.

(** ** core/adapters/openarena/adapter.py: shutdown dispatch *)

Module OAShutdownDispatch.
Import Base ShutdownStrategies.

(** [self._shutdown_strategies] *)
Definition _shutdown_strategies : gmap string strategy :=
  <["match_end" := MatchShutdownStrategy]>
    {["warmup_end" := WarmupShutdownStrategy]}.

(** [self._shutdown_strategies.get(msg.data.get("event", "unknown"))]. The
    outer [None] is the TypeError of a key that cannot be hashed (a dict or
    a list); a number or a boolean is a key the table does not have. *)
Definition strategy_for (msg : ParsedMessage) : option (option strategy) :=
  match data msg !! "event" with
  | Some (VStr event_type) => Some (_shutdown_strategies !! event_type)
  | Some (VInt _) | Some (VBool _) => Some None
  | Some _ => None
  | None => Some (_shutdown_strategies !! "unknown")
  end.

(** [_on_shutdown]: without a strategy only a warning is logged. *)
Definition _on_shutdown (a : adapter) (msg : ParsedMessage) : option adapter :=
  match strategy_for msg with
  | Some (Some strategy) => Some (handle strategy a)
  | Some None => Some a
  | None => None
  end.

(** [_on_game_initialization] *)
Definition _on_game_initialization (a : adapter) : adapter :=
  set_manager a
    (fst (GameStateManager.handle_game_initialization_detected
            (game_state_manager a))).

(** One match as the server reports it: game initialization, then a
    shutdown classified as match end. *)
Definition play_match (a : adapter) : adapter :=
  handle MatchShutdownStrategy (_on_game_initialization a).

Definition play_matches (n : nat) (a : adapter) : adapter :=
  Nat.iter n play_match a.

(** A new adapter: state machine just built, nothing sent yet. *)
Definition fresh (latencies : list Z) (repeats : Z) (loop enabled : bool)
  : adapter :=
  Adapter (GameStateManager.new latencies repeats) false loop false enabled [].

Definition killed (a : adapter) : Prop :=
  SendCommandSync "killserver" ∈ effects a.

End OAShutdownDispatch.

(** ** core/adapters/openarena/adapter.py: client tracking *)

Module OAClientTracking.
Import Base.

(** The settings the handlers read. *)
Record settings : Type := Settings {
  latencies : list Z;
  nplayers_threshold : Z
}.

(** Coroutines of the OBS connection manager handed to [run_async]. *)
Inductive obs_call : Type :=
| connect_single_client_immediately (client_ip : string)
| disconnect_client (client_ip : string).

(** The part of the adapter the client handlers use.  [_async_loop] tells
    whether a loop was provided, [_shutdown_event] whether the event is
    set; [is_client_connected] is the query of the OBS connection manager;
    [scheduled] lists the coroutines put on the loop, oldest first. *)
Record t : Type := Adapter {
  _network_manager : NetworkManager.t;
  _insufficient_humans : bool;
  _current_map : string;
  _async_loop : bool;
  _shutdown_event : bool;
  is_client_connected : string -> bool;
  scheduled : list obs_call
}.

Definition new (connected : string -> bool) : t :=
  Adapter NetworkManager.new false "" false false connected [].

Definition set_network (a : t) (nm : NetworkManager.t) : t :=
  Adapter nm (_insufficient_humans a) (_current_map a) (_async_loop a)
          (_shutdown_event a) (is_client_connected a) (scheduled a).

Definition set_current_map (a : t) (map_name : string) : t :=
  Adapter (_network_manager a) (_insufficient_humans a) map_name
          (_async_loop a) (_shutdown_event a) (is_client_connected a)
          (scheduled a).

Definition run_async (a : t) (c : obs_call) : t :=
  if _async_loop a && negb (_shutdown_event a)
  then Adapter (_network_manager a) (_insufficient_humans a) (_current_map a)
               (_async_loop a) (_shutdown_event a) (is_client_connected a)
               (scheduled a ++ [c])
  else a.

Definition _update_insufficient_humans (cfg : settings) (a : t) : t :=
  Adapter (_network_manager a)
          (NetworkManager.human_count (_network_manager a)
           <? nplayers_threshold cfg)
          (_current_map a) (_async_loop a) (_shutdown_event a)
          (is_client_connected a) (scheduled a).

(** The three keys of a client dictionary that the handlers read. *)
Record client_data : Type := ClientData {
  client_id : Z;
  name : string;
  ip : string
}.

Definition of_oa (c : OAStatusParser.client) : client_data :=
  ClientData (OAStatusParser.client_id c) (OAStatusParser.name c)
             (OAStatusParser.ip c).

Definition of_amp (c : AMPStatusParser.client) : client_data :=
  ClientData (AMPStatusParser.client_id c) (AMPStatusParser.name c)
             (AMPStatusParser.ip c).

(** [settings.latencies[len(ip_latency_map) % len(settings.latencies)]];
    [None] is the ZeroDivisionError of an empty latency list. *)
Definition next_latency (cfg : settings) (nm : NetworkManager.t) : option Z :=
  match latencies cfg with
  | [] => None
  | _ :: _ =>
      latencies cfg
        !! (size (NetworkManager.ip_latency_map nm)
            mod length (latencies cfg))%nat
  end.

(** [_process_discovered_client]; [None] is an exception. *)
Definition _process_discovered_client (cfg : settings) (a : t)
    (c : client_data) : option t :=
  let nm := _network_manager a in
  match NetworkManager.client_type_map nm !! client_id c with
  | Some _ => Some a
  | None =>
      if negb (Py.is_empty (ip c)) && negb (String.eqb (ip c) "bot") then
        latency ← next_latency cfg nm;
        let a := set_network a
                   (NetworkManager.add_client nm (client_id c) (Some (ip c))
                      (Some latency) (Some (name c)) false) in
        let a := run_async a (connect_single_client_immediately (ip c)) in
        Some (_update_insufficient_humans cfg a)
      else if String.eqb (ip c) "bot" then
        let a := set_network a
                   (NetworkManager.add_client nm (client_id c) None None
                      (Some (name c)) true) in
        Some (_update_insufficient_humans cfg a)
      else Some (_update_insufficient_humans cfg a)
  end.

(** The [for client_data in ...] loop of [_on_status]. *)
Fixpoint process_all_discovered (cfg : settings) (a : t)
    (cs : list client_data) : option t :=
  match cs with
  | [] => Some a
  | c :: rest =>
      a ← _process_discovered_client cfg a c;
      process_all_discovered cfg a rest
  end.

(** Truth value of a stored value. *)
Definition truthy (v : option value) : bool :=
  match v with
  | None => false
  | Some (VInt z) => negb (z =? 0)
  | Some (VStr s) => negb (Py.is_empty s)
  | Some (VBool b) => b
  | Some (VOAClient _) | Some (VAMPClient _) => true
  | Some (VOAClients cs) => negb (bool_decide (cs = []))
  | Some (VAMPClients cs) => negb (bool_decide (cs = []))
  end.

(** [_on_status]; [None] is an exception: a value under [client_data]
    that cannot be iterated, or whose items have no key [client_id]. *)
Definition _on_status (cfg : settings) (a : t) (msg : ParsedMessage)
  : option t :=
  let a :=
    if Py.startswith "map:" (raw_message msg)
    then match PyText.split_once ":" (raw_message msg) with
         | Some (_, rest) => set_current_map a (Py.strip rest)
         | None => a
         end
    else a in
  if truthy (data msg !! "status_complete") then
    match data msg !! "client_data" with
    | None => Some a
    | Some (VOAClients cs) => process_all_discovered cfg a (map of_oa cs)
    | Some (VAMPClients cs) => process_all_discovered cfg a (map of_amp cs)
    | Some (VStr s) => if Py.is_empty s then Some a else None
    | Some _ => None
    end
  else if truthy (data msg !! "client_data") then
    match data msg !! "client_data" with
    | Some (VOAClient c) => _process_discovered_client cfg a (of_oa c)
    | Some (VAMPClient c) => _process_discovered_client cfg a (of_amp c)
    | _ => None
    end
  else Some a.

(** [_on_client_disconnect] for a message whose [client_id] is the
    integer the processor stored. *)
Definition _on_client_disconnect (cfg : settings) (a : t) (client_id : Z)
  : t :=
  let client_ip := NetworkOps.get_client_ip (_network_manager a) client_id in
  let a :=
    match client_ip with
    | Some ip =>
        if negb (Py.is_empty ip) && is_client_connected a ip
        then run_async a (disconnect_client ip) else a
    | None => a
    end in
  let a := set_network a (NetworkOps.remove_client (_network_manager a)
                                                  client_id) in
  _update_insufficient_humans cfg a.

(** The client is in the registry. *)
Definition tracked (a : t) (client_id : Z) : Prop :=
  is_Some (NetworkManager.client_type_map (_network_manager a) !! client_id).

End OAClientTracking.

(** * Properties *)

(** ** Python strings *)

Module PyFacts.
Import Py.

Lemma append_cons (c : ascii) (s t : string) :
  String c s +:+ t = String c (s +:+ t).
Proof. reflexivity. Qed.

Lemma append_nil (t : string) : "" +:+ t = t.
Proof. reflexivity. Qed.

Lemma split_on_free (sep : ascii) (s : string) :
  free_of sep s → split_on sep s = [s].
Proof.
  induction s as [| c r IH]; intros Hfree; [reflexivity |].
  destruct Hfree as [Hc Hr]. cbn [split_on].
  destruct (Ascii.eqb_spec c sep) as [-> | _]; [contradiction |].
  rewrite (IH Hr). reflexivity.
Qed.

Lemma split_on_append (sep : ascii) (s t : string) :
  free_of sep s →
  split_on sep (s +:+ String sep t) = s :: split_on sep t.
Proof.
  induction s as [| c r IH]; intros Hfree.
  - rewrite append_nil. cbn [split_on]. rewrite Ascii.eqb_refl. reflexivity.
  - destruct Hfree as [Hc Hr]. rewrite append_cons. cbn [split_on].
    destruct (Ascii.eqb_spec c sep) as [-> | _]; [contradiction |].
    rewrite (IH Hr). reflexivity.
Qed.

Lemma digit_not (c d : ascii) :
  is_digit c = true → is_digit d = false → c ≠ d.
Proof. intros Hc Hd ->. congruence. Qed.

Lemma digit_not_int_space (c : ascii) :
  is_digit c = true → is_int_space c = false.
Proof.
  unfold is_digit, is_int_space. intros H.
  apply andb_true_iff in H as [H1 H2].
  apply N.leb_le in H1. apply N.leb_le in H2.
  assert (E1 : (N_of_ascii c <=? 13)%N = false) by (apply N.leb_gt; lia).
  assert (E2 : (N_of_ascii c =? 32)%N = false) by (apply N.eqb_neq; lia).
  assert (E3 : (N_of_ascii c =? 133)%N = false) by (apply N.eqb_neq; lia).
  assert (E4 : (N_of_ascii c =? 160)%N = false) by (apply N.eqb_neq; lia).
  rewrite E1, E2, E3, E4, !andb_false_r. reflexivity.
Qed.

Lemma digit_val_range (c : ascii) : is_digit c = true → 0 <= digit_val c <= 9.
Proof.
  unfold is_digit, digit_val. intros H.
  apply andb_true_iff in H as [H1 H2].
  apply N.leb_le in H1. apply N.leb_le in H2. lia.
Qed.

Lemma all_digits_free (sep : ascii) (s : string) :
  is_digit sep = false → all_digits s = true → free_of sep s.
Proof.
  intros Hsep. induction s as [| c r IH]; intros Hall; [exact I |].
  cbn in Hall. apply andb_true_iff in Hall as [Hc Hr].
  split; [exact (digit_not c sep Hc Hsep) | exact (IH Hr)].
Qed.

Lemma rstrip_all_digits (s : string) :
  all_digits s = true → rstrip_with is_int_space s = s.
Proof.
  induction s as [| c r IH]; intros Hall; [reflexivity |].
  cbn in Hall. apply andb_true_iff in Hall as [Hc Hr].
  cbn [rstrip_with]. rewrite (IH Hr), (digit_not_int_space c Hc). reflexivity.
Qed.

Lemma strip_decimal (s : string) :
  is_decimal s = true → strip_with is_int_space s = s.
Proof.
  unfold is_decimal, strip_with. intros H.
  apply andb_true_iff in H as [Hne Hall].
  destruct s as [| c r]; [discriminate Hne |].
  cbn in Hall. pose proof Hall as Hall'.
  apply andb_true_iff in Hall as [Hc Hr].
  cbn [lstrip_with]. rewrite (digit_not_int_space c Hc).
  apply rstrip_all_digits. cbn. exact Hall'.
Qed.

Lemma int_digits_all_digits (s : string) (acc : Z) :
  all_digits s = true →
  int_digits acc false s = Some (decimal_value_from acc s).
Proof.
  revert acc. induction s as [| c r IH]; intros acc Hall; [reflexivity |].
  cbn in Hall. apply andb_true_iff in Hall as [Hc Hr].
  cbn [int_digits decimal_value_from]. rewrite Hc. apply IH, Hr.
Qed.

Lemma count_digits_nonneg (s : string) : 0 <= count_digits s.
Proof.
  induction s as [| c r IH]; [reflexivity |].
  cbn [count_digits]. destruct (is_digit c); lia.
Qed.

Lemma count_digits_all_digits (s : string) :
  all_digits s = true → count_digits s = Z.of_nat (String.length s).
Proof.
  induction s as [| c r IH]; intros Hall; [reflexivity |].
  cbn in Hall. apply andb_true_iff in Hall as [Hc Hr].
  cbn [count_digits String.length]. rewrite Hc, (IH Hr). lia.
Qed.

(** [int] refuses every string of more than 4300 digit characters. *)
Lemma int_over_limit (s : string) :
  int_max_str_digits < count_digits s → int s = None.
Proof.
  intros Hover. unfold int.
  destruct (Z.ltb_spec int_max_str_digits (count_digits s)); [reflexivity | lia].
Qed.

(** [int] of a string of at most 4300 decimal digits is the number the
    digits denote. *)
Lemma int_decimal (s : string) :
  is_decimal s = true → count_digits s <= int_max_str_digits →
  int s = Some (decimal_value s).
Proof.
  intros Hdec Hlimit. unfold int.
  destruct (Z.ltb_spec int_max_str_digits (count_digits s)); [lia |].
  rewrite (strip_decimal s Hdec).
  unfold is_decimal in Hdec. apply andb_true_iff in Hdec as [Hne Hall].
  destruct s as [| c r]; [discriminate Hne |].
  pose proof Hall as Hall'. cbn in Hall.
  apply andb_true_iff in Hall as [Hc Hr].
  destruct (Ascii.eqb_spec c "+") as [-> | _]; [discriminate Hc |].
  destruct (Ascii.eqb_spec c "-") as [-> | _]; [discriminate Hc |].
  unfold int_body. rewrite Hc. apply int_digits_all_digits, Hall'.
Qed.

Lemma decimal_value_from_nonneg (s : string) (acc : Z) :
  all_digits s = true → 0 <= acc → 0 <= decimal_value_from acc s.
Proof.
  revert acc. induction s as [| c r IH]; intros acc Hall Hacc; [exact Hacc |].
  cbn in Hall. apply andb_true_iff in Hall as [Hc Hr].
  cbn [decimal_value_from]. apply IH; [exact Hr |].
  pose proof (digit_val_range c Hc). lia.
Qed.

Lemma decimal_value_nonneg (s : string) :
  is_decimal s = true → 0 <= decimal_value s.
Proof.
  unfold is_decimal. intros H. apply andb_true_iff in H as [_ Hall].
  apply decimal_value_from_nonneg; [exact Hall | lia].
Qed.

Lemma decimal_free_of_dot (s : string) :
  is_decimal s = true → free_of "." s.
Proof.
  unfold is_decimal. intros H. apply andb_true_iff in H as [_ Hall].
  apply all_digits_free; [reflexivity | exact Hall].
Qed.

Lemma split_dotted_quad (a b c d : string) :
  is_decimal a = true → is_decimal b = true →
  is_decimal c = true → is_decimal d = true →
  split_on "." (dotted_quad a b c d) = [a; b; c; d].
Proof.
  intros Ha Hb Hc Hd. unfold dotted_quad.
  change (split_on "." (a +:+ String "." (b +:+ String "."
            (c +:+ String "." d))) = [a; b; c; d]).
  rewrite (split_on_append "." a _ (decimal_free_of_dot a Ha)).
  rewrite (split_on_append "." b _ (decimal_free_of_dot b Hb)).
  rewrite (split_on_append "." c _ (decimal_free_of_dot c Hc)).
  rewrite (split_on_free "." d (decimal_free_of_dot d Hd)).
  reflexivity.
Qed.

Lemma dotted_quad_not_empty (a b c d : string) :
  is_decimal a = true → is_empty (dotted_quad a b c d) = false.
Proof.
  unfold is_decimal. intros H. apply andb_true_iff in H as [Hne _].
  destruct a; [discriminate Hne | reflexivity].
Qed.

End PyFacts.

(** ** IP validation *)

Module IpFacts.
Import Py PyFacts.

Lemma oa_check_parts_decimal (parts : list string) :
  Forall (fun p => is_decimal p = true
                   ∧ count_digits p <= int_max_str_digits
                   ∧ decimal_value p <= 255) parts →
  OAStatusParser.check_parts parts = Some true.
Proof.
  induction 1 as [| p ps (Hdec & Hlimit & Hle) _ IH]; [reflexivity |].
  cbn [OAStatusParser.check_parts]. rewrite (int_decimal p Hdec Hlimit).
  pose proof (decimal_value_nonneg p Hdec) as Hge.
  destruct (Z.ltb_spec (decimal_value p) 0); [lia |].
  destruct (Z.ltb_spec 255 (decimal_value p)); [lia |].
  exact IH.
Qed.

Lemma amp_all_octets_decimal (parts : list string) :
  Forall (fun p => is_decimal p = true
                   ∧ count_digits p <= int_max_str_digits
                   ∧ decimal_value p <= 255) parts →
  AMPStatusParser.all_octets parts = Some true.
Proof.
  induction 1 as [| p ps (Hdec & Hlimit & Hle) _ IH]; [reflexivity |].
  cbn [AMPStatusParser.all_octets]. rewrite (int_decimal p Hdec Hlimit).
  pose proof (decimal_value_nonneg p Hdec) as Hge.
  destruct (Z.leb_spec 0 (decimal_value p)); [| lia].
  destruct (Z.leb_spec (decimal_value p) 255); [| lia].
  exact IH.
Qed.

(** A segment on which [int] raises, or returns more than 255, makes the
    loop end without [True]. *)
Lemma oa_check_parts_big (parts : list string) (seg : string) :
  seg ∈ parts → (∀ n, int seg = Some n → 255 < n) →
  OAStatusParser.check_parts parts ≠ Some true.
Proof.
  intros Hin Hbig. induction parts as [| p ps IH].
  - apply elem_of_nil in Hin. contradiction.
  - cbn [OAStatusParser.check_parts].
    apply elem_of_cons in Hin as [<- | Hin].
    + destruct (int seg) as [n |]; [| discriminate].
      specialize (Hbig n eq_refl).
      destruct (Z.ltb_spec 255 n); [| lia].
      rewrite orb_true_r. discriminate.
    + destruct (int p) as [num |]; [| discriminate].
      destruct ((num <? 0) || (255 <? num)); [discriminate | exact (IH Hin)].
Qed.

Lemma amp_all_octets_big (parts : list string) (seg : string) :
  seg ∈ parts → (∀ n, int seg = Some n → 255 < n) →
  AMPStatusParser.all_octets parts ≠ Some true.
Proof.
  intros Hin Hbig. induction parts as [| p ps IH].
  - apply elem_of_nil in Hin. contradiction.
  - cbn [AMPStatusParser.all_octets].
    apply elem_of_cons in Hin as [<- | Hin].
    + destruct (int seg) as [n |]; [| discriminate].
      specialize (Hbig n eq_refl).
      destruct (Z.leb_spec n 255); [lia |].
      rewrite andb_false_r. discriminate.
    + destruct (int p) as [num |]; [| discriminate].
      destruct ((0 <=? num) && (num <=? 255)); [exact (IH Hin) | discriminate].
Qed.

Lemma not_some_true (o : option bool) :
  o ≠ Some true → match o with Some b => b | None => false end = false.
Proof. destruct o as [[|] |]; [congruence | reflexivity | reflexivity]. Qed.

(** Whatever [int] returns on a string of decimal digits is the number
    the digits denote. *)
Lemma int_decimal_value (s : string) (n : Z) :
  is_decimal s = true → int s = Some n → n = decimal_value s.
Proof.
  intros Hdec Hint.
  destruct (Z.ltb_spec int_max_str_digits (count_digits s)) as [Hover | Hin].
  - rewrite (int_over_limit s Hover) in Hint. discriminate Hint.
  - rewrite (int_decimal s Hdec Hin) in Hint. congruence.
Qed.

Lemma rejects_big (ip seg : string) :
  seg ∈ split_on "." ip → (∀ n, int seg = Some n → 255 < n) →
  OAStatusParser._is_valid_ip ip = false
  ∧ AMPStatusParser._is_valid_ip ip = false.
Proof.
  intros Hin Hbig.
  unfold OAStatusParser._is_valid_ip, AMPStatusParser._is_valid_ip.
  split.
  - destruct (is_empty ip); [reflexivity |].
    destruct (negb _); [reflexivity |].
    apply not_some_true, (oa_check_parts_big _ seg Hin Hbig).
  - destruct (negb _); [reflexivity |].
    apply not_some_true, (amp_all_octets_big _ seg Hin Hbig).
Qed.

(** C9, as stated, fails: a segment of 4301 digits, 4300 zeros and a
    one, denotes the number 1, and [int] refuses it, so both validators
    reject the address. *)
Lemma C9_counterexample :
  is_decimal Scenarios.padded_one = true
  ∧ decimal_value Scenarios.padded_one = 1
  ∧ OAStatusParser._is_valid_ip
      (dotted_quad Scenarios.padded_one "2" "3" "4") = false
  ∧ AMPStatusParser._is_valid_ip
      (dotted_quad Scenarios.padded_one "2" "3" "4") = false
  ∧ ¬ (∀ a b c d : string,
         is_decimal a = true → is_decimal b = true →
         is_decimal c = true → is_decimal d = true →
         decimal_value a <= 255 → decimal_value b <= 255 →
         decimal_value c <= 255 → decimal_value d <= 255 →
         OAStatusParser._is_valid_ip (dotted_quad a b c d) = true
         ∧ AMPStatusParser._is_valid_ip (dotted_quad a b c d) = true).
Proof.
  assert (Hdec : is_decimal Scenarios.padded_one = true)
    by (vm_compute; reflexivity).
  assert (Hval : decimal_value Scenarios.padded_one = 1)
    by (vm_compute; reflexivity).
  assert (Hoa : OAStatusParser._is_valid_ip
                  (dotted_quad Scenarios.padded_one "2" "3" "4") = false)
    by (vm_compute; reflexivity).
  assert (Hamp : AMPStatusParser._is_valid_ip
                   (dotted_quad Scenarios.padded_one "2" "3" "4") = false)
    by (vm_compute; reflexivity).
  split; [exact Hdec |]. split; [exact Hval |]. split; [exact Hoa |].
  split; [exact Hamp |].
  intros Hall.
  assert (Hsmall : ∀ s, s = "2" ∨ s = "3" ∨ s = "4" → decimal_value s <= 255)
    by (intros s [-> | [-> | ->]]; vm_compute; discriminate).
  destruct (Hall Scenarios.padded_one "2" "3" "4" Hdec eq_refl eq_refl eq_refl
              ltac:(rewrite Hval; lia) (Hsmall "2" ltac:(tauto))
              (Hsmall "3" ltac:(tauto)) (Hsmall "4" ltac:(tauto)))
    as [Habs _].
  rewrite Hoa in Habs. discriminate Habs.
Qed.

(** C9, amended. Both validators accept every string made of four
    segments of decimal digits, each of at most 4300 digits and denoting a
    number of at most 255, joined by dots.  Both reject every string that
    has a dot-separated segment whose integer value is above 255, be it
    the value [int] returns or the number that a segment of decimal digits
    of any length denotes, and every string whose number of dot-separated
    segments is not four. *)
Theorem C9_ip_validation (a b c d ip seg : string) (n : Z) :
  (is_decimal a = true → is_decimal b = true →
   is_decimal c = true → is_decimal d = true →
   count_digits a <= int_max_str_digits →
   count_digits b <= int_max_str_digits →
   count_digits c <= int_max_str_digits →
   count_digits d <= int_max_str_digits →
   decimal_value a <= 255 → decimal_value b <= 255 →
   decimal_value c <= 255 → decimal_value d <= 255 →
   OAStatusParser._is_valid_ip (dotted_quad a b c d) = true
   ∧ AMPStatusParser._is_valid_ip (dotted_quad a b c d) = true)
  ∧ (seg ∈ split_on "." ip → int seg = Some n → 255 < n →
     OAStatusParser._is_valid_ip ip = false
     ∧ AMPStatusParser._is_valid_ip ip = false)
  ∧ (seg ∈ split_on "." ip → is_decimal seg = true →
     255 < decimal_value seg →
     OAStatusParser._is_valid_ip ip = false
     ∧ AMPStatusParser._is_valid_ip ip = false)
  ∧ (length (split_on "." ip) ≠ 4%nat →
     OAStatusParser._is_valid_ip ip = false
     ∧ AMPStatusParser._is_valid_ip ip = false).
Proof.
  split; [| split; [| split]].
  - intros Ha Hb Hc Hd Na Nb Nc Nd La Lb Lc Ld.
    assert (Hparts : Forall (fun p => is_decimal p = true
                                      ∧ count_digits p <= int_max_str_digits
                                      ∧ decimal_value p <= 255) [a; b; c; d])
      by (repeat constructor; assumption).
    unfold OAStatusParser._is_valid_ip, AMPStatusParser._is_valid_ip.
    rewrite (dotted_quad_not_empty a b c d Ha).
    rewrite (split_dotted_quad a b c d Ha Hb Hc Hd).
    rewrite (oa_check_parts_decimal _ Hparts).
    rewrite (amp_all_octets_decimal _ Hparts).
    split; reflexivity.
  - intros Hin Hint Hbig. apply (rejects_big ip seg Hin).
    intros n' Hn'. congruence.
  - intros Hin Hdec Hbig. apply (rejects_big ip seg Hin).
    intros n' Hn'. rewrite (int_decimal_value seg n' Hdec Hn'). exact Hbig.
  - intros Hlen.
    unfold OAStatusParser._is_valid_ip, AMPStatusParser._is_valid_ip.
    apply Nat.eqb_neq in Hlen. rewrite Hlen.
    split; [destruct (is_empty ip) |]; reflexivity.
Qed.

Lemma C9_ip_validation_witness :
  (OAStatusParser._is_valid_ip "192.168.001.255" = true
   ∧ AMPStatusParser._is_valid_ip "192.168.001.255" = true)
  ∧ (OAStatusParser._is_valid_ip "10.0.256.1" = false
     ∧ AMPStatusParser._is_valid_ip "10.0.256.1" = false)
  ∧ (OAStatusParser._is_valid_ip "10.0.0256.1" = false
     ∧ AMPStatusParser._is_valid_ip "10.0.0256.1" = false)
  ∧ (OAStatusParser._is_valid_ip "192.168.1" = false
     ∧ AMPStatusParser._is_valid_ip "192.168.1" = false).
Proof.
  split; [| split; [| split]].
  - destruct (C9_ip_validation "192" "168" "001" "255" "" "" 0)
      as (Haccept & _).
    apply Haccept; solve [reflexivity | vm_compute; discriminate].
  - destruct (C9_ip_validation "" "" "" "" "10.0.256.1" "256" 256)
      as (_ & Hbig & _).
    apply Hbig; [apply list_elem_of_In; vm_compute; tauto | reflexivity | lia].
  - destruct (C9_ip_validation "" "" "" "" "10.0.0256.1" "0256" 0)
      as (_ & _ & Hdec & _).
    apply Hdec; [apply list_elem_of_In; vm_compute; tauto | reflexivity |].
    vm_compute. reflexivity.
  - destruct (C9_ip_validation "" "" "" "" "192.168.1" "" 0)
      as (_ & _ & _ & Hcount).
    apply Hcount. vm_compute. discriminate.
Defined.

End IpFacts.

(** ** The round state machine *)

Module GameStateFacts.
Import GameStateManager.

Lemma shutdown_result_flags (rc ef : bool) (acts : list string) :
  flag "round_completed" (shutdown_result rc ef acts) = rc
  ∧ flag "experiment_finished" (shutdown_result rc ef acts) = ef
  ∧ actions_of (shutdown_result rc ef acts) = Some acts.
Proof. repeat split; reflexivity. Qed.

Lemma shutdown_running (g : t) :
  current_state g = RUNNING →
  handle_match_shutdown_detected g =
    (Manager RUNNING (round_count g + 1) (warmup_round_count g) (max_rounds g),
     if max_rounds g <=? round_count g + 1
     then shutdown_result false true []
     else shutdown_result true false ["rotate_latency"]).
Proof.
  intros Hs. unfold handle_match_shutdown_detected. rewrite Hs. cbn.
  destruct (max_rounds g <=? round_count g + 1); reflexivity.
Qed.

Lemma shutdown_not_running (g : t) :
  current_state g ≠ RUNNING →
  handle_match_shutdown_detected g = (g, shutdown_result false false []).
Proof.
  intros Hs. unfold handle_match_shutdown_detected.
  destruct (current_state g); congruence.
Qed.

(** C2. In state RUNNING a match-shutdown event adds one to the round
    counter; the result has [experiment_finished] exactly when the new
    counter has reached [max_rounds], and otherwise has [round_completed]
    together with the action [rotate_latency]; exactly one of the two flags
    is set.  In any other state both flags are false and the counter is
    unchanged. *)
Theorem C2_match_shutdown_result (g : t) :
  let g' := fst (handle_match_shutdown_detected g) in
  let result := snd (handle_match_shutdown_detected g) in
  (current_state g = RUNNING →
     round_count g' = round_count g + 1
     ∧ (flag "experiment_finished" result = true
        ↔ max_rounds g' <= round_count g')
     ∧ (flag "experiment_finished" result = false →
        flag "round_completed" result = true
        ∧ actions_of result = Some ["rotate_latency"])
     ∧ flag "round_completed" result
       = negb (flag "experiment_finished" result))
  ∧ (current_state g ≠ RUNNING →
     flag "experiment_finished" result = false
     ∧ flag "round_completed" result = false
     ∧ round_count g' = round_count g).
Proof.
  cbv zeta. split; intros Hs.
  - rewrite (shutdown_running g Hs). cbn [fst snd round_count max_rounds].
    destruct (Z.leb_spec (max_rounds g) (round_count g + 1)) as [Hle | Hlt].
    + destruct (shutdown_result_flags false true []) as (-> & -> & _).
      split; [reflexivity |].
      split; [split; [intros _; exact Hle | reflexivity] |].
      split; [intros Habs; discriminate Habs | reflexivity].
    + destruct (shutdown_result_flags true false ["rotate_latency"])
        as (-> & -> & ->).
      split; [reflexivity |].
      split; [split; [intros Habs; discriminate Habs | lia] |].
      split; [intros _; split; reflexivity | reflexivity].
  - rewrite (shutdown_not_running g Hs). cbn [fst snd].
    destruct (shutdown_result_flags false false []) as (-> & -> & _).
    repeat split.
Qed.

Lemma C2_match_shutdown_result_witness :
  (flag "experiment_finished"
        (snd (handle_match_shutdown_detected (Manager RUNNING 2 0 3))) = true
   ↔ 3 <= 3)
  ∧ round_count (fst (handle_match_shutdown_detected (Manager WAITING 2 0 3)))
    = 2.
Proof.
  split.
  - pose proof (C2_match_shutdown_result (Manager RUNNING 2 0 3)) as [Hrun _].
    destruct (Hrun eq_refl) as (_ & Hiff & _). exact Hiff.
  - pose proof (C2_match_shutdown_result (Manager WAITING 2 0 3)) as [_ Hidle].
    assert (Hne : current_state (Manager WAITING 2 0 3) ≠ RUNNING)
      by (cbn; discriminate).
    destruct (Hidle Hne) as (_ & _ & Hrc). exact Hrc.
Defined.

Lemma apply_round_count (o : op) (g : t) :
  round_count (apply o g) = round_count g
  ∨ (current_state g = RUNNING ∧ round_count (apply o g) = round_count g + 1).
Proof.
  destruct o; cbn; try (left; reflexivity).
  - left. unfold handle_warmup_detected. destruct (current_state g); reflexivity.
  - left. unfold handle_match_start_detected.
    destruct (current_state g); reflexivity.
  - destruct (decide (current_state g = RUNNING)) as [Hs | Hs].
    + right. split; [exact Hs |]. rewrite (shutdown_running g Hs). reflexivity.
    + left. rewrite (shutdown_not_running g Hs). reflexivity.
Qed.

Lemma apply_all_round_count (os : list op) (g : t) :
  round_count g <= round_count (apply_all os g).
Proof.
  revert g. induction os as [| o os IH]; intros g; cbn.
  - lia.
  - specialize (IH (apply o g)). unfold apply_all in IH.
    destruct (apply_round_count o g) as [Heq | [_ Heq]]; lia.
Qed.

(** C6. The round counter is 1 after construction; no operation of the
    state machine (warmup detected, game initialization, match start,
    match shutdown, transition, reset) decreases it; an operation that
    changes it was applied in state RUNNING; and so after any sequence of
    operations it is at least what it was. *)
Theorem C6_round_count_monotone (latencies : list Z) (repeats : Z)
    (o : op) (os : list op) (g : t) :
  round_count (new latencies repeats) = 1
  ∧ round_count g <= round_count (apply o g)
  ∧ (round_count (apply o g) ≠ round_count g → current_state g = RUNNING)
  ∧ round_count g <= round_count (apply_all os g).
Proof.
  split; [reflexivity |].
  split; [destruct (apply_round_count o g) as [Heq | [_ Heq]]; lia |].
  split; [| apply apply_all_round_count].
  intros Hne. destruct (apply_round_count o g) as [Heq | [Hs _]];
    [contradiction | exact Hs].
Qed.

Lemma C6_round_count_monotone_witness :
  current_state (Manager RUNNING 1 0 3) = RUNNING
  ∧ 1 <= round_count (apply_all [OpMatchShutdown; OpResetToWaiting;
                                 OpWarmupDetected; OpMatchStart;
                                 OpMatchShutdown]
                                (Manager RUNNING 1 0 3)).
Proof.
  pose proof (C6_round_count_monotone [200] 3 OpMatchShutdown
                [OpMatchShutdown; OpResetToWaiting; OpWarmupDetected;
                 OpMatchStart; OpMatchShutdown]
                (Manager RUNNING 1 0 3)) as (_ & _ & Hrun & Hall).
  split; [| exact Hall].
  apply Hrun. vm_compute. discriminate.
Defined.

End GameStateFacts.

(** ** The shutdown strategies *)

Module ShutdownFacts.
Import GameStateManager ShutdownStrategies.

Lemma manager_of_emit (a : adapter) (e : effect) :
  game_state_manager (emit a e) = game_state_manager a.
Proof. reflexivity. Qed.

Lemma manager_of_run_async (a : adapter) (c : coroutine) :
  game_state_manager (run_async a c) = game_state_manager a.
Proof. unfold run_async. destruct (_ && _); reflexivity. Qed.

Lemma match_handle_waiting (a : adapter) :
  current_state (game_state_manager (MatchShutdownStrategy_handle a)) = WAITING.
Proof.
  unfold MatchShutdownStrategy_handle.
  destruct (handle_match_shutdown_detected _) as [g result]. reflexivity.
Qed.

Lemma warmup_handle_waiting (a : adapter) :
  insufficient_humans a = false →
  current_state (game_state_manager (WarmupShutdownStrategy_handle a)) = WAITING.
Proof.
  intros Hh. unfold WarmupShutdownStrategy_handle. rewrite Hh.
  destruct (handle_match_start_detected _) as [g result]. reflexivity.
Qed.

(** C3, as stated, fails: with too few humans the warmup-end strategy
    returns before the reset and the state stays WARMUP. *)
Lemma C3_counterexample :
  get_current_state
    (game_state_manager (handle WarmupShutdownStrategy Scenarios.short_of_players))
  = WARMUP
  ∧ ¬ (∀ (s : strategy) (a : adapter),
         get_current_state (game_state_manager (handle s a)) = WAITING).
Proof.
  split; [reflexivity |].
  intros Hall. specialize (Hall WarmupShutdownStrategy Scenarios.short_of_players).
  vm_compute in Hall. discriminate Hall.
Qed.

(** C3, amended. The state is WAITING when the match-end strategy returns,
    and when the warmup-end strategy returns with the player threshold met.
    With the threshold unmet the warmup-end strategy only re-arms the
    warmup: the state machine is left exactly as it was. *)
Theorem C3_state_after_strategy (s : strategy) (a : adapter) :
  (s = MatchShutdownStrategy ∨ insufficient_humans a = false →
   get_current_state (game_state_manager (handle s a)) = WAITING)
  ∧ (s = WarmupShutdownStrategy → insufficient_humans a = true →
     game_state_manager (handle s a) = game_state_manager a
     ∧ effects (handle s a) = effects a ++ [SetNextRoundWithWarmupPhase]).
Proof.
  split.
  - intros [Hs | Hh].
    + subst s. apply match_handle_waiting.
    + destruct s; [apply match_handle_waiting | apply warmup_handle_waiting, Hh].
  - intros Hs Hh. subst s. cbn. unfold WarmupShutdownStrategy_handle.
    rewrite Hh. split; reflexivity.
Qed.

Lemma C3_state_after_strategy_witness :
  get_current_state
    (game_state_manager
       (handle WarmupShutdownStrategy
               (Adapter (Manager WARMUP 1 0 3) false true false true [])))
  = WAITING
  ∧ game_state_manager (handle WarmupShutdownStrategy Scenarios.short_of_players)
    = game_state_manager Scenarios.short_of_players.
Proof.
  split.
  - apply (C3_state_after_strategy WarmupShutdownStrategy
             (Adapter (Manager WARMUP 1 0 3) false true false true [])).
    right. reflexivity.
  - apply (C3_state_after_strategy WarmupShutdownStrategy Scenarios.short_of_players);
      reflexivity.
Defined.

End ShutdownFacts.

(** ** The client registry *)

Module NetworkFacts.
Import NetworkManager.

Lemma bot_name_truthy (name : string) :
  name ∈ BOT_NAMES → truthy (Some name) = true.
Proof.
  intros Hin. unfold BOT_NAMES in Hin.
  repeat (apply elem_of_cons in Hin as [-> | Hin]; [reflexivity |]).
  apply elem_of_nil in Hin. contradiction.
Qed.

(** C10. A client added under one of the eight names of [BOT_NAMES] is
    registered as BOT whatever [is_bot] and whatever address is given, and
    the call leaves the latency map, the address map and the OBS status map
    as they were. *)
Theorem C10_bot_name_forces_bot (st : t) (client_id : Z) (ip : option string)
    (latency : option Z) (name : string) (is_bot : bool) :
  name ∈ BOT_NAMES →
  let st' := add_client st client_id ip latency (Some name) is_bot in
  client_type_map st' !! client_id = Some "BOT"
  ∧ ip_latency_map st' = ip_latency_map st
  ∧ client_ip_map st' = client_ip_map st
  ∧ obs_status_map st' = obs_status_map st.
Proof.
  intros Hin. cbv zeta. unfold add_client.
  rewrite (bot_name_truthy name Hin). cbn [default andb].
  rewrite (bool_decide_eq_true_2 _ Hin). cbn.
  repeat split. apply lookup_insert_eq.
Qed.

Lemma C10_bot_name_forces_bot_witness :
  client_type_map
    (add_client new 2 (Some "10.0.0.7") (Some 200) (Some "Sarge") false)
    !! 2 = Some "BOT"
  ∧ client_ip_map
      (add_client new 2 (Some "10.0.0.7") (Some 200) (Some "Sarge") false) = ∅.
Proof.
  assert (Hin : "Sarge" ∈ BOT_NAMES)
    by (apply list_elem_of_In; vm_compute; tauto).
  destruct (C10_bot_name_forces_bot new 2 (Some "10.0.0.7") (Some 200)
              "Sarge" false Hin) as (Hty & _ & Hip & _).
  split; [exact Hty | exact Hip].
Defined.

End NetworkFacts.

(** ** The OpenArena message processor: shutdown classification *)

Module OAShutdownFacts.
Import Base OAMessageProcessor OAEvents.

Lemma quiet_flag_after (m : ParsedMessage) (b : bool) :
  quiet m → flag_after m b = b.
Proof. unfold quiet, flag_after. intros [-> | ->]; reflexivity. Qed.

Lemma complete_and_reprocess_quiet (p : t) (raw : string) :
  _recent_fraglimit_hit (fst (_complete_status_parsing_and_reprocess p raw))
  = _recent_fraglimit_hit p
  ∧ quiet (snd (_complete_status_parsing_and_reprocess p raw)).
Proof.
  unfold _complete_status_parsing_and_reprocess.
  destruct (_extract_client_data_from_status p); cbn; split;
    solve [reflexivity | left; reflexivity | right; reflexivity].
Qed.

Lemma handle_status_line_quiet (p : t) (raw : string) :
  _recent_fraglimit_hit (fst (_handle_status_line p raw))
  = _recent_fraglimit_hit p
  ∧ quiet (snd (_handle_status_line p raw)).
Proof.
  unfold _handle_status_line.
  repeat match goal with
         | |- context [if ?c then _ else _] => destruct c
         | |- context [match Re.re_match ?r ?s with _ => _ end] =>
             destruct (Re.re_match r s)
         | |- context [match OAStatusParser.parse_client_line ?s with _ => _ end] =>
             destruct (OAStatusParser.parse_client_line s)
         end;
    try (cbn; split; [reflexivity | left; reflexivity]).
  apply (complete_and_reprocess_quiet
           (set_parser p (StatusParser.add_line (_status_parser p) raw)) raw).
Qed.

Lemma process_message_flag (p p' : t) (raw : string) (m : ParsedMessage) :
  process_message p raw = Some (p', m) →
  _recent_fraglimit_hit p' = flag_after m (_recent_fraglimit_hit p)
  ∧ (message_type m = SERVER_SHUTDOWN →
     (is_match_end m ↔ _recent_fraglimit_hit p = true)
     ∧ (is_match_end m ∨ is_warmup_end m)).
Proof.
  unfold process_message.
  set (line := Py.strip raw).
  destruct (Py.is_empty line).
  { destruct (StatusParser.is_parsing _); intros [= <- <-]; cbn;
      (split; [reflexivity | intros Habs; discriminate Habs]). }
  destruct (Re.re_match pat_CLIENT_CONNECT line).
  { unfold _handle_client_connecting.
    destruct (int_group 1 _); [| discriminate].
    destruct (int_group 2 _); [| discriminate].
    intros [= <- <-]. cbn. unfold call_send_command.
    destruct (send_command p); cbn;
      (split; [reflexivity | intros Habs; discriminate Habs]). }
  destruct (Re.re_match pat_CLIENT_DISCONNECT line).
  { unfold _handle_client_disconnect.
    destruct (int_group 1 _); [| discriminate].
    intros [= <- <-]. cbn.
    split; [reflexivity | intros Habs; discriminate Habs]. }
  destruct (Re.re_match pat_GAME_INITIALIZATION line).
  { intros [= <- <-]. cbn.
    split; [reflexivity | intros Habs; discriminate Habs]. }
  destruct (Re.re_match pat_GAME_END line).
  { intros [= <- <-]. cbn.
    split; [reflexivity | intros Habs; discriminate Habs]. }
  destruct (Re.re_match pat_WARMUP_START line).
  { intros [= <- <-]. cbn.
    split; [reflexivity | intros Habs; discriminate Habs]. }
  destruct (Re.re_match pat_SERVER_SHUTDOWN line).
  { unfold _handle_shutdown_game, is_match_end, is_warmup_end.
    destruct (_recent_fraglimit_hit p) eqn:Hflag; intros [= <- <-]; cbn.
    - split; [reflexivity |]. intros _. split; [| left; reflexivity].
      split; reflexivity.
    - split; [exact Hflag |]. intros _. split; [| right; reflexivity].
      split; intros Habs; discriminate Habs. }
  assert (Hquiet : ∀ q,
             _recent_fraglimit_hit q = _recent_fraglimit_hit p →
             Some (_handle_status_line q line) = Some (p', m) →
             _recent_fraglimit_hit p' = flag_after m (_recent_fraglimit_hit p)
             ∧ (message_type m = SERVER_SHUTDOWN →
                (is_match_end m ↔ _recent_fraglimit_hit p = true)
                ∧ (is_match_end m ∨ is_warmup_end m))).
  { intros q Hq Heq. destruct (handle_status_line_quiet q line) as [Hf Hqt].
    injection Heq as Heq. rewrite Heq in Hf, Hqt. cbn [fst snd] in Hf, Hqt.
    rewrite (quiet_flag_after _ _ Hqt). split; [congruence |].
    intros Hty. destruct Hqt as [Hqt | Hqt]; congruence. }
  destruct (OAStatusParser.is_status_header line).
  { apply Hquiet. reflexivity. }
  destruct (StatusParser.is_parsing (_status_parser p)).
  { apply Hquiet. reflexivity. }
  intros [= <- <-]. cbn.
  split; [reflexivity | intros Habs; discriminate Habs].
Qed.

Lemma process_all_some (p p1 : t) (raw : string) (m : ParsedMessage)
    (rest : list string) :
  process_message p raw = Some (p1, m) →
  process_all p (raw :: rest)
  = (fst (process_all p1 rest), m :: snd (process_all p1 rest)).
Proof.
  intros Hm. cbn [process_all]. rewrite Hm.
  destruct (process_all p1 rest) as [p2 ms]. reflexivity.
Qed.

Lemma process_all_none (p : t) (raw : string) (rest : list string) :
  process_message p raw = None → process_all p (raw :: rest) = (p, []).
Proof. intros Hm. cbn [process_all]. rewrite Hm. reflexivity. Qed.

Lemma pending_cons (m : ParsedMessage) (ms : list ParsedMessage) :
  game_end_pending (m :: ms)
  ↔ (message_type m = GAME_END ∧ Forall (fun x => ¬ clears_flag x) ms)
    ∨ game_end_pending ms.
Proof.
  unfold game_end_pending. split.
  - intros (pre & g & post & Heq & Hg & Hpost).
    destruct pre as [| x pre]; cbn in Heq; injection Heq as -> ->.
    + left. split; assumption.
    + right. exists pre, g, post. repeat split; assumption.
  - intros [[Hm Hms] | (pre & g & post & -> & Hg & Hpost)].
    + exists [], m, ms. repeat split; assumption.
    + exists (m :: pre), g, post. repeat split; assumption.
Qed.

Lemma pending_nil : ¬ game_end_pending [].
Proof.
  intros (pre & g & post & Heq & _). destruct pre; discriminate Heq.
Qed.

Lemma flag_after_cases (m : ParsedMessage) (b : bool) :
  (message_type m = GAME_END ∧ flag_after m b = true)
  ∨ (clears_flag m ∧ flag_after m b = false)
  ∨ (message_type m ≠ GAME_END ∧ ¬ clears_flag m ∧ flag_after m b = b).
Proof.
  unfold flag_after, clears_flag.
  destruct (message_type m);
    solve [ left; split; reflexivity
          | right; left; split; [(left + right); reflexivity | reflexivity]
          | right; right; repeat split;
            [discriminate | intros [H | H]; discriminate H] ].
Qed.

(** The flag is set exactly when a GameEnd is pending in what has been
    processed, or it was set before and nothing since cleared it. *)
Lemma flag_tracks_pending (raws : list string) (p : t) :
  _recent_fraglimit_hit (fst (process_all p raws)) = true
  ↔ game_end_pending (snd (process_all p raws))
    ∨ (_recent_fraglimit_hit p = true
       ∧ Forall (fun x => ¬ clears_flag x) (snd (process_all p raws))).
Proof.
  assert (Hstop : ∀ q : t,
             _recent_fraglimit_hit q = true
             ↔ game_end_pending []
               ∨ (_recent_fraglimit_hit q = true
                  ∧ Forall (fun x => ¬ clears_flag x) [])).
  { intros q. split.
    - intros H. right. split; [exact H | constructor].
    - intros [H | [H _]]; [destruct (pending_nil H) | exact H]. }
  revert p. induction raws as [| raw rest IH]; intros p; [apply Hstop |].
  destruct (process_message p raw) as [[p1 m] |] eqn:Hm.
  2: { rewrite (process_all_none p raw rest Hm). apply Hstop. }
  rewrite (process_all_some p p1 raw m rest Hm). cbn [fst snd].
  destruct (process_message_flag p p1 raw m Hm) as [Hflag _].
  rewrite (IH p1), pending_cons, Hflag, Forall_cons.
  destruct (flag_after_cases m (_recent_fraglimit_hit p))
    as [[Hge ->] | [[Hcl ->] | (Hnge & Hncl & ->)]].
  - split.
    + intros [H | [_ H]]; [left; right; exact H | left; left; split; assumption].
    + intros [[[_ H] | H] | [_ [_ H]]];
        [right; split; [reflexivity | exact H] | left; exact H
        | right; split; [reflexivity | exact H]].
  - split.
    + intros [H | [Habs _]]; [left; right; exact H | discriminate Habs].
    + intros [[[Hge _] | H] | [_ [Hncl _]]].
      * destruct Hcl as [Hcl | Hcl]; congruence.
      * left; exact H.
      * contradiction.
  - split.
    + intros [H | [Hb H]];
        [left; right; exact H | right; repeat split; assumption].
    + intros [[[Hge _] | H] | [Hb [_ H]]];
        [contradiction | left; exact H | right; split; assumption].
Qed.

(** C5. Run the processor from construction over any console lines, then
    over one more line.  If that line is handled as a shutdown, it is
    classified match-end exactly when a GameEnd message was produced with
    no warmup-start or shutdown message after it (otherwise it is
    warmup-end), and the flag is clear afterwards; a warmup-start line also
    leaves the flag clear.  Hence of two shutdown lines with no GameEnd
    between them, not both are classified match-end. *)
Theorem C5_shutdown_classification (callback : bool)
    (raws between : list string) (raw raw2 : string)
    (p1 p3 : t) (m m2 : ParsedMessage) :
  let p := fst (process_all (new callback) raws) in
  let ms := snd (process_all (new callback) raws) in
  let p2 := fst (process_all p1 between) in
  let ms2 := snd (process_all p1 between) in
  process_message p raw = Some (p1, m) →
  (message_type m = SERVER_SHUTDOWN →
   (is_match_end m ↔ game_end_pending ms)
   ∧ (is_match_end m ∨ is_warmup_end m)
   ∧ _recent_fraglimit_hit p1 = false)
  ∧ (message_type m = WARMUP_START → _recent_fraglimit_hit p1 = false)
  ∧ (message_type m = SERVER_SHUTDOWN →
     process_message p2 raw2 = Some (p3, m2) →
     message_type m2 = SERVER_SHUTDOWN →
     Forall (fun x => message_type x ≠ GAME_END) ms2 →
     ¬ (is_match_end m ∧ is_match_end m2)).
Proof.
  cbv zeta.
  set (p := fst (process_all (new callback) raws)).
  set (ms := snd (process_all (new callback) raws)).
  intros Hm.
  destruct (process_message_flag p p1 raw m Hm) as [Hflag Hshut].
  assert (Hclear : clears_flag m → _recent_fraglimit_hit p1 = false).
  { intros Hcl. rewrite Hflag. unfold flag_after.
    destruct Hcl as [-> | ->]; reflexivity. }
  assert (Hpending : _recent_fraglimit_hit p = true ↔ game_end_pending ms).
  { unfold p, ms. rewrite (flag_tracks_pending raws (new callback)).
    split; [| intros H; left; exact H].
    intros [H | [Habs _]]; [exact H | discriminate Habs]. }
  split; [| split].
  - intros Hty. destruct (Hshut Hty) as [Hiff Hor].
    split; [rewrite Hiff; exact Hpending |].
    split; [exact Hor | apply Hclear; right; exact Hty].
  - intros Hty. apply Hclear. left. exact Hty.
  - intros Hty Hm2 Hty2 Hnone [_ Hmatch2].
    destruct (process_message_flag _ p3 raw2 m2 Hm2) as [_ Hshut2].
    destruct (Hshut2 Hty2) as [Hiff2 _]. apply Hiff2 in Hmatch2.
    apply (flag_tracks_pending between p1) in Hmatch2.
    destruct Hmatch2 as [(pre & g & post & Heq & Hg & _) | [Habs _]].
    + rewrite Heq in Hnone. apply Forall_app in Hnone as [_ Hnone].
      apply Forall_cons in Hnone as [Hnone _]. contradiction.
    + rewrite (Hclear (or_intror Hty)) in Habs. discriminate Habs.
Qed.

Lemma C5_shutdown_classification_witness :
  (∃ p1 m,
     process_message
       (fst (process_all (new true)
               ["Exit: Fraglimit hit."; "ClientDisconnect: 2"]))
       "ShutdownGame:" = Some (p1, m)
     ∧ is_match_end m
     ∧ ∃ p3 m2,
         process_message (fst (process_all p1 [])) "ShutdownGame:"
         = Some (p3, m2)
         ∧ ¬ is_match_end m2)
  ∧ ∃ p1 m,
      process_message
        (fst (process_all (new true) ["Exit: Timelimit hit."]))
        "Warmup: 20" = Some (p1, m)
      ∧ _recent_fraglimit_hit p1 = false.
Proof.
  split.
  - destruct (process_message
                (fst (process_all (new true)
                        ["Exit: Fraglimit hit."; "ClientDisconnect: 2"]))
                "ShutdownGame:") as [[p1 m] |] eqn:Hm;
      [| vm_compute in Hm; discriminate Hm].
    destruct (process_message (fst (process_all p1 [])) "ShutdownGame:")
      as [[p3 m2] |] eqn:Hm2.
    2: { vm_compute in Hm. injection Hm as <- <-.
         vm_compute in Hm2. discriminate Hm2. }
    assert (Hty : message_type m = SERVER_SHUTDOWN).
    { vm_compute in Hm. injection Hm as _ <-. reflexivity. }
    assert (Hty2 : message_type m2 = SERVER_SHUTDOWN).
    { vm_compute in Hm. injection Hm as <- <-.
      vm_compute in Hm2. injection Hm2 as _ <-. reflexivity. }
    destruct (C5_shutdown_classification true
                ["Exit: Fraglimit hit."; "ClientDisconnect: 2"] []
                "ShutdownGame:" "ShutdownGame:" p1 p3 m m2 Hm)
      as (Hfirst & _ & Hboth).
    destruct (Hfirst Hty) as (Hiff & _ & _).
    assert (Hmatch : is_match_end m).
    { apply Hiff.
      exists [], (Parsed GAME_END "Exit: Fraglimit hit."
                    (<["event" := VStr "match_ended"]>
                     {["reason" := VStr "fraglimit"]})),
        [Parsed CLIENT_DISCONNECT "ClientDisconnect: 2"
           {["client_id" := VInt 2]}].
      split; [reflexivity |]. split; [reflexivity |].
      repeat constructor. intros [H | H]; discriminate H. }
    exists p1, m. split; [reflexivity |]. split; [exact Hmatch |].
    exists p3, m2. split; [exact Hm2 |].
    intros Hsecond. apply (Hboth Hty Hm2 Hty2); [constructor |].
    split; [exact Hmatch | exact Hsecond].
  - destruct (process_message
                (fst (process_all (new true) ["Exit: Timelimit hit."]))
                "Warmup: 20") as [[p1 m] |] eqn:Hm;
      [| vm_compute in Hm; discriminate Hm].
    destruct (C5_shutdown_classification true ["Exit: Timelimit hit."] []
                "Warmup: 20" "" p1 p1 m m Hm) as (_ & Hwarm & _).
    exists p1, m. split; [reflexivity |]. apply Hwarm.
    vm_compute in Hm. injection Hm as _ <-. reflexivity.
Defined.

End OAShutdownFacts.

(** ** The AMP adapter: dedup cache *)

Module DedupFacts.
Import Base AMPGameAdapter.

Lemma seen_spec (k : string) (cache : list string) :
  seen k cache = true ↔ k ∈ cache.
Proof.
  unfold seen. rewrite existsb_exists, list_elem_of_In. split.
  - intros (x & Hin & Heq). apply String.eqb_eq in Heq. subst x. exact Hin.
  - intros Hin. exists k. split; [exact Hin | apply String.eqb_refl].
Qed.

Lemma evict_drop (max : nat) (cache : list string) :
  evict max cache = drop (length cache - max) cache.
Proof.
  induction cache as [| k rest IH]; [reflexivity |].
  cbn [evict]. destruct (Nat.ltb_spec max (length (k :: rest))) as [Hlt | Hge].
  - cbn [length] in *. rewrite IH.
    replace (S (length rest) - max)%nat with (S (length rest - max)) by lia.
    reflexivity.
  - cbn [length] in *.
    replace (S (length rest) - max)%nat with 0%nat by lia. reflexivity.
Qed.

Lemma evict_length (max : nat) (cache : list string) :
  (length (evict max cache) <= max)%nat.
Proof. rewrite evict_drop, length_drop. lia. Qed.

Lemma evict_small (max : nat) (cache : list string) :
  (length cache <= max)%nat → evict max cache = cache.
Proof.
  intros Hle. rewrite evict_drop.
  replace (length cache - max)%nat with 0%nat by lia. reflexivity.
Qed.

Lemma handle_entry_seen (a : t) (e : ConsoleEntry) :
  seen (msg_key e) (_seen_messages a) = true → handle_entry a e = (a, []).
Proof. intros Hs. unfold handle_entry. rewrite Hs. reflexivity. Qed.

Lemma handle_entry_new (a : t) (e : ConsoleEntry) :
  seen (msg_key e) (_seen_messages a) = false →
  _seen_messages (fst (handle_entry a e))
  = evict _max_seen_cache (_seen_messages a ++ [msg_key e])
  ∧ snd (handle_entry a e) = entry_events a e.
Proof.
  intros Hs. unfold handle_entry, entry_events. rewrite Hs.
  destruct (yield_lines _ _) as [p out]. split; reflexivity.
Qed.

Lemma handle_entry_cache (a : t) (e : ConsoleEntry) :
  _seen_messages (fst (handle_entry a e)) = _seen_messages a
  ∨ _seen_messages (fst (handle_entry a e))
    = evict _max_seen_cache (_seen_messages a ++ [msg_key e]).
Proof.
  destruct (seen (msg_key e) (_seen_messages a)) eqn:Hs.
  - left. rewrite (handle_entry_seen a e Hs). reflexivity.
  - right. apply (handle_entry_new a e Hs).
Qed.

Lemma handle_entry_flags (a : t) (e : ConsoleEntry) :
  _polling (fst (handle_entry a e)) = _polling a
  ∧ _shutdown_requested (fst (handle_entry a e)) = _shutdown_requested a
  ∧ authenticated (fst (handle_entry a e)) = authenticated a.
Proof.
  unfold handle_entry. destruct (seen _ _); [repeat split |].
  destruct (yield_lines _ _) as [p out]. repeat split.
Qed.

Lemma handle_entries_cons (a : t) (e : ConsoleEntry) (rest : list ConsoleEntry) :
  handle_entries a (e :: rest)
  = (fst (handle_entries (fst (handle_entry a e)) rest),
     snd (handle_entry a e) ++ snd (handle_entries (fst (handle_entry a e)) rest)).
Proof.
  cbn [handle_entries]. destruct (handle_entry a e) as [a1 out1].
  cbn [fst snd]. destruct (handle_entries a1 rest) as [a2 out2]. reflexivity.
Qed.

Lemma handle_entries_app (a : t) (l1 l2 : list ConsoleEntry) :
  handle_entries a (l1 ++ l2)
  = (fst (handle_entries (fst (handle_entries a l1)) l2),
     snd (handle_entries a l1)
     ++ snd (handle_entries (fst (handle_entries a l1)) l2)).
Proof.
  revert a. induction l1 as [| e l1 IH]; intros a.
  - cbn. destruct (handle_entries a l2). reflexivity.
  - rewrite <- app_comm_cons, !handle_entries_cons, IH. cbn [fst snd].
    rewrite app_assoc. reflexivity.
Qed.

Lemma handle_entries_flags (entries : list ConsoleEntry) (a : t) :
  loop_condition (fst (handle_entries a entries)) = loop_condition a.
Proof.
  revert a. induction entries as [| e rest IH]; intros a; [reflexivity |].
  rewrite handle_entries_cons. cbn [fst]. rewrite IH.
  destruct (handle_entry_flags a e) as (Hp & Hs & Ha).
  unfold loop_condition. rewrite Hp, Hs, Ha. reflexivity.
Qed.

Lemma cached_within_seen (k : string) (n : nat) (cache : list string) :
  cached_within k n cache → seen k cache = true.
Proof.
  intros (older & newer & -> & _). apply seen_spec.
  apply elem_of_app. right. apply elem_of_cons. left. reflexivity.
Qed.

Lemma cached_within_insert (k key : string) (n max : nat) (cache : list string) :
  cached_within k n cache → (n + 2 <= max)%nat →
  cached_within k (S n) (evict max (cache ++ [key])).
Proof.
  intros (older & newer & -> & Hlen) Hmax.
  rewrite evict_drop, <- app_assoc, <- app_comm_cons, length_app.
  cbn [length]. rewrite length_app. cbn [length].
  rewrite drop_app_le by lia.
  eexists _, (newer ++ [key]). split; [reflexivity |].
  rewrite length_app. cbn [length]. lia.
Qed.

Lemma cached_within_fresh (key : string) (max : nat) (cache : list string) :
  (1 <= max)%nat → cached_within key 0 (evict max (cache ++ [key])).
Proof.
  intros Hmax. rewrite evict_drop, length_app. cbn [length].
  rewrite drop_app_le by lia.
  eexists _, []. split; [reflexivity | cbn; lia].
Qed.

Lemma cached_within_step (k : string) (n : nat) (a : t) (e : ConsoleEntry) :
  cached_within k n (_seen_messages a) → (n + 2 <= _max_seen_cache)%nat →
  cached_within k (S n) (_seen_messages (fst (handle_entry a e))).
Proof.
  intros Hc Hmax. destruct (handle_entry_cache a e) as [-> | ->].
  - destruct Hc as (older & newer & Heq & Hlen).
    exists older, newer. split; [exact Heq | lia].
  - apply cached_within_insert; assumption.
Qed.

Lemma cached_within_steps (k : string) (mid : list ConsoleEntry) (n : nat)
    (a : t) :
  cached_within k n (_seen_messages a) →
  (n + length mid + 1 <= _max_seen_cache)%nat →
  cached_within k (n + length mid)
                (_seen_messages (fst (handle_entries a mid))).
Proof.
  revert n a. induction mid as [| e rest IH]; intros n a Hc Hmax.
  - cbn. rewrite Nat.add_0_r. exact Hc.
  - rewrite handle_entries_cons. cbn [fst length] in *.
    replace (n + S (length rest))%nat with (S n + length rest)%nat by lia.
    apply IH; [| lia]. apply cached_within_step; [exact Hc | lia].
Qed.

(** Once emitted, an entry stays suppressed while fewer than 1000 entries
    follow it. *)
Lemma second_feed_silent (a : t) (e : ConsoleEntry) (mid : list ConsoleEntry) :
  seen (msg_key e) (_seen_messages a) = false →
  (length mid < 1000)%nat →
  handle_entry (fst (handle_entries a (e :: mid))) e
  = (fst (handle_entries a (e :: mid)), []).
Proof.
  intros Hnew Hlen. apply handle_entry_seen.
  rewrite handle_entries_cons. cbn [fst].
  apply (cached_within_seen _ (0 + length mid)).
  apply cached_within_steps; [| unfold _max_seen_cache; lia].
  destruct (handle_entry_new a e Hnew) as [-> _].
  apply cached_within_fresh. unfold _max_seen_cache. lia.
Qed.

Lemma handle_entries_twice (a : t) (e : ConsoleEntry) (mid : list ConsoleEntry) :
  seen (msg_key e) (_seen_messages a) = false →
  (length mid < 1000)%nat →
  handle_entries a (e :: mid ++ [e]) = handle_entries a (e :: mid).
Proof.
  intros Hnew Hlen. rewrite app_comm_cons, handle_entries_app.
  pose proof (second_feed_silent a e mid Hnew Hlen) as Hsilent.
  destruct (handle_entries a (e :: mid)) as [a2 out2]. cbn [fst snd] in *.
  rewrite (handle_entries_cons a2 e []), Hsilent. cbn [fst snd handle_entries].
  rewrite !app_nil_r. reflexivity.
Qed.

Lemma poll_loop_two (a : t) (l1 l2 : list ConsoleEntry) :
  poll_loop a [Updates l1; Updates l2]
  = if loop_condition a
    then (fst (handle_entries a (l1 ++ l2)), snd (handle_entries a (l1 ++ l2)))
    else (a, []).
Proof.
  cbn [poll_loop poll_once]. destruct (loop_condition a) eqn:Hc; [| reflexivity].
  rewrite handle_entries_app.
  pose proof (handle_entries_flags l1 a) as Hf. rewrite Hc in Hf.
  destruct (handle_entries a l1) as [a1 out1]. cbn [fst snd] in *.
  rewrite Hf. destruct (handle_entries a1 l2) as [a2 out2].
  cbn [fst snd]. rewrite app_nil_r. reflexivity.
Qed.

Lemma poll_loop_cache_bound (polls : list rpc_result) (a : t) :
  (length (_seen_messages a) <= _max_seen_cache)%nat →
  (length (_seen_messages (fst (poll_loop a polls))) <= _max_seen_cache)%nat.
Proof.
  assert (Hentry : ∀ a e,
             (length (_seen_messages a) <= _max_seen_cache)%nat →
             (length (_seen_messages (fst (handle_entry a e)))
              <= _max_seen_cache)%nat).
  { intros a0 e Hle. destruct (handle_entry_cache a0 e) as [-> | ->];
      [exact Hle | apply evict_length]. }
  assert (Hentries : ∀ es a,
             (length (_seen_messages a) <= _max_seen_cache)%nat →
             (length (_seen_messages (fst (handle_entries a es)))
              <= _max_seen_cache)%nat).
  { induction es as [| e es IH]; intros a0 Hle; [exact Hle |].
    rewrite handle_entries_cons. cbn [fst]. apply IH, Hentry, Hle. }
  revert a. induction polls as [| r rest IH]; intros a Hle; [exact Hle |].
  cbn [poll_loop]. destruct (loop_condition a); [| exact Hle].
  destruct r as [entries | [|]]; cbn [poll_once].
  - specialize (Hentries entries a Hle).
    destruct (handle_entries a entries) as [a1 out1]. cbn [fst] in Hentries.
    specialize (IH a1 Hentries).
    destruct (poll_loop a1 rest) as [a2 out2]. exact IH.
  - specialize (IH (set_authenticated a true) Hle).
    destruct (poll_loop (set_authenticated a true) rest) as [a2 out2]. exact IH.
  - exact Hle.
Qed.

(** C1, as stated, fails: an entry fed twice in one poll, with the 1000
    other entries of the poll between its two occurrences, is emitted
    twice, because the thousandth new key evicts its key. *)
Lemma C1_counterexample :
  length
    (filter (fun m => raw_message m = "hello")
       (snd (read_messages Scenarios.logged_in
               [Updates (Scenarios.hello
                         :: map Scenarios.numbered_entry (seq 0 1000)
                         ++ [Scenarios.hello])])))
  = 2%nat.
Proof. vm_compute. reflexivity. Qed.

(** C1, amended. An entry whose key is not in the cache yields its events
    (its non-blank lines, parsed in order); an entry whose key is in the
    cache yields nothing and changes nothing.  After a first feed that
    emitted it, the same entry fed again, later in the same poll or in the
    next poll, yields nothing, provided fewer than 1000 entries were fed in
    between.  After every insertion, and at every point of a run of
    [read_messages], the cache holds at most 1000 keys; inserting a new key
    into a cache of 1000 keys removes exactly the oldest one. *)
Theorem C1_dedup_cache (a : t) (e : ConsoleEntry)
    (mid mid1 mid2 : list ConsoleEntry) (polls : list rpc_result)
    (oldest : string) (others : list string) :
  (seen (msg_key e) (_seen_messages a) = true → handle_entry a e = (a, []))
  ∧ (seen (msg_key e) (_seen_messages a) = false →
     snd (handle_entry a e) = entry_events a e
     ∧ (length (_seen_messages (fst (handle_entry a e))) <= 1000)%nat
     ∧ ((length mid < 1000)%nat →
        handle_entries a (e :: mid ++ [e]) = handle_entries a (e :: mid))
     ∧ ((length mid1 + length mid2 < 1000)%nat →
        poll_loop a [Updates (e :: mid1); Updates (mid2 ++ [e])]
        = poll_loop a [Updates (e :: mid1); Updates mid2])
     ∧ (_seen_messages a = oldest :: others →
        length (oldest :: others) = 1000%nat →
        _seen_messages (fst (handle_entry a e)) = others ++ [msg_key e]))
  ∧ (length (_seen_messages (fst (read_messages a polls))) <= 1000)%nat.
Proof.
  split; [apply handle_entry_seen |].
  split.
  - intros Hnew. destruct (handle_entry_new a e Hnew) as [Hcache Hout].
    split; [exact Hout |].
    split; [rewrite Hcache; apply (evict_length _max_seen_cache) |].
    split; [| split].
    + apply (handle_entries_twice a e mid Hnew).
    + intros Hlen. rewrite !poll_loop_two.
      rewrite <- !app_comm_cons, app_assoc.
      rewrite (handle_entries_twice a e (mid1 ++ mid2) Hnew)
        by (rewrite length_app; exact Hlen).
      reflexivity.
    + intros Hfull Hlen. rewrite Hcache, Hfull, evict_drop.
      rewrite length_app, Hlen. reflexivity.
  - apply (poll_loop_cache_bound polls (start_reading a)).
    cbn. unfold _max_seen_cache. lia.
Qed.

Lemma C1_dedup_cache_witness :
  handle_entries Scenarios.polling
    [Scenarios.hello; Scenarios.numbered_entry 7; Scenarios.hello]
  = handle_entries Scenarios.polling
      [Scenarios.hello; Scenarios.numbered_entry 7]
  ∧ poll_loop Scenarios.polling
      [Updates [Scenarios.hello; Scenarios.numbered_entry 7];
       Updates [Scenarios.numbered_entry 8; Scenarios.hello]]
    = poll_loop Scenarios.polling
        [Updates [Scenarios.hello; Scenarios.numbered_entry 7];
         Updates [Scenarios.numbered_entry 8]]
  ∧ handle_entry (fst (handle_entry Scenarios.polling Scenarios.hello))
                 Scenarios.hello
    = (fst (handle_entry Scenarios.polling Scenarios.hello), [])
  ∧ _seen_messages (fst (handle_entry Scenarios.full_cache Scenarios.hello))
    = map msg_key (map Scenarios.numbered_entry (seq 1 999))
      ++ [msg_key Scenarios.hello].
Proof.
  destruct (C1_dedup_cache Scenarios.polling Scenarios.hello
              [Scenarios.numbered_entry 7] [Scenarios.numbered_entry 7]
              [Scenarios.numbered_entry 8] [] "" [])
    as (_ & Hnew & _).
  destruct (Hnew eq_refl) as (_ & _ & Hsame & Hnext & _).
  destruct (C1_dedup_cache
              (fst (handle_entry Scenarios.polling Scenarios.hello))
              Scenarios.hello [] [] [] [] "" [])
    as (Hseen & _ & _).
  destruct (C1_dedup_cache Scenarios.full_cache Scenarios.hello [] [] [] []
              (msg_key (Scenarios.numbered_entry 0))
              (map msg_key (map Scenarios.numbered_entry (seq 1 999))))
    as (_ & Hfull & _).
  destruct (Hfull ltac:(vm_compute; reflexivity)) as (_ & _ & _ & _ & Hevict).
  split; [apply Hsame; cbn; lia |].
  split; [apply Hnext; cbn; lia |].
  split; [apply Hseen; reflexivity |].
  apply Hevict; vm_compute; reflexivity.
Defined.

(** C7, as stated, fails: after an RPC failure and a successful re-login
    the cache still holds the key of the entry emitted before the failure,
    and that entry is not emitted when the panel returns it again; connect
    does not empty the cache either. *)
Lemma C7_counterexample :
  _seen_messages
    (fst (read_messages Scenarios.logged_in
            [Updates [Scenarios.hello]; RpcError true]))
  = [msg_key Scenarios.hello]
  ∧ snd (read_messages Scenarios.logged_in
           [Updates [Scenarios.hello]; RpcError true;
            Updates [Scenarios.hello]])
    = snd (read_messages Scenarios.logged_in [Updates [Scenarios.hello]])
  ∧ _seen_messages
      (fst (connect
              (fst (read_messages Scenarios.logged_in
                      [Updates [Scenarios.hello]])) true))
    = [msg_key Scenarios.hello].
Proof. vm_compute. repeat split. Qed.

(** C7, amended. The cache is emptied when [read_messages] starts and by
    [disconnect] on a connected adapter.  [connect] and a successful
    re-login after an RPC failure leave it as it was, so an entry whose
    key was cached before the failure is still suppressed after the
    re-login. *)
Theorem C7_cache_clearing (a : t) (e : ConsoleEntry) (login_ok : bool) :
  _seen_messages (start_reading a) = []
  ∧ read_messages a [] = (start_reading a, [])
  ∧ (authenticated a = true → _seen_messages (disconnect a) = [])
  ∧ _seen_messages (fst (connect a login_ok)) = _seen_messages a
  ∧ _seen_messages (fst (fst (poll_once a (RpcError true))))
    = _seen_messages a
  ∧ (seen (msg_key e) (_seen_messages a) = true →
     snd (handle_entry (fst (fst (poll_once a (RpcError true)))) e) = []).
Proof.
  split; [reflexivity |]. split; [reflexivity |].
  split; [intros Hauth; unfold disconnect; rewrite Hauth; reflexivity |].
  split; [reflexivity |]. split; [reflexivity |].
  intros Hseen. cbn [poll_once fst].
  rewrite (handle_entry_seen (set_authenticated a true) e Hseen). reflexivity.
Qed.

Lemma C7_cache_clearing_witness :
  _seen_messages
    (disconnect (fst (read_messages Scenarios.logged_in
                        [Updates [Scenarios.hello]]))) = []
  ∧ snd (handle_entry
           (fst (fst (poll_once
                        (fst (read_messages Scenarios.logged_in
                                [Updates [Scenarios.hello]]))
                        (RpcError true))))
           Scenarios.hello)
    = [].
Proof.
  destruct (C7_cache_clearing
              (fst (read_messages Scenarios.logged_in [Updates [Scenarios.hello]]))
              Scenarios.hello true)
    as (_ & _ & Hdisc & _ & _ & Hsilent).
  split; [apply Hdisc; reflexivity | apply Hsilent; reflexivity].
Defined.

End DedupFacts.

(** ** Status blocks *)

Module StatusBlockFacts.
Import Base.

Section OpenArena.
Import OAMessageProcessor OAEvents.

Lemma extract_loop_spec (source lines : list string) (i : Z)
    (acc : list OAStatusParser.client) :
  NoDup (map OAStatusParser.client_id acc) →
  Forall (parsed_from source) acc →
  (∀ line, line ∈ lines → line ∈ source) →
  NoDup (map OAStatusParser.client_id (extract_loop i lines acc))
  ∧ Forall (parsed_from source) (extract_loop i lines acc).
Proof.
  revert i acc. induction lines as [| line rest IH]; intros i acc Hnd Hacc Hsub.
  - split; assumption.
  - assert (Hrest : ∀ l, l ∈ rest → l ∈ source)
      by (intros l Hl; apply Hsub; right; exact Hl).
    cbn [extract_loop]. destruct (i <=? 3); [apply IH; assumption |].
    destruct (OAStatusParser.parse_client_line line) as [c |] eqn:Hparse;
      [| apply IH; assumption].
    destruct (find _ acc) as [existing |] eqn:Hfind; [apply IH; assumption |].
    apply IH; [| | exact Hrest].
    + rewrite map_app. cbn [map]. apply NoDup_app. split; [exact Hnd |].
      split; [| apply NoDup_singleton].
      intros id Hid Hid'. apply list_elem_of_singleton in Hid'. subst id.
      apply list_elem_of_fmap in Hid as (c' & Hc' & Hin).
      apply list_elem_of_In in Hin.
      pose proof (find_none _ _ Hfind c' Hin) as Hne. cbn in Hne.
      apply Z.eqb_neq in Hne. congruence.
    + apply Forall_app. split; [exact Hacc |].
      constructor; [| constructor].
      exists line. split; [apply Hsub; left | exact Hparse].
Qed.

Lemma extract_spec (p : t) :
  NoDup (map OAStatusParser.client_id (_extract_client_data_from_status p))
  ∧ Forall (parsed_from (StatusParser.lines (_status_parser p)))
           (_extract_client_data_from_status p).
Proof.
  apply extract_loop_spec; [constructor | constructor | tauto].
Qed.

Lemma status_complete_message_ok (p : t) :
  well_formed (StatusParser.lines (_status_parser p))
              (status_complete_message (_extract_client_data_from_status p)).
Proof.
  intros _. split; [reflexivity |].
  exists (_extract_client_data_from_status p).
  split; [reflexivity | apply extract_spec].
Qed.

Lemma plain_message_ok (source : list string) (ty : MessageType)
    (raw : string) (d : gmap string value) :
  d !! "status_complete" = None → well_formed source (Parsed ty raw d).
Proof. intros Hd Hc. unfold status_complete in Hc. cbn in Hc. congruence. Qed.

Lemma complete_and_reprocess_ok (p : t) (raw : string) :
  well_formed (StatusParser.lines (_status_parser p))
              (snd (_complete_status_parsing_and_reprocess p raw))
  ∧ StatusParser.lines
      (_status_parser (fst (_complete_status_parsing_and_reprocess p raw)))
    = [].
Proof.
  unfold _complete_status_parsing_and_reprocess.
  pose proof (status_complete_message_ok p) as Hok.
  destruct (_extract_client_data_from_status p) as [| c l]; cbn [fst snd].
  - split; [apply plain_message_ok; reflexivity | reflexivity].
  - split; [exact Hok | reflexivity].
Qed.

Lemma handle_status_line_ok (p : t) (raw : string) :
  well_formed (StatusParser.lines (_status_parser p) ++ [raw])
              (snd (_handle_status_line p raw))
  ∧ (∀ x, x ∈ StatusParser.lines
                 (_status_parser (fst (_handle_status_line p raw))) →
          x ∈ StatusParser.lines (_status_parser p) ++ [raw]).
Proof.
  unfold _handle_status_line.
  set (q := set_parser p (StatusParser.add_line (_status_parser p) raw)).
  assert (Hq : StatusParser.lines (_status_parser q)
               = StatusParser.lines (_status_parser p) ++ [raw]) by reflexivity.
  repeat match goal with
         | |- context [if ?c then _ else _] => destruct c
         | |- context [match Re.re_match ?r ?s with _ => _ end] =>
             destruct (Re.re_match r s)
         | |- context [match OAStatusParser.parse_client_line ?s with _ => _ end] =>
             destruct (OAStatusParser.parse_client_line s)
         end;
    try (split; [apply plain_message_ok; reflexivity
                | cbn [fst]; intros x Hx; exact Hx]).
  destruct (complete_and_reprocess_ok q raw) as [Hok Hlines].
  rewrite Hq in Hok. split; [exact Hok |].
  intros x Hx. rewrite Hlines in Hx. apply elem_of_nil in Hx. contradiction.
Qed.

Lemma process_message_ok (p p' : t) (raw : string) (m : ParsedMessage) :
  process_message p raw = Some (p', m) →
  well_formed (StatusParser.lines (_status_parser p) ++ [Py.strip raw]) m
  ∧ (∀ x, x ∈ StatusParser.lines (_status_parser p') →
          x ∈ StatusParser.lines (_status_parser p) ++ [Py.strip raw]).
Proof.
  assert (Hkeep : ∀ x, x ∈ StatusParser.lines (_status_parser p) →
                       x ∈ StatusParser.lines (_status_parser p)
                           ++ [Py.strip raw])
    by (intros x Hx; apply elem_of_app; left; exact Hx).
  assert (Hwiden : ∀ m, well_formed (StatusParser.lines (_status_parser p)) m →
                        well_formed (StatusParser.lines (_status_parser p)
                                     ++ [Py.strip raw]) m).
  { intros m0 Hm Hc. destruct (Hm Hc) as (Hcl & l & Hl & Hnd & Hfrom).
    split; [exact Hcl |]. exists l. split; [exact Hl |]. split; [exact Hnd |].
    eapply Forall_impl; [exact Hfrom |].
    intros c (line & Hin & Hparse). exists line.
    split; [apply Hkeep, Hin | exact Hparse]. }
  assert (Hpair : ∀ (r : t * ParsedMessage),
             well_formed (StatusParser.lines (_status_parser p)
                          ++ [Py.strip raw]) (snd r)
             ∧ (∀ x, x ∈ StatusParser.lines (_status_parser (fst r)) →
                     x ∈ StatusParser.lines (_status_parser p)
                         ++ [Py.strip raw]) →
             Some r = Some (p', m) →
             well_formed (StatusParser.lines (_status_parser p)
                          ++ [Py.strip raw]) m
             ∧ (∀ x, x ∈ StatusParser.lines (_status_parser p') →
                     x ∈ StatusParser.lines (_status_parser p)
                         ++ [Py.strip raw])).
  { intros r Hr [= ->]. exact Hr. }
  unfold process_message. set (line := Py.strip raw) in *.
  destruct (Py.is_empty line).
  { destruct (StatusParser.is_parsing _); apply Hpair; cbn [fst snd].
    - split; [apply Hwiden, status_complete_message_ok |].
      intros x Hx. apply elem_of_nil in Hx. contradiction.
    - split; [apply plain_message_ok; reflexivity | exact Hkeep]. }
  destruct (Re.re_match pat_CLIENT_CONNECT line).
  { unfold _handle_client_connecting.
    destruct (int_group 1 _); [| discriminate].
    destruct (int_group 2 _); [| discriminate].
    apply Hpair. split; [apply plain_message_ok; reflexivity |].
    cbn [fst]. unfold call_send_command.
    destruct (send_command p); exact Hkeep. }
  destruct (Re.re_match pat_CLIENT_DISCONNECT line).
  { unfold _handle_client_disconnect.
    destruct (int_group 1 _); [| discriminate].
    apply Hpair. split; [apply plain_message_ok; reflexivity | exact Hkeep]. }
  destruct (Re.re_match pat_GAME_INITIALIZATION line).
  { apply Hpair. split; [apply plain_message_ok; reflexivity | exact Hkeep]. }
  destruct (Re.re_match pat_GAME_END line).
  { apply Hpair. split; [apply plain_message_ok; reflexivity | exact Hkeep]. }
  destruct (Re.re_match pat_WARMUP_START line).
  { apply Hpair. split; [apply plain_message_ok; reflexivity | exact Hkeep]. }
  destruct (Re.re_match pat_SERVER_SHUTDOWN line).
  { apply Hpair. unfold _handle_shutdown_game.
    destruct (_recent_fraglimit_hit p);
      (split; [apply plain_message_ok; reflexivity | exact Hkeep]). }
  destruct (OAStatusParser.is_status_header line).
  { apply Hpair.
    set (q := set_client_count
                (set_parser p (StatusParser.start_parsing (_status_parser p)))
                0).
    destruct (handle_status_line_ok q line) as [Hok Hlines].
    change (StatusParser.lines (_status_parser q)) with (@nil string)
      in Hok, Hlines.
    split.
    - intros Hc. destruct (Hok Hc) as (Hcl & l & Hl & Hnd & Hfrom).
      split; [exact Hcl |]. exists l. split; [exact Hl |]. split; [exact Hnd |].
      eapply Forall_impl; [exact Hfrom |].
      intros c (x & Hin & Hparse). exists x.
      split; [apply elem_of_app; right; exact Hin | exact Hparse].
    - intros x Hx. apply elem_of_app. right. exact (Hlines x Hx). }
  destruct (StatusParser.is_parsing (_status_parser p)).
  { apply Hpair. apply handle_status_line_ok. }
  apply Hpair. split; [apply plain_message_ok; reflexivity | exact Hkeep].
Qed.

Lemma process_all_ok (raws : list string) (p : t) (seen : list string) :
  (∀ x, x ∈ StatusParser.lines (_status_parser p) → x ∈ seen) →
  Forall (well_formed (seen ++ map Py.strip raws)) (snd (process_all p raws)).
Proof.
  revert p seen. induction raws as [| raw rest IH]; intros p seen Hsub.
  - constructor.
  - destruct (process_message p raw) as [[p1 m] |] eqn:Hm.
    2: { rewrite (OAShutdownFacts.process_all_none p raw rest Hm).
         constructor. }
    rewrite (OAShutdownFacts.process_all_some p p1 raw m rest Hm).
    cbn [snd map].
    destruct (process_message_ok p p1 raw m Hm) as [Hok Hlines].
    assert (Hsub' : ∀ x, x ∈ StatusParser.lines (_status_parser p)
                             ++ [Py.strip raw] →
                         x ∈ seen ++ [Py.strip raw]).
    { intros x Hx. apply elem_of_app in Hx as [Hx | Hx];
        apply elem_of_app; [left; apply Hsub, Hx | right; exact Hx]. }
    constructor.
    + intros Hc. destruct (Hok Hc) as (Hcl & l & Hl & Hnd & Hfrom).
      split; [exact Hcl |]. exists l. split; [exact Hl |]. split; [exact Hnd |].
      eapply Forall_impl; [exact Hfrom |].
      intros c (x & Hin & Hparse). exists x. split; [| exact Hparse].
      apply Hsub' in Hin. apply elem_of_app in Hin as [Hin | Hin];
        apply elem_of_app; [left; exact Hin |].
      right. apply list_elem_of_singleton in Hin. subst x. left.
    + specialize (IH p1 (seen ++ [Py.strip raw])).
      rewrite <- app_assoc in IH. apply IH.
      intros x Hx. apply Hsub', Hlines, Hx.
Qed.

(** Every status-complete message of a run keeps its clients under
    [client_data], without repeated ids, each parsed from a line read. *)
Lemma oa_status_complete (callback : bool) (raws : list string)
    (m : ParsedMessage) :
  m ∈ snd (process_all (new callback) raws) → status_complete m →
  data m !! "clients" = None
  ∧ ∃ l, data m !! "client_data" = Some (VOAClients l)
         ∧ NoDup (map OAStatusParser.client_id l)
         ∧ ∀ c, c ∈ l →
                ∃ raw, raw ∈ raws
                       ∧ OAStatusParser.parse_client_line (Py.strip raw)
                         = Some c.
Proof.
  intros Hin Hc.
  pose proof (process_all_ok raws (new callback) []) as Hall.
  rewrite Forall_forall in Hall.
  destruct (Hall ltac:(intros x Hx; apply elem_of_nil in Hx; contradiction)
                 m Hin Hc) as (Hcl & l & Hl & Hnd & Hfrom).
  split; [exact Hcl |]. exists l. split; [exact Hl |]. split; [exact Hnd |].
  intros c Hcin. rewrite Forall_forall in Hfrom.
  destruct (Hfrom c Hcin) as (line & Hline & Hparse).
  rewrite app_nil_l in Hline.
  apply list_elem_of_fmap in Hline as (raw & -> & Hraw).
  exists raw. split; assumption.
Qed.

Lemma extract_loop_lists (lines : list string) (i : Z)
    (acc : list OAStatusParser.client) :
  3 < i →
  (∀ id, id ∈ map OAStatusParser.client_id acc →
         id ∈ map OAStatusParser.client_id (extract_loop i lines acc))
  ∧ (∀ line c, line ∈ lines → OAStatusParser.parse_client_line line = Some c →
               OAStatusParser.client_id c
               ∈ map OAStatusParser.client_id (extract_loop i lines acc)).
Proof.
  revert i acc. induction lines as [| line rest IH]; intros i acc Hi.
  - split; [intros id Hid; exact Hid |].
    intros l c Hl. apply elem_of_nil in Hl. contradiction.
  - cbn [extract_loop].
    destruct (i <=? 3) eqn:Hle; [apply Z.leb_le in Hle; lia |].
    assert (Hi' : 3 < i + 1) by lia.
    destruct (OAStatusParser.parse_client_line line) as [c0 |] eqn:Hparse.
    + destruct (find _ acc) as [existing |] eqn:Hfind.
      * destruct (IH (i + 1) acc Hi') as [Hkeep Hall].
        split; [exact Hkeep |].
        intros l c Hl Hc. apply elem_of_cons in Hl as [-> | Hl];
          [| exact (Hall l c Hl Hc)].
        rewrite Hparse in Hc. injection Hc as <-.
        apply Hkeep. apply find_some in Hfind as [Hin Heq].
        apply Z.eqb_eq in Heq. rewrite <- Heq.
        apply list_elem_of_fmap. exists existing.
        split; [reflexivity | apply list_elem_of_In; exact Hin].
      * destruct (IH (i + 1) (acc ++ [c0]) Hi') as [Hkeep Hall].
        split.
        { intros id Hid. apply Hkeep. rewrite map_app.
          apply elem_of_app. left. exact Hid. }
        intros l c Hl Hc. apply elem_of_cons in Hl as [-> | Hl];
          [| exact (Hall l c Hl Hc)].
        rewrite Hparse in Hc. injection Hc as <-.
        apply Hkeep. rewrite map_app. apply elem_of_app. right. left.
    + destruct (IH (i + 1) acc Hi') as [Hkeep Hall].
      split; [exact Hkeep |].
      intros l c Hl Hc. apply elem_of_cons in Hl as [-> | Hl];
        [congruence | exact (Hall l c Hl Hc)].
Qed.

Lemma extract_skips_three (lines : list string) :
  extract_loop 1 lines [] = extract_loop 4 (drop 3 lines) [].
Proof.
  destruct lines as [| l1 [| l2 [| l3 rest]]]; reflexivity.
Qed.

Lemma no_event_step (p : t) (raw : string) :
  Py.is_empty (Py.strip raw) = false → no_event (Py.strip raw) →
  process_message p raw
  = if OAStatusParser.is_status_header (Py.strip raw) then
      Some (_handle_status_line
              (set_client_count
                 (set_parser p (StatusParser.start_parsing (_status_parser p)))
                 0)
              (Py.strip raw))
    else if StatusParser.is_parsing (_status_parser p) then
      Some (_handle_status_line p (Py.strip raw))
    else Some (p, Parsed UNKNOWN (Py.strip raw) no_data).
Proof.
  intros Hne (H1 & H2 & H3 & H4 & H5 & H6). unfold process_message.
  rewrite Hne, H1, H2, H3, H4, H5, H6. reflexivity.
Qed.

Lemma header_step (p : t) (raw : string) :
  block_header raw →
  ∃ p' m, process_message p raw = Some (p', m)
          ∧ ¬ status_complete m
          ∧ StatusParser.is_parsing (_status_parser p') = true
          ∧ StatusParser.lines (_status_parser p') = [Py.strip raw].
Proof.
  intros (Hne & Hev & Hhead). rewrite (no_event_step p raw Hne Hev), Hhead.
  unfold _handle_status_line.
  destruct (OAStatusParser.is_separator (Py.strip raw)).
  { do 2 eexists. split; [reflexivity |].
    split; [intros Hc; discriminate Hc | split; reflexivity]. }
  destruct (Py.startswith "map:" (Py.strip raw)).
  { do 2 eexists. split; [reflexivity |].
    split; [intros Hc; discriminate Hc | split; reflexivity]. }
  rewrite Hhead. do 2 eexists. split; [reflexivity |].
  split; [intros Hc; discriminate Hc | split; reflexivity].
Qed.

Lemma separator_step (p : t) (raw : string) :
  block_separator raw →
  StatusParser.is_parsing (_status_parser p) = true →
  ∃ p' m, process_message p raw = Some (p', m)
          ∧ ¬ status_complete m
          ∧ StatusParser.is_parsing (_status_parser p') = true
          ∧ StatusParser.seen_separator (_status_parser p') = true
          ∧ StatusParser.lines (_status_parser p')
            = StatusParser.lines (_status_parser p) ++ [Py.strip raw].
Proof.
  intros (Hne & Hev & Hhead & Hsep) Hparsing.
  rewrite (no_event_step p raw Hne Hev), Hhead, Hparsing.
  unfold _handle_status_line. rewrite Hsep.
  do 2 eexists. split; [reflexivity |].
  split; [intros Hc; discriminate Hc |].
  destruct p as [sc cs [st ls seen] n f g]. cbn in Hparsing |- *.
  repeat split. exact Hparsing.
Qed.

Lemma block_row_step (p : t) (raw : string) :
  block_row raw →
  StatusParser.is_parsing (_status_parser p) = true →
  StatusParser.seen_separator (_status_parser p) = true →
  ∃ p' m, process_message p raw = Some (p', m)
          ∧ ¬ status_complete m
          ∧ StatusParser.is_parsing (_status_parser p') = true
          ∧ StatusParser.seen_separator (_status_parser p') = true
          ∧ StatusParser.lines (_status_parser p')
            = StatusParser.lines (_status_parser p) ++ [Py.strip raw].
Proof.
  intros (Hne & Hev & Hhead & Hsep & Hmap & Hrow) Hparsing Hseen.
  rewrite (no_event_step p raw Hne Hev), Hhead, Hparsing.
  unfold _handle_status_line. rewrite Hsep, Hmap, Hhead.
  change (StatusParser.seen_separator
            (_status_parser
               (set_parser p (StatusParser.add_line (_status_parser p)
                                                    (Py.strip raw)))))
    with (StatusParser.seen_separator (_status_parser p)).
  rewrite Hseen.
  destruct (Re.re_match pat_client_row (Py.strip raw)); [| contradiction].
  destruct (OAStatusParser.parse_client_line (Py.strip raw));
    (do 2 eexists; split; [reflexivity |];
     split; [intros Hc; discriminate Hc |];
     destruct p as [sc cs [st ls seen] n f g];
     cbn in Hparsing, Hseen |- *; repeat split; assumption).
Qed.

Lemma end_step (p : t) (raw : string) :
  Py.is_empty (Py.strip raw) = true →
  StatusParser.is_parsing (_status_parser p) = true →
  ∃ p', process_message p raw
        = Some (p', status_complete_message
                      (_extract_client_data_from_status p)).
Proof.
  intros Hempty Hparsing. unfold process_message.
  rewrite Hempty, Hparsing. eexists. reflexivity.
Qed.

Lemma rows_then_empty (rows : list string) (p : t) (end_line : string) :
  Forall block_row rows →
  Py.is_empty (Py.strip end_line) = true →
  StatusParser.is_parsing (_status_parser p) = true →
  StatusParser.seen_separator (_status_parser p) = true →
  ∃ before,
    snd (process_all p (rows ++ [end_line]))
    = before
      ++ [status_complete_message
            (extract_loop 1 (StatusParser.lines (_status_parser p)
                             ++ map Py.strip rows) [])]
    ∧ Forall (fun x => ¬ status_complete x) before.
Proof.
  intros Hrows Hend. revert p.
  induction Hrows as [| raw rows Hrow _ IH]; intros p Hparsing Hseen.
  - destruct (end_step p end_line Hend Hparsing) as (p' & Hm).
    exists []. split; [| constructor].
    cbn [app]. rewrite (OAShutdownFacts.process_all_some _ _ _ _ _ Hm).
    cbn [snd process_all map]. rewrite app_nil_r. reflexivity.
  - destruct (block_row_step p raw Hrow Hparsing Hseen)
      as (p1 & m & Hm & Hquiet & Hparsing1 & Hseen1 & Hlines).
    destruct (IH p1 Hparsing1 Hseen1) as (before & Heq & Hbefore).
    exists (m :: before). split; [| constructor; assumption].
    cbn [app]. rewrite (OAShutdownFacts.process_all_some _ _ _ _ _ Hm).
    cbn [snd map]. rewrite Heq, Hlines, <- app_assoc. reflexivity.
Qed.

(** A block of the OpenArena processor ends in one status-complete
    message; its list is what the extraction loop makes of the rows after
    the first. *)
Lemma oa_block (p : t) (header separator end_line : string)
    (rows : list string) :
  block_header header → block_separator separator →
  Forall block_row rows → Py.is_empty (Py.strip end_line) = true →
  ∃ before,
    snd (process_all p (header :: separator :: rows ++ [end_line]))
    = before
      ++ [status_complete_message
            (extract_loop 4 (map Py.strip (drop 1 rows)) [])]
    ∧ Forall (fun x => ¬ status_complete x) before.
Proof.
  intros Hhead Hsep Hrows Hend.
  destruct (header_step p header Hhead)
    as (p1 & m1 & Hm1 & Hq1 & Hparsing1 & Hlines1).
  destruct (separator_step p1 separator Hsep Hparsing1)
    as (p2 & m2 & Hm2 & Hq2 & Hparsing2 & Hseen2 & Hlines2).
  destruct (rows_then_empty rows p2 end_line Hrows Hend Hparsing2 Hseen2)
    as (before & Heq & Hbefore).
  exists (m1 :: m2 :: before).
  split; [| constructor; [exact Hq1 | constructor; [exact Hq2 | exact Hbefore]]].
  rewrite (OAShutdownFacts.process_all_some _ _ _ _ _ Hm1). cbn [snd].
  rewrite (OAShutdownFacts.process_all_some _ _ _ _ _ Hm2). cbn [snd].
  rewrite Heq, Hlines2, Hlines1. cbn [app].
  rewrite extract_skips_three. cbn [drop].
  destruct rows; reflexivity.
Qed.

End OpenArena.

Section AMP.
Import AMPMessageProcessor.

Lemma block_clients_cons (raw : string) (rows : list string) :
  block_clients (raw :: rows)
  = match row_client raw with
    | Some c => c :: block_clients rows
    | None => block_clients rows
    end.
Proof. reflexivity. Qed.

Lemma row_step (acc : list AMPStatusParser.client) (raw : string) :
  inner_row raw →
  fst (process_message (Processor true acc) raw)
  = Processor true (match row_client raw with
                    | Some c => acc ++ [c]
                    | None => acc
                    end)
  ∧ ¬ status_complete (snd (process_message (Processor true acc) raw)).
Proof.
  intros [Hhead Hend]. unfold process_message, row_client.
  set (line := Py.strip raw) in *.
  destruct (Py.is_empty line); cbn [orb].
  { split; [reflexivity | intros Hc; discriminate Hc]. }
  rewrite Hhead. cbn [_in_player_section andb]. rewrite Hend.
  destruct (AMPStatusParser.is_column_header line).
  { split; [reflexivity | intros Hc; discriminate Hc]. }
  destruct (AMPStatusParser.parse_client_line line);
    (split; [reflexivity | intros Hc; discriminate Hc]).
Qed.

Lemma rows_then_end (rows : list string) (acc : list AMPStatusParser.client)
    (end_line : string) :
  Forall inner_row rows → Py.strip end_line = AMPStatusParser.PLAYER_SECTION_END →
  ∃ before,
    snd (process_all (Processor true acc) (rows ++ [end_line]))
    = before ++ [section_end_message AMPStatusParser.PLAYER_SECTION_END
                                     (acc ++ block_clients rows)]
    ∧ Forall (fun x => ¬ status_complete x) before.
Proof.
  intros Hrows Hend. revert acc.
  induction Hrows as [| raw rows Hrow _ IH]; intros acc.
  - exists []. split; [| constructor].
    cbn [app process_all]. unfold process_message. rewrite Hend.
    cbn. rewrite app_nil_r. reflexivity.
  - destruct (row_step acc raw Hrow) as [Hstate Hquiet].
    cbn [app process_all].
    destruct (process_message (Processor true acc) raw) as [p1 m].
    cbn [fst snd] in Hstate, Hquiet. subst p1.
    rewrite block_clients_cons.
    destruct (row_client raw) as [c |].
    + destruct (IH (acc ++ [c])) as (before & Heq & Hbefore).
      destruct (process_all _ (rows ++ [end_line])) as [p2 ms].
      cbn [snd] in *. exists (m :: before).
      rewrite Heq, <- app_assoc. split; [reflexivity |].
      constructor; assumption.
    + destruct (IH acc) as (before & Heq & Hbefore).
      destruct (process_all _ (rows ++ [end_line])) as [p2 ms].
      cbn [snd] in *. exists (m :: before).
      rewrite Heq. split; [reflexivity |]. constructor; assumption.
Qed.

(** A block of the AMP processor ends in one status-complete message,
    which lists the clients of its rows in order. *)
Lemma amp_block (p : t) (header end_line : string) (rows : list string) :
  AMPStatusParser.is_status_header (Py.strip header) = true →
  Forall inner_row rows →
  Py.strip end_line = AMPStatusParser.PLAYER_SECTION_END →
  ∃ before,
    snd (process_all p (header :: rows ++ [end_line]))
    = before ++ [section_end_message AMPStatusParser.PLAYER_SECTION_END
                                     (block_clients rows)]
    ∧ Forall (fun x => ¬ status_complete x) before.
Proof.
  intros Hhead Hrows Hend.
  destruct (rows_then_end rows [] end_line Hrows Hend)
    as (before & Heq & Hbefore).
  cbn [process_all]. unfold process_message at 1.
  destruct (Py.is_empty (Py.strip header)) eqn:Hempty.
  { destruct (Py.strip header); [discriminate Hhead | discriminate Hempty]. }
  rewrite Hhead.
  destruct (process_all (Processor true []) (rows ++ [end_line])) as [p2 ms].
  cbn [snd] in *. exists (Parsed STATUS_UPDATE (Py.strip header) no_data :: before).
  rewrite Heq. split; [reflexivity |].
  constructor; [intros Hc; discriminate Hc | exact Hbefore].
Qed.

Lemma block_clients_parsed (rows : list string) (c : AMPStatusParser.client) :
  c ∈ block_clients rows →
  ∃ raw, raw ∈ rows ∧ AMPStatusParser.parse_client_line (Py.strip raw) = Some c.
Proof.
  unfold block_clients. intros Hin.
  apply list_elem_of_omap in Hin as (raw & Hraw & Hrow).
  exists raw. split; [exact Hraw |]. unfold row_client in Hrow.
  destruct (_ || _); [discriminate Hrow | exact Hrow].
Qed.

End AMP.

(** C4.  The OpenArena processor on a status block of two client rows
    ended by an empty line ([Scenarios.oa_block]).  Both rows parse, with
    the distinct client ids 0 and 1, so that the claim asks for a list of
    two records.  The run emits one status-complete message, its last,
    and the list of that message holds the record of the second row only:
    the record of the first row, client 0 named Player1 at 192.168.1.100,
    is missing.  [_extract_client_data_from_status] skips the first three
    collected lines, whatever they are (its comment: skip map, headers,
    and separator lines), but the lines collected are the header, the
    separator and the rows, the map line of the console being printed
    before the header; the third line skipped is the first client row. *)
Theorem C4_first_row_dropped :
  (∀ p : OAMessageProcessor.t,
     OAMessageProcessor._extract_client_data_from_status p
     = OAMessageProcessor.extract_loop 4
         (drop 3 (StatusParser.lines (OAMessageProcessor._status_parser p)))
         [])
  ∧ ∃ c0 c1 before,
      omap (fun raw => OAStatusParser.parse_client_line (Py.strip raw))
           Scenarios.oa_block = [c0; c1]
      ∧ OAStatusParser.client_id c0 = 0 ∧ OAStatusParser.client_id c1 = 1
      ∧ OAStatusParser.name c0 = "Player1"
      ∧ OAStatusParser.ip c0 = "192.168.1.100"
      ∧ snd (OAMessageProcessor.process_all (OAMessageProcessor.new true)
               Scenarios.oa_block)
        = before ++ [OAMessageProcessor.status_complete_message [c1]]
      ∧ Forall (fun m => ¬ status_complete m) before
      ∧ status_complete (OAMessageProcessor.status_complete_message [c1])
      ∧ data (OAMessageProcessor.status_complete_message [c1])
          !! "client_data" = Some (VOAClients [c1]).
Proof.
  split.
  - intros p. apply extract_skips_three.
  - do 2 eexists.
    exists (removelast (snd (OAMessageProcessor.process_all
                               (OAMessageProcessor.new true)
                               Scenarios.oa_block))).
    split; [vm_compute; reflexivity |].
    split; [reflexivity |]. split; [reflexivity |].
    split; [reflexivity |]. split; [reflexivity |].
    split; [vm_compute; reflexivity |].
    split; [| split; reflexivity].
    vm_compute. repeat constructor; intros Hc; discriminate Hc.
Qed.

(** X24.  A status block of the AMP processor: a start marker, rows that
    are neither a start marker nor the end marker, and the end marker,
    fed to the processor in any state.  The block produces exactly one
    status-complete message, the last message of the block, with the end
    marker as its raw text.  Under the key [clients] it lists one record
    for every row that is not blank, is not the column header and parses
    as a client, in row order and without removing repeated client ids;
    every record is the parse of its row. *)
Theorem X24_amp_status_block (p : AMPMessageProcessor.t)
    (header end_line : string) (rows : list string) :
  AMPStatusParser.is_status_header (Py.strip header) = true →
  Forall AMPMessageProcessor.inner_row rows →
  Py.strip end_line = AMPStatusParser.PLAYER_SECTION_END →
  (∃ before m,
     snd (AMPMessageProcessor.process_all p (header :: rows ++ [end_line]))
     = before ++ [m]
     ∧ Forall (fun x => ¬ status_complete x) before
     ∧ status_complete m
     ∧ raw_message m = AMPStatusParser.PLAYER_SECTION_END
     ∧ data m !! "clients"
       = Some (VAMPClients (AMPMessageProcessor.block_clients rows)))
  ∧ AMPMessageProcessor.block_clients rows
    = omap (fun raw =>
              if Py.is_empty (Py.strip raw)
                 || AMPStatusParser.is_column_header (Py.strip raw)
              then None
              else AMPStatusParser.parse_client_line (Py.strip raw))
           rows
  ∧ ∀ c, c ∈ AMPMessageProcessor.block_clients rows →
         ∃ raw, raw ∈ rows
                ∧ AMPStatusParser.parse_client_line (Py.strip raw) = Some c.
Proof.
  intros Hhead Hrows Hend. split; [| split].
  - destruct (amp_block p header end_line rows Hhead Hrows Hend)
      as (before & Heq & Hbefore).
    exists before. eexists. split; [exact Heq |].
    split; [exact Hbefore |]. repeat split.
  - reflexivity.
  - apply block_clients_parsed.
Qed.

Lemma X24_amp_status_block_witness :
  ∃ before m c1 c2,
    snd (AMPMessageProcessor.process_all AMPMessageProcessor.new
           Scenarios.amp_block) = before ++ [m]
    ∧ data m !! "clients" = Some (VAMPClients [c1; c2])
    ∧ AMPStatusParser.client_id c1 = AMPStatusParser.client_id c2.
Proof.
  destruct (X24_amp_status_block AMPMessageProcessor.new
              "---------players--------" "#end" Scenarios.amp_block_rows)
    as [(before & m & Heq & _ & _ & _ & Hclients) _].
  - reflexivity.
  - unfold Scenarios.amp_block_rows.
    repeat constructor; vm_compute; reflexivity.
  - reflexivity.
  - exists before, m. do 2 eexists. split; [exact Heq |].
    split; [rewrite Hclients; vm_compute; reflexivity | reflexivity].
Defined.

(** X25.  A status block of the OpenArena processor: a header line, a
    separator line, rows that [_handle_status_line] takes for client data
    and an empty line, none of them matched by an event pattern, fed to
    the processor in any state.  The block produces exactly one
    status-complete message, the last message of the block.  Its list,
    under the key [client_data], is made from the rows after the first:
    no two records share a client id, every record is the parse of one of
    those rows, and every client id parsed from one of those rows is in
    the list.  The first row of the block is never read for the list. *)
Theorem X25_oa_status_block (p : OAMessageProcessor.t)
    (header separator end_line : string) (rows : list string) :
  OAEvents.block_header header → OAEvents.block_separator separator →
  Forall OAEvents.block_row rows → Py.is_empty (Py.strip end_line) = true →
  ∃ before l,
    snd (OAMessageProcessor.process_all p
           (header :: separator :: rows ++ [end_line]))
    = before ++ [OAMessageProcessor.status_complete_message l]
    ∧ Forall (fun x => ¬ status_complete x) before
    ∧ status_complete (OAMessageProcessor.status_complete_message l)
    ∧ data (OAMessageProcessor.status_complete_message l) !! "client_data"
      = Some (VOAClients l)
    ∧ l = OAMessageProcessor.extract_loop 4 (map Py.strip (drop 1 rows)) []
    ∧ NoDup (map OAStatusParser.client_id l)
    ∧ (∀ c, c ∈ l →
            ∃ raw, raw ∈ drop 1 rows
                   ∧ OAStatusParser.parse_client_line (Py.strip raw) = Some c)
    ∧ (∀ raw c, raw ∈ drop 1 rows →
                OAStatusParser.parse_client_line (Py.strip raw) = Some c →
                OAStatusParser.client_id c
                ∈ map OAStatusParser.client_id l).
Proof.
  intros Hhead Hsep Hrows Hend.
  destruct (oa_block p header separator end_line rows Hhead Hsep Hrows Hend)
    as (before & Heq & Hbefore).
  exists before. eexists. split; [exact Heq |].
  split; [exact Hbefore |]. split; [reflexivity |]. split; [reflexivity |].
  split; [reflexivity |].
  destruct (extract_loop_spec (map Py.strip (drop 1 rows))
              (map Py.strip (drop 1 rows)) 4 [])
    as [Hnd Hfrom]; [constructor | constructor | tauto |].
  destruct (extract_loop_lists (map Py.strip (drop 1 rows)) 4 [])
    as [_ Hall]; [lia |].
  split; [exact Hnd |]. split.
  - intros c Hc. rewrite Forall_forall in Hfrom.
    destruct (Hfrom c Hc) as (line & Hline & Hparse).
    apply list_elem_of_fmap in Hline as (raw & -> & Hraw).
    exists raw. split; assumption.
  - intros raw c Hraw Hparse. apply (Hall (Py.strip raw) c); [| exact Hparse].
    apply list_elem_of_fmap. exists raw. split; [reflexivity | exact Hraw].
Qed.

Lemma X25_oa_status_block_witness :
  ∃ before c1,
    snd (OAMessageProcessor.process_all (OAMessageProcessor.new true)
           Scenarios.oa_block)
    = before ++ [OAMessageProcessor.status_complete_message [c1]]
    ∧ OAStatusParser.name c1 = "BotPlayer".
Proof.
  destruct (X25_oa_status_block (OAMessageProcessor.new true)
              "num score ping name            lastmsg address               qport rate"
              "--- ----- ---- --------------- ------- --------------------- ----- -----"
              ""
              [ "  0    5  100 Player1              0 192.168.1.100:27961   12345 25000";
                "  1    3   50 BotPlayer            0 bot                       0 25000" ])
    as (before & l & Heq & _ & _ & _ & Hl & _).
  - vm_compute. repeat split.
  - vm_compute. repeat split.
  - repeat constructor; try (vm_compute; reflexivity);
      vm_compute; intros Hc; discriminate Hc.
  - reflexivity.
  - exists before. eexists. split.
    + etransitivity; [exact Heq |]. rewrite Hl. vm_compute. reflexivity.
    + reflexivity.
Defined.

End StatusBlockFacts.

(** ** The status parsers of the two transports *)

Module ParserFacts.
Import Py.

Lemma octet_tests_agree (num : Z) :
  ((num <? 0) || (255 <? num)) = negb ((0 <=? num) && (num <=? 255)).
Proof.
  destruct (Z.ltb_spec num 0), (Z.ltb_spec 255 num),
    (Z.leb_spec 0 num), (Z.leb_spec num 255); try reflexivity; lia.
Qed.

Lemma loops_agree (parts : list string) :
  OAStatusParser.check_parts parts = AMPStatusParser.all_octets parts.
Proof.
  induction parts as [| p rest IH]; [reflexivity |].
  cbn [OAStatusParser.check_parts AMPStatusParser.all_octets].
  destruct (int p) as [num |]; [| reflexivity].
  rewrite octet_tests_agree.
  destruct ((0 <=? num) && (num <=? 255)); [exact IH | reflexivity].
Qed.

(** X1. The two transports' IP validators return the same answer on every
    string, the empty string included. *)
Theorem X1_validators_agree (ip : string) :
  OAStatusParser._is_valid_ip ip = AMPStatusParser._is_valid_ip ip.
Proof.
  unfold OAStatusParser._is_valid_ip, AMPStatusParser._is_valid_ip.
  rewrite loops_agree. destruct ip as [| c r]; reflexivity.
Qed.

Lemma oa_valid_not_empty (ip : string) :
  OAStatusParser._is_valid_ip ip = true → ip ≠ "".
Proof. intros H ->. discriminate H. Qed.

Lemma oa_parse_sound (line : string) (c : OAStatusParser.client) :
  OAStatusParser.parse_client_line line = Some c →
  (OAStatusParser.type c = "BOT" ∧ OAStatusParser.ip c = "bot")
  ∨ (OAStatusParser.type c = "HUMAN"
     ∧ OAStatusParser._is_valid_ip (OAStatusParser.ip c) = true).
Proof.
  unfold OAStatusParser.parse_client_line. intros H.
  destruct (length (split_ws line) <? 6)%nat; [discriminate H |].
  simplify_option_eq.
  repeat case_match; simplify_eq; cbn.
  all: try (left; split; reflexivity).
  all: right; split; [reflexivity |].
  all: match goal with
       | Hv : negb ?v = false |- ?v = true =>
           apply negb_false_iff in Hv; exact Hv
       end.
Qed.

Lemma oa_parse_ip_not_empty (line : string) (c : OAStatusParser.client) :
  OAStatusParser.parse_client_line line = Some c → OAStatusParser.ip c ≠ "".
Proof.
  intros H. destruct (oa_parse_sound line c H) as [[_ Hb] | [_ Hv]].
  - rewrite Hb. discriminate.
  - apply oa_valid_not_empty, Hv.
Qed.

(** X2. Whatever line the OpenArena status parser is given, a record it
    returns is either a bot, with the address marker [bot], or a human
    whose address passed the IP validation; a line with fewer than six
    fields gives no record. *)
Theorem X2_oa_parse_client_line_sound (line : string)
    (c : OAStatusParser.client) :
  (OAStatusParser.parse_client_line line = Some c →
   (OAStatusParser.type c = "BOT" ∧ OAStatusParser.ip c = "bot")
   ∨ (OAStatusParser.type c = "HUMAN"
      ∧ OAStatusParser._is_valid_ip (OAStatusParser.ip c) = true))
  ∧ ((length (split_ws line) < 6)%nat →
     OAStatusParser.parse_client_line line = None).
Proof.
  split.
  - apply oa_parse_sound.
  - intros Hlen. unfold OAStatusParser.parse_client_line.
    apply Nat.ltb_lt in Hlen. rewrite Hlen. reflexivity.
Qed.

Lemma X2_oa_parse_client_line_sound_witness :
  OAStatusParser._is_valid_ip "192.168.1.5" = true
  ∧ OAStatusParser.parse_client_line "1 0 40 Alice" = None.
Proof.
  destruct (X2_oa_parse_client_line_sound
              "0 5 30 Alice 0 192.168.1.5:27960 1234 25000"
              (OAStatusParser.Client 0 5 30 "Alice" 0 "192.168.1.5" 1234
                                     25000 "HUMAN")) as [Hsound _].
  destruct (X2_oa_parse_client_line_sound "1 0 40 Alice"
              (OAStatusParser.Client 0 5 30 "Alice" 0 "192.168.1.5" 1234
                                     25000 "HUMAN")) as [_ Hshort].
  split.
  - destruct (Hsound ltac:(vm_compute; reflexivity)) as [[Hty _] | [_ Hv]];
      [discriminate Hty | exact Hv].
  - apply Hshort. vm_compute. lia.
Defined.

End ParserFacts.

(** ** The AMP status parser *)

Module AMPParserFacts.
Import Py AMPStatusParser.

Lemma amp_parse_sound (line : string) (c : client) :
  parse_client_line line = Some c →
  type c = "HUMAN"
  ∧ _is_valid_ip (ip c) = true
  ∧ head (split_on ":" (address c)) = Some (ip c)
  ∧ contains " BOT " line = false.
Proof.
  unfold parse_client_line. intros H.
  destruct (contains " BOT " line); [discriminate H |].
  destruct (Re.search IP_PORT_PATTERN line) as [ip_match |];
    [| discriminate H].
  cbn [mbind option_bind] in H.
  destruct (Re.group 1 ip_match) as [addr |]; [| discriminate H].
  cbn [mbind option_bind] in H.
  destruct (head (split_on ":" addr)) as [ip0 |] eqn:Hhead;
    [| discriminate H].
  cbn [mbind option_bind] in H.
  destruct (_is_valid_ip ip0) eqn:Hvalid; [| discriminate H].
  cbn [negb] in H.
  destruct (length _ <? 5)%nat; [discriminate H |].
  simplify_option_eq. repeat case_match; simplify_eq; cbn; auto.
Qed.

(** X19. Whatever line the AMP status parser is given, a record it
    returns is a HUMAN whose [ip] passed the IP validation and is the part
    of [address] before the first colon; a line that contains [ BOT ]
    gives no record. *)
Theorem X19_amp_parse_client_line_sound (line : string) (c : client) :
  (parse_client_line line = Some c →
   type c = "HUMAN"
   ∧ _is_valid_ip (ip c) = true
   ∧ head (split_on ":" (address c)) = Some (ip c))
  ∧ (contains " BOT " line = true → parse_client_line line = None).
Proof.
  split.
  - intros H. destruct (amp_parse_sound line c H) as (H1 & H2 & H3 & _).
    repeat split; assumption.
  - intros Hbot. unfold parse_client_line. rewrite Hbot. reflexivity.
Qed.

Lemma X19_amp_parse_client_line_sound_witness :
  _is_valid_ip "127.190.6.117" = true
  ∧ parse_client_line
      "  4    00:05   12    0   spawning  80000 BOT 127.190.6.117:52271 'x'"
    = None.
Proof.
  destruct (X19_amp_parse_client_line_sound
              "  3    00:05   12    0   spawning  80000 127.190.6.117:52271 'first'"
              (Client 3 "00:05" 12 0 "spawning" 80000 "127.190.6.117"
                      "127.190.6.117:52271" "first" "HUMAN")) as [Hsound _].
  destruct (X19_amp_parse_client_line_sound
              "  4    00:05   12    0   spawning  80000 BOT 127.190.6.117:52271 'x'"
              (Client 3 "00:05" 12 0 "spawning" 80000 "127.190.6.117"
                      "127.190.6.117:52271" "first" "HUMAN")) as [_ Hbot].
  split.
  - destruct (Hsound ltac:(vm_compute; reflexivity)) as (_ & Hv & _).
    exact Hv.
  - apply Hbot. vm_compute. reflexivity.
Defined.

End AMPParserFacts.

(** ** AMP credentials *)

Module CredentialFacts.
Import Py PyText AMPAdapterControl.

Lemma contains_sep (sep : ascii) (u p : string) :
  contains (String sep "") (u +:+ String sep p) = true.
Proof.
  induction u as [| c r IH].
  - rewrite PyFacts.append_nil. cbn.
    destruct (ascii_dec sep sep) as [_ | Hne]; [| contradiction].
    destruct p; reflexivity.
  - rewrite PyFacts.append_cons. cbn [contains]. rewrite IH.
    apply orb_true_r.
Qed.

Lemma split_once_append (sep : ascii) (u p : string) :
  free_of sep u → split_once sep (u +:+ String sep p) = Some (u, p).
Proof.
  induction u as [| c r IH]; intros Hfree.
  - rewrite PyFacts.append_nil. cbn. rewrite Ascii.eqb_refl. reflexivity.
  - destruct Hfree as [Hc Hr]. rewrite PyFacts.append_cons. cbn [split_once].
    destruct (Ascii.eqb_spec c sep) as [-> | _]; [contradiction |].
    rewrite (IH Hr). reflexivity.
Qed.

Lemma not_empty_neq (s : string) : is_empty s = false → s ≠ "".
Proof. intros H ->. discriminate H. Qed.

(** X3. [_parse_credentials] splits at the first colon and strips both
    halves: for a user name without a colon, and any password (colons
    allowed), both not blank, it returns the stripped pair.  Whatever it
    returns has a non-empty user name and password; a missing field and a
    field without a colon are rejected. *)
Theorem X3_parse_credentials (username password field : string)
    (u p : string) (given : option string) :
  (free_of ":" username → is_empty (strip username) = false →
   is_empty (strip password) = false →
   _parse_credentials (Some (username +:+ ":" +:+ password))
   = Some (strip username, strip password))
  ∧ (_parse_credentials given = Some (u, p) → u ≠ "" ∧ p ≠ "")
  ∧ (contains ":" field = false → _parse_credentials (Some field) = None)
  ∧ _parse_credentials None = None.
Proof.
  split; [| split; [| split]].
  - intros Hfree Hu Hp. unfold _parse_credentials.
    change (username +:+ ":" +:+ password)
      with (username +:+ String ":" password).
    rewrite contains_sep, (split_once_append ":" username password Hfree).
    cbn [negb mbind option_bind]. rewrite Hu, Hp.
    destruct username as [| c r]; [discriminate Hu | reflexivity].
  - unfold _parse_credentials. intros H.
    destruct given as [f |]; [| discriminate H].
    destruct (is_empty f); [discriminate H |].
    destruct (negb _); [discriminate H |].
    destruct (split_once ":" f) as [[un pw] |]; [| discriminate H].
    cbn in H.
    destruct (is_empty (strip un)) eqn:Hun; [discriminate H |].
    destruct (is_empty (strip pw)) eqn:Hpw; [discriminate H |].
    injection H as <- <-. split; apply not_empty_neq; assumption.
  - intros Hno. unfold _parse_credentials. rewrite Hno.
    destruct (is_empty field); reflexivity.
  - reflexivity.
Qed.

Lemma X3_parse_credentials_witness :
  _parse_credentials (Some " admin : s3:cret ") = Some ("admin", "s3:cret")
  ∧ ("admin" ≠ "" ∧ "s3:cret" ≠ "")
  ∧ _parse_credentials (Some "admin") = None.
Proof.
  destruct (X3_parse_credentials " admin " " s3:cret " "admin"
              "admin" "s3:cret" (Some "admin:s3:cret"))
    as (Hround & Hsound & Hnocolon & _).
  split; [apply Hround; vm_compute; repeat split; discriminate |].
  split; [apply Hsound; reflexivity | apply Hnocolon; reflexivity].
Defined.

End CredentialFacts.

(** ** The client registry: removal *)

Module NetworkOpsFacts.
Import NetworkManager NetworkOps.

Lemma ip_in_use_spec (ip : string) (m : gmap Z string) :
  ip_in_use ip m = true ↔ ∃ id, m !! id = Some ip.
Proof.
  unfold ip_in_use. rewrite bool_decide_eq_true, map_Exists_lookup. split.
  - intros (id & v & Hl & ->). exists id. exact Hl.
  - intros (id & Hl). exists id, ip. split; [exact Hl | reflexivity].
Qed.

Lemma ip_in_use_false (ip : string) (m : gmap Z string) :
  ip_in_use ip m = false ↔ ∀ id, m !! id ≠ Some ip.
Proof.
  rewrite <- not_true_iff_false, ip_in_use_spec. split.
  - intros Hno id Hl. apply Hno. exists id. exact Hl.
  - intros Hall (id & Hl). exact (Hall id Hl).
Qed.

(** X4. After [remove_client] the client is gone from the type, name and
    address maps, the three counters agree with the type map, and every
    other client's entries are as before.  The address of the removed
    client loses its latency and OBS entries when no remaining client uses
    it, and keeps them untouched otherwise. *)
Theorem X4_remove_client (st : t) (client_id other : Z) (ip : string) :
  let st' := remove_client st client_id in
  client_type_map st' !! client_id = None
  ∧ client_name_map st' !! client_id = None
  ∧ client_ip_map st' !! client_id = None
  ∧ counts_exact st'
  ∧ (other ≠ client_id →
     client_type_map st' !! other = client_type_map st !! other
     ∧ client_name_map st' !! other = client_name_map st !! other
     ∧ client_ip_map st' !! other = client_ip_map st !! other)
  ∧ (client_ip_map st !! client_id = Some ip →
     if ip_in_use ip (client_ip_map st')
     then ip_latency_map st' = ip_latency_map st
          ∧ obs_status_map st' = obs_status_map st
     else ip_latency_map st' !! ip = None ∧ obs_status_map st' !! ip = None).
Proof.
  cbv zeta. unfold remove_client.
  assert (Hothers : ∀ (m : gmap Z string), other ≠ client_id →
             delete client_id m !! other = m !! other)
    by (intros m Hne; apply lookup_delete_ne; congruence).
  destruct (client_ip_map st !! client_id) as [ip0 |] eqn:Hip.
  - destruct (ip_in_use ip0 (delete client_id (client_ip_map st))) eqn:Huse;
      cbn [negb client_type_map client_name_map client_ip_map
           ip_latency_map obs_status_map];
      rewrite !lookup_delete_eq;
      (split; [reflexivity |]); (split; [reflexivity |]);
      (split; [reflexivity |]); (split; [repeat split |]);
      (split; [intros Hne; rewrite !Hothers by exact Hne; repeat split |]);
      intros [= <-]; rewrite Huse.
    + split; reflexivity.
    + rewrite !lookup_delete_eq. split; reflexivity.
  - cbn [client_type_map client_name_map client_ip_map
         ip_latency_map obs_status_map].
    rewrite !lookup_delete_eq.
    split; [reflexivity |]. split; [reflexivity |]. split; [exact Hip |].
    split; [repeat split |].
    split; [intros Hne; rewrite !Hothers by exact Hne; repeat split |].
    intros Habs. discriminate Habs.
Qed.

Lemma X4_remove_client_witness :
  client_ip_map
    (remove_client
       (add_client (add_client new 1 (Some "10.0.0.1") (Some 50) (Some "a") false)
                   2 (Some "10.0.0.2") (Some 70) (Some "b") false) 1)
    !! 2 = Some "10.0.0.2"
  ∧ ip_latency_map
      (remove_client
         (add_client (add_client new 1 (Some "10.0.0.1") (Some 50) (Some "a") false)
                     2 (Some "10.0.0.2") (Some 70) (Some "b") false) 1)
      !! "10.0.0.1" = None.
Proof.
  destruct (X4_remove_client
              (add_client (add_client new 1 (Some "10.0.0.1") (Some 50)
                                      (Some "a") false)
                          2 (Some "10.0.0.2") (Some 70) (Some "b") false)
              1 2 "10.0.0.1") as (_ & _ & _ & _ & Hother & Haddr).
  split.
  - destruct Hother as (_ & _ & Hip); [discriminate |].
    rewrite Hip. reflexivity.
  - specialize (Haddr eq_refl). vm_compute in Haddr. apply Haddr.
Defined.

(** X5. Adding a client about which nothing is recorded, and removing it
    again, gives back the five maps of the registry as they were, for any
    latency, name and bot flag. *)
Theorem X5_add_then_remove (st : t) (client_id : Z) (ip : option string)
    (latency : option Z) (name : option string) (is_bot : bool) :
  unknown_client st client_id (default "" ip) →
  let st' := remove_client
               (add_client st client_id ip latency name is_bot) client_id in
  ip_latency_map st' = ip_latency_map st
  ∧ client_ip_map st' = client_ip_map st
  ∧ client_type_map st' = client_type_map st
  ∧ client_name_map st' = client_name_map st
  ∧ obs_status_map st' = obs_status_map st.
Proof.
  intros (Hty & Hnm & Hip & Hlat & Hobs & Huse). cbv zeta.
  assert (Hnames : ∀ m : gmap Z string,
             m !! client_id = None →
             delete client_id
               (if truthy name then <[client_id := default "" name]> m else m)
             = m).
  { intros m Hm. destruct (truthy name);
      [apply delete_insert_id, Hm | apply delete_id, Hm]. }
  unfold add_client.
  set (bot := if truthy name && bool_decide (default "" name ∈ BOT_NAMES)
              then true else is_bot).
  destruct (negb bot && truthy ip) eqn:Hhuman.
  - rewrite Hlat. unfold remove_client.
    cbn [client_ip_map ip_latency_map obs_status_map client_type_map
         client_name_map].
    rewrite lookup_insert_eq, (delete_insert_id _ _ _ Hip), Huse.
    cbn [negb].
    rewrite (delete_insert_id _ _ _ Hlat), (delete_insert_id _ _ _ Hobs),
      (delete_insert_id _ _ _ Hty), (Hnames _ Hnm).
    repeat split.
  - destruct bot; unfold remove_client;
      cbn [client_ip_map ip_latency_map obs_status_map client_type_map
           client_name_map];
      rewrite Hip, (delete_insert_id _ _ _ Hty), (Hnames _ Hnm);
      repeat split.
Qed.

Lemma X5_add_then_remove_witness :
  client_type_map
    (remove_client (add_client new 4 (Some "10.0.0.9") (Some 80) (Some "eve")
                               false) 4) = ∅
  ∧ ip_latency_map
      (remove_client (add_client new 4 (Some "10.0.0.9") (Some 80) (Some "eve")
                                 false) 4) = ∅.
Proof.
  destruct (X5_add_then_remove new 4 (Some "10.0.0.9") (Some 80) (Some "eve")
              false) as (Hlat & _ & Hty & _).
  - repeat split.
  - split; [exact Hty | exact Hlat].
Defined.

End NetworkOpsFacts.

(** ** The client registry: invariants of a run *)

Module RegistryInvariant.
Import NetworkManager NetworkOps.

Lemma covered_new : addresses_covered new.
Proof.
  split; [reflexivity |]. intros id ip H. cbn in H.
  rewrite lookup_empty in H. discriminate H.
Qed.

Lemma covered_add (st : t) (client_id : Z) (ip : option string)
    (latency : option Z) (name : option string) (is_bot : bool) :
  addresses_covered st →
  addresses_covered (add_client st client_id ip latency name is_bot).
Proof.
  intros [Hdom Hcov]. unfold add_client.
  set (bot := if truthy name && bool_decide (default "" name ∈ BOT_NAMES)
              then true else is_bot).
  destruct (negb bot && truthy ip).
  - destruct (ip_latency_map st !! default "" ip) as [old |] eqn:Hold.
    + split; [exact Hdom |]. cbn. intros id a Hl.
      destruct (decide (id = client_id)) as [-> | Hne].
      * rewrite lookup_insert_eq in Hl. injection Hl as <-.
        rewrite Hold. eauto.
      * rewrite lookup_insert_ne in Hl by congruence. exact (Hcov id a Hl).
    + split; [cbn; rewrite !dom_insert_L, Hdom; reflexivity |].
      cbn. intros id a Hl.
      destruct (decide (id = client_id)) as [-> | Hne].
      * rewrite lookup_insert_eq in Hl. injection Hl as <-.
        rewrite lookup_insert_eq. eauto.
      * rewrite lookup_insert_ne in Hl by congruence.
        destruct (decide (default "" ip = a)) as [-> | Hne'].
        -- rewrite lookup_insert_eq. eauto.
        -- rewrite lookup_insert_ne by exact Hne'. exact (Hcov id a Hl).
  - destruct bot; split; assumption.
Qed.

Lemma covered_remove (st : t) (client_id : Z) :
  addresses_covered st → addresses_covered (remove_client st client_id).
Proof.
  intros [Hdom Hcov]. unfold remove_client.
  destruct (client_ip_map st !! client_id) as [ip |] eqn:Hip.
  - destruct (ip_in_use ip (delete client_id (client_ip_map st))) eqn:Huse;
      cbn [negb].
    + split; [exact Hdom |]. cbn. intros id a Hl.
      apply lookup_delete_Some in Hl as [_ Hl]. exact (Hcov id a Hl).
    + split; [cbn; rewrite !dom_delete_L, Hdom; reflexivity |].
      cbn. intros id a Hl.
      destruct (decide (ip = a)) as [-> | Hne].
      * apply NetworkOpsFacts.ip_in_use_false with (id := id) in Huse.
        contradiction.
      * rewrite lookup_delete_ne by exact Hne.
        apply lookup_delete_Some in Hl as [_ Hl]. exact (Hcov id a Hl).
  - split; assumption.
Qed.

Lemma covered_set_obs (st : t) (ip : string) (connected : bool) :
  addresses_covered st → addresses_covered (set_obs_status st ip connected).
Proof.
  intros [Hdom Hcov]. unfold set_obs_status.
  destruct (ip_latency_map st !! ip) as [lat |] eqn:Hlat; [| split; assumption].
  split; [| exact Hcov]. cbn. rewrite dom_insert_L, Hdom.
  assert (Hin : ip ∈ dom (ip_latency_map st))
    by (apply elem_of_dom; eauto).
  apply set_eq. intros x. rewrite elem_of_union, elem_of_singleton.
  split; [intros [-> | Hx]; assumption | intros Hx; right; exact Hx].
Qed.

(** X6. In every state the registry reaches from construction by adding
    clients, removing clients and setting OBS flags, every address a
    client is mapped to has a latency entry, the latency map and the OBS
    status map have the same keys, and the player count is the sum of the
    human and the bot count. *)
Theorem X6_registry_invariant (os : list op) :
  addresses_covered (run os new)
  ∧ player_count (run os new)
    = human_count (run os new) + bot_count (run os new).
Proof.
  assert (Hgen : ∀ st,
             addresses_covered st
             ∧ player_count st = human_count st + bot_count st →
             addresses_covered (run os st)
             ∧ player_count (run os st)
               = human_count (run os st) + bot_count (run os st)).
  { induction os as [| o rest IH]; intros st Hst; [exact Hst |].
    cbn [run fold_left]. apply IH. destruct Hst as [Hcov Hsum]. split.
    - destruct o; cbn [apply];
        [apply covered_add | apply covered_remove | apply covered_set_obs];
        exact Hcov.
    - destruct o as [id ip lat name bot | id | ip c]; cbn [apply].
      + unfold add_client. destruct (negb _ && truthy ip).
        * destruct (ip_latency_map st !! default "" ip); reflexivity.
        * destruct (if _ : bool then true else bot); reflexivity.
      + unfold remove_client.
        destruct (client_ip_map st !! id) as [a |]; [| reflexivity].
        destruct (negb _); reflexivity.
      + unfold set_obs_status. destruct (ip_latency_map st !! ip);
          exact Hsum. }
  apply Hgen. split; [apply covered_new | reflexivity].
Qed.

End RegistryInvariant.

(** ** Latency rotation *)

Module RotationFacts.
Import LatencyRotation.

Lemma step_length (l : list Z) : length (step l) = length l.
Proof.
  unfold step. rewrite length_app, length_drop, length_take.
  destruct l; cbn; lia.
Qed.

Lemma step_lookup (l : list Z) (i : nat) :
  (i < length l)%nat → step l !! i = l !! ((i + 1) mod length l)%nat.
Proof.
  intros Hi. unfold step.
  destruct (decide (i + 1 < length l)%nat) as [Hlt | Hge].
  - rewrite lookup_app_l by (rewrite length_drop; lia).
    rewrite lookup_drop, Nat.mod_small by lia. f_equal. lia.
  - assert (Hlast : (i + 1)%nat = length l) by lia.
    rewrite lookup_app_r by (rewrite length_drop; lia).
    rewrite length_drop, Hlast, Nat.Div0.mod_same.
    replace (i - (length l - 1))%nat with 0%nat by lia.
    destruct l; [cbn in Hi; lia | reflexivity].
Qed.

Lemma steps_length (k : nat) (l : list Z) :
  length (Nat.iter k step l) = length l.
Proof.
  induction k as [| k IH]; [reflexivity |]. rewrite Nat.iter_succ.
  rewrite step_length. exact IH.
Qed.

Lemma steps_lookup (k : nat) (l : list Z) (i : nat) :
  (i < length l)%nat →
  Nat.iter k step l !! i = l !! ((i + k) mod length l)%nat.
Proof.
  revert i. induction k as [| k IH]; intros i Hi.
  - cbn. rewrite Nat.add_0_r, Nat.mod_small by exact Hi.
    reflexivity.
  - rewrite Nat.iter_succ, step_lookup by (rewrite steps_length; exact Hi).
    rewrite steps_length, IH by (apply Nat.mod_upper_bound; lia).
    f_equal. rewrite Nat.Div0.add_mod_idemp_l. f_equal. lia.
Qed.

Lemma steps_full_turn (l : list Z) : Nat.iter (length l) step l = l.
Proof.
  apply list_eq. intros i.
  destruct (decide (i < length l)%nat) as [Hi | Hi].
  - rewrite steps_lookup by exact Hi.
    replace (i + length l)%nat with (i + 1 * length l)%nat by lia.
    rewrite Nat.Div0.mod_add, Nat.mod_small by exact Hi. reflexivity.
  - rewrite !lookup_ge_None_2; [reflexivity | lia |].
    rewrite steps_length. lia.
Qed.

Lemma pick_steps (k i : nat) (l : list Z) :
  l ≠ [] → pick (Nat.iter k step l) i = pick l (i + k).
Proof.
  intros Hne. assert (Hlen : (0 < length l)%nat)
    by (destruct l; [contradiction | cbn; lia]).
  unfold pick. rewrite steps_length, steps_lookup
    by (apply Nat.mod_upper_bound; lia).
  rewrite Nat.Div0.add_mod_idemp_l. reflexivity.
Qed.

Lemma dict_set_middle (key : string) (value old : Z)
    (pre rest : list (string * Z)) :
  key ∉ map fst pre →
  dict_set key value (pre ++ (key, old) :: rest) = pre ++ (key, value) :: rest.
Proof.
  induction pre as [| [k v] pre IH]; intros Hnot.
  - cbn. rewrite String.eqb_refl. reflexivity.
  - cbn [app dict_set]. cbn [map fst] in Hnot.
    apply not_elem_of_cons in Hnot as [Hne Hnot].
    destruct (String.eqb_spec k key) as [-> | _]; [contradiction |].
    rewrite (IH Hnot). reflexivity.
Qed.

Lemma assign_loop_spec (latencies : list Z) (suf pre : list (string * Z)) :
  NoDup (map fst (pre ++ suf)) →
  assign_loop latencies (length pre) (map fst suf) (pre ++ suf)
  = pre ++ imap (fun j p => (p.1, pick latencies (length pre + j))) suf.
Proof.
  revert pre. induction suf as [| [key old] rest IH]; intros pre Hnd.
  - reflexivity.
  - cbn [map fst assign_loop].
    assert (Hnot : key ∉ map fst pre).
    { rewrite map_app in Hnd. apply NoDup_app in Hnd as (_ & Hdisj & _).
      intros Hin. apply (Hdisj key Hin). cbn. left. }
    rewrite (dict_set_middle key _ old pre rest Hnot).
    specialize (IH (pre ++ [(key, pick latencies (length pre))])).
    rewrite length_app, <- app_assoc in IH. cbn [length app] in IH.
    replace (length pre + 1)%nat with (S (length pre)) in IH by lia.
    rewrite IH.
    + rewrite <- app_assoc. cbn [imap app]. rewrite Nat.add_0_r.
      f_equal. f_equal.
      apply imap_ext. intros j p _. cbn. f_equal. f_equal. lia.
    + rewrite map_app in Hnd |- *. exact Hnd.
Qed.

Lemma assign_latencies_lookup (st : t) (latencies : list Z) (i : nat)
    (ip : string) (v : Z) :
  NoDup (map fst (ip_latency_map st)) → latencies ≠ [] →
  ip_latency_map st !! i = Some (ip, v) →
  ip_latency_map (fst (assign_latencies st latencies)) !! i
  = Some (ip, pick latencies i)
  ∧ map fst (ip_latency_map (fst (assign_latencies st latencies)))
    = map fst (ip_latency_map st).
Proof.
  intros Hnd Hne Hl. unfold assign_latencies.
  destruct (ip_latency_map st) as [| e d] eqn:Hd; [discriminate Hl |].
  destruct latencies as [| lat lats]; [contradiction |].
  cbn [fst ip_latency_map set_map].
  pose proof (assign_loop_spec (lat :: lats) (e :: d) [] Hnd) as Hspec.
  cbn [length app] in Hspec. rewrite Hspec. split.
  - rewrite list_lookup_imap, Hl. reflexivity.
  - apply list_eq. intros j. rewrite !list_lookup_fmap, list_lookup_imap.
    destruct ((e :: d) !! j); reflexivity.
Qed.

Lemma assign_latencies_keys (st : t) (latencies : list Z) :
  NoDup (map fst (ip_latency_map st)) →
  map fst (ip_latency_map (fst (assign_latencies st latencies)))
  = map fst (ip_latency_map st).
Proof.
  intros Hnd. unfold assign_latencies.
  destruct (ip_latency_map st) as [| e d] eqn:Hd;
    [cbn [fst]; rewrite Hd; reflexivity |].
  destruct latencies as [| lat lats]; [cbn [fst]; rewrite Hd; reflexivity |].
  cbn [fst ip_latency_map set_map].
  pose proof (assign_loop_spec (lat :: lats) (e :: d) [] Hnd) as Hspec.
  cbn [length app] in Hspec. rewrite Hspec.
  apply list_eq. intros j. rewrite !list_lookup_fmap, list_lookup_imap.
  destruct ((e :: d) !! j); reflexivity.
Qed.

Lemma assign_latencies_fields (st : t) (latencies : list Z) :
  _enabled (fst (assign_latencies st latencies)) = _enabled st
  ∧ _current_latencies (fst (assign_latencies st latencies))
    = _current_latencies st
  ∧ _round_count (fst (assign_latencies st latencies)) = _round_count st.
Proof.
  destruct st as [m c r e sc cs]. unfold assign_latencies. cbn.
  destruct m, latencies; repeat split.
Qed.

Lemma rotate_enabled (st : t) :
  _enabled st = true →
  _enabled (fst (rotate_latencies st)) = true
  ∧ _current_latencies (fst (rotate_latencies st))
    = step (_current_latencies st)
  ∧ _round_count (fst (rotate_latencies st)) = _round_count st + 1
  ∧ ip_latency_map (fst (rotate_latencies st))
    = ip_latency_map
        (fst (assign_latencies
                (Manager (ip_latency_map st) (step (_current_latencies st))
                         (_round_count st + 1) (_enabled st) (send_command st)
                         (commands_sent st))
                (step (_current_latencies st)))).
Proof.
  intros Hen. unfold rotate_latencies. rewrite Hen. cbn [negb].
  set (st1 := Manager _ _ _ _ _ _).
  change (_current_latencies st1) with (step (_current_latencies st)).
  destruct (assign_latencies_fields st1 (step (_current_latencies st)))
    as (He & Hc & Hr).
  change (_enabled st1) with true in He.
  change (_current_latencies st1) with (step (_current_latencies st)) in Hc.
  change (_round_count st1) with (_round_count st + 1) in Hr.
  destruct (assign_latencies st1 (step (_current_latencies st)))
    as [st2 logged].
  cbn [fst] in *.
  destruct (if logged then _ else None) as [message |]; cbn [fst].
  - unfold call_send_command. destruct (send_command st2); cbn;
      rewrite ?He, ?Hc, ?Hr; repeat split.
  - rewrite He, Hc, Hr. repeat split.
Qed.

Lemma rotations_spec (k : nat) (st : t) :
  _enabled st = true → _current_latencies st ≠ [] →
  NoDup (map fst (ip_latency_map st)) →
  _enabled (rotations k st) = true
  ∧ _current_latencies (rotations k st)
    = Nat.iter k step (_current_latencies st)
  ∧ _round_count (rotations k st) = _round_count st + Z.of_nat k
  ∧ map fst (ip_latency_map (rotations k st)) = map fst (ip_latency_map st)
  ∧ ∀ i ip v, (0 < k)%nat → ip_latency_map st !! i = Some (ip, v) →
              ip_latency_map (rotations k st) !! i
              = Some (ip, pick (_current_latencies st) (i + k)).
Proof.
  intros Hen Hne Hnd. induction k as [| k IH].
  - cbn. split; [exact Hen |]. split; [reflexivity |].
    split; [lia |]. split; [reflexivity |]. intros; lia.
  - destruct IH as (IHen & IHcur & IHrc & IHkeys & IHmap).
    unfold rotations in *. rewrite Nat.iter_succ.
    set (prev := Nat.iter k (fun st => fst (rotate_latencies st)) st) in *.
    destruct (rotate_enabled prev IHen) as (He & Hc & Hr & Hm).
    assert (Hstep_ne : step (_current_latencies prev) ≠ []).
    { intros Habs. apply (f_equal length) in Habs.
      rewrite step_length, IHcur, steps_length in Habs.
      destruct (_current_latencies st); [contradiction | discriminate Habs]. }
    assert (Hnd' : NoDup (map fst (ip_latency_map prev)))
      by (rewrite IHkeys; exact Hnd).
    split; [exact He |].
    split; [rewrite Hc, IHcur; reflexivity |].
    split; [rewrite Hr, IHrc; lia |].
    assert (Hkeys : map fst (ip_latency_map (fst (rotate_latencies prev)))
                    = map fst (ip_latency_map st)).
    { rewrite Hm, assign_latencies_keys by exact Hnd'. exact IHkeys. }
    split; [exact Hkeys |].
    intros i ip v _ Hl.
    assert (Hprev : ∃ v', ip_latency_map prev !! i = Some (ip, v')).
    { assert (Hk : map fst (ip_latency_map prev) !! i = Some ip)
        by (rewrite IHkeys, list_lookup_fmap, Hl; reflexivity).
      rewrite list_lookup_fmap in Hk.
      destruct (ip_latency_map prev !! i) as [[k' v'] |]; [| discriminate Hk].
      injection Hk as ->. eauto. }
    destruct Hprev as [v' Hprev]. rewrite Hm.
    destruct (assign_latencies_lookup
                (Manager (ip_latency_map prev) (step (_current_latencies prev))
                         (_round_count prev + 1) (_enabled prev)
                         (send_command prev)
                         (commands_sent prev))
                (step (_current_latencies prev)) i ip v')
      as [Hnew _]; cbn [ip_latency_map]; try assumption.
    rewrite Hnew, IHcur. f_equal. f_equal.
    rewrite <- (Nat.iter_succ k step (_current_latencies st)).
    rewrite (pick_steps (S k) i _ Hne). reflexivity.
Qed.

(** X7. With latency control enabled and a non-empty latency list [L],
    after [k >= 1] calls of [rotate_latencies] the address at position [i]
    of the latency map has the latency [L[(i + k) mod len(L)]], the round
    counter has grown by [k], and after [len(L)] calls the current order is
    [L] again.  With latency control disabled the calls change nothing. *)
Theorem X7_rotate_latencies (st : t) (k i : nat) (ip : string) (v : Z) :
  (_enabled st = true → _current_latencies st ≠ [] →
   NoDup (map fst (ip_latency_map st)) →
   (0 < k)%nat → ip_latency_map st !! i = Some (ip, v) →
   ip_latency_map (rotations k st) !! i
   = Some (ip, pick (_current_latencies st) (i + k))
   ∧ _round_count (rotations k st) = _round_count st + Z.of_nat k
   ∧ _current_latencies (rotations (length (_current_latencies st)) st)
     = _current_latencies st)
  ∧ (_enabled st = false → rotations k st = st).
Proof.
  split.
  - intros Hen Hne Hnd Hk Hl.
    destruct (rotations_spec k st Hen Hne Hnd) as (_ & _ & Hrc & _ & Hmap).
    destruct (rotations_spec (length (_current_latencies st)) st Hen Hne Hnd)
      as (_ & Hcur & _).
    split; [exact (Hmap i ip v Hk Hl) |]. split; [exact Hrc |].
    rewrite Hcur. apply steps_full_turn.
  - intros Hoff. induction k as [| k IH]; [reflexivity |].
    unfold rotations in *. rewrite Nat.iter_succ, IH.
    unfold rotate_latencies. rewrite Hoff. reflexivity.
Qed.

Lemma X7_rotate_latencies_witness :
  ip_latency_map
    (rotations 1 (Manager [("10.0.0.1", 0); ("10.0.0.2", 0)] [0; 50; 100] 0
                          true true []))
    !! 1%nat = Some ("10.0.0.2", 100)
  ∧ rotations 2 (Manager [("10.0.0.1", 0)] [0; 50] 0 false true [])
    = Manager [("10.0.0.1", 0)] [0; 50] 0 false true [].
Proof.
  split.
  - destruct (X7_rotate_latencies
                (Manager [("10.0.0.1", 0); ("10.0.0.2", 0)] [0; 50; 100] 0
                         true true []) 1 1 "10.0.0.2" 0) as [Hon _].
    assert (Hnd : NoDup (map fst [("10.0.0.1", 0); ("10.0.0.2", 0)]))
      by (apply (bool_decide_unpack _); vm_compute; reflexivity).
    destruct (Hon eq_refl ltac:(discriminate) Hnd ltac:(lia) eq_refl)
      as (Hmap & _).
    exact Hmap.
  - destruct (X7_rotate_latencies
                (Manager [("10.0.0.1", 0)] [0; 50] 0 false true []) 2 0 "" 0)
      as [_ Hoff].
    apply Hoff. reflexivity.
Defined.

End RotationFacts.

(** ** Shutdown dispatch and the length of an experiment *)

Module DispatchFacts.
Import Base GameStateManager ShutdownStrategies OAShutdownDispatch.

Lemma strategy_table (event_type : string) :
  _shutdown_strategies !! event_type
  = if String.eqb event_type "match_end" then Some MatchShutdownStrategy
    else if String.eqb event_type "warmup_end" then Some WarmupShutdownStrategy
    else None.
Proof.
  unfold _shutdown_strategies.
  destruct (String.eqb_spec event_type "match_end") as [-> | Hm].
  - apply lookup_insert_eq.
  - rewrite lookup_insert_ne by congruence.
    destruct (String.eqb_spec event_type "warmup_end") as [-> | Hw].
    + apply lookup_singleton_eq.
    + apply lookup_singleton_ne. congruence.
Qed.

(** X8. A shutdown message that the OpenArena processor produced always
    finds its strategy in the adapter: the match-end strategy when a
    fraglimit hit was pending, the warmup-end strategy otherwise.  The
    unknown-event branch of [_on_shutdown] is never taken for it. *)
Theorem X8_shutdown_dispatch (p p' : OAMessageProcessor.t) (raw : string)
    (m : ParsedMessage) (a : adapter) :
  OAMessageProcessor.process_message p raw = Some (p', m) →
  message_type m = SERVER_SHUTDOWN →
  _on_shutdown a m
  = Some (handle (if OAMessageProcessor._recent_fraglimit_hit p
                  then MatchShutdownStrategy else WarmupShutdownStrategy) a).
Proof.
  intros Hm Hty.
  destruct (OAShutdownFacts.process_message_flag p p' raw m Hm) as [_ Hshut].
  destruct (Hshut Hty) as [Hiff Hor].
  unfold _on_shutdown, strategy_for.
  destruct Hor as [Hmatch | Hw].
  - unfold OAEvents.is_match_end in Hmatch.
    rewrite Hmatch, strategy_table. cbn.
    apply Hiff in Hmatch. rewrite Hmatch. reflexivity.
  - unfold OAEvents.is_warmup_end in Hw. rewrite Hw, strategy_table. cbn.
    destruct (OAMessageProcessor._recent_fraglimit_hit p); [| reflexivity].
    destruct Hiff as [_ Hback]. specialize (Hback eq_refl).
    unfold OAEvents.is_match_end in Hback. rewrite Hw in Hback.
    discriminate Hback.
Qed.

Lemma X8_shutdown_dispatch_witness :
  ∃ p' m,
    OAMessageProcessor.process_message (OAMessageProcessor.new true)
      "ShutdownGame:" = Some (p', m)
    ∧ _on_shutdown (fresh [0; 50] 2 true true) m
      = Some (handle WarmupShutdownStrategy (fresh [0; 50] 2 true true)).
Proof.
  destruct (OAMessageProcessor.process_message (OAMessageProcessor.new true)
              "ShutdownGame:") as [[p' m] |] eqn:Hm;
    [| vm_compute in Hm; discriminate Hm].
  exists p', m. split; [reflexivity |].
  apply (X8_shutdown_dispatch (OAMessageProcessor.new true) p' "ShutdownGame:"
           m (fresh [0; 50] 2 true true) Hm).
  vm_compute in Hm. injection Hm as _ <-. reflexivity.
Defined.

Lemma elem_of_snoc {A : Type} (l : list A) (x y : A) :
  x ∈ l ++ [y] ↔ x ∈ l ∨ x = y.
Proof. rewrite elem_of_app, list_elem_of_singleton. reflexivity. Qed.

Lemma run_async_effects (a : adapter) (c : coroutine) :
  effects (run_async a c)
  = effects a ++ (if async_loop a && negb (shutdown_requested a)
                  then [Scheduled c] else []).
Proof.
  unfold run_async. destruct (_ && _); cbn; [reflexivity |].
  rewrite app_nil_r. reflexivity.
Qed.

(** What the match-end strategy appends to the effects, by the state the
    state machine was in. *)
Lemma match_handle_effects (a : adapter) :
  effects (MatchShutdownStrategy_handle a)
  = effects a
    ++ (if async_loop a && negb (shutdown_requested a)
        then [Scheduled stop_match_recording] else [])
    ++ (if bool_decide (current_state (game_state_manager a) = RUNNING)
        then if max_rounds (game_state_manager a)
                <=? round_count (game_state_manager a) + 1
             then [SendCommandSync "killserver"]
             else [RotateLatencies; SendCommandSync "say Match completed!"]
        else [SendCommandSync "say Match completed!"]).
Proof.
  unfold MatchShutdownStrategy_handle.
  rewrite (ShutdownFacts.manager_of_run_async a stop_match_recording).
  pose proof (run_async_effects a stop_match_recording) as Hrun.
  destruct (run_async a stop_match_recording) as [g0 ih al sr le es].
  cbn [effects] in Hrun. subst es.
  unfold handle_match_shutdown_detected.
  destruct (game_state_manager a) as [st rc wrc mr]. cbn [current_state].
  destruct st; cbn -[flag actions_of shutdown_result Z.leb Z.add app];
    try destruct (mr <=? rc + 1);
    cbn -[flag actions_of shutdown_result Z.leb Z.add app];
    repeat match goal with
           | |- context [flag "experiment_finished" (shutdown_result ?r ?e ?l)] =>
               change (flag "experiment_finished" (shutdown_result r e l)) with e
           | |- context [actions_of (shutdown_result ?r ?e ?l)] =>
               change (actions_of (shutdown_result r e l)) with (Some l)
           end;
    unfold _process_match_shutdown_actions;
    change (in_actions "rotate_latency" []) with false;
    change (in_actions "rotate_latency" ["rotate_latency"]) with true;
    cbn -[app]; rewrite <- ?app_assoc; reflexivity.
Qed.

Lemma match_handle_manager (a : adapter) :
  game_state_manager (MatchShutdownStrategy_handle a)
  = Manager WAITING
      (if bool_decide (current_state (game_state_manager a) = RUNNING)
       then round_count (game_state_manager a) + 1
       else round_count (game_state_manager a))
      (warmup_round_count (game_state_manager a))
      (max_rounds (game_state_manager a)).
Proof.
  unfold MatchShutdownStrategy_handle.
  rewrite (ShutdownFacts.manager_of_run_async a stop_match_recording).
  destruct (run_async a stop_match_recording) as [g0 ih al sr le es].
  unfold handle_match_shutdown_detected.
  destruct (game_state_manager a) as [st rc wrc mr]. cbn [current_state].
  destruct st; cbn -[flag actions_of shutdown_result Z.leb Z.add app];
    try destruct (mr <=? rc + 1);
    cbn -[flag actions_of shutdown_result Z.leb Z.add app];
    repeat match goal with
           | |- context [flag "experiment_finished" (shutdown_result ?r ?e ?l)] =>
               change (flag "experiment_finished" (shutdown_result r e l)) with e
           | |- context [actions_of (shutdown_result ?r ?e ?l)] =>
               change (actions_of (shutdown_result r e l)) with (Some l)
           end;
    unfold _process_match_shutdown_actions;
    change (in_actions "rotate_latency" []) with false;
    change (in_actions "rotate_latency" ["rotate_latency"]) with true;
    reflexivity.
Qed.

Lemma play_match_spec (a : adapter) :
  game_state_manager (play_match a)
  = Manager WAITING (round_count (game_state_manager a) + 1)
            (warmup_round_count (game_state_manager a))
            (max_rounds (game_state_manager a))
  ∧ (killed (play_match a)
     ↔ killed a
       ∨ max_rounds (game_state_manager a)
         <= round_count (game_state_manager a) + 1).
Proof.
  unfold play_match, killed. cbn [handle].
  rewrite match_handle_manager, match_handle_effects.
  unfold _on_game_initialization. cbn -[Z.leb Z.add app bool_decide].
  rewrite (bool_decide_eq_true_2 (RUNNING = RUNNING) eq_refl).
  split; [reflexivity |].
  set (sched := if _ && _ then _ else _).
  assert (Hsched : SendCommandSync "killserver" ∉ sched).
  { unfold sched. destruct (_ && _).
    - intros Hin. apply list_elem_of_singleton in Hin. discriminate Hin.
    - apply not_elem_of_nil. }
  rewrite !elem_of_app.
  destruct (Z.leb_spec (max_rounds (game_state_manager a))
                       (round_count (game_state_manager a) + 1)) as [Hle | Hgt].
  - rewrite list_elem_of_singleton. split.
    + intros [H | [H | _]]; [left; exact H | contradiction | right; exact Hle].
    + intros [H | _]; [left; exact H | right; right; reflexivity].
  - split.
    + intros [H | [H | H]]; [left; exact H | contradiction |].
      apply elem_of_cons in H as [H | H]; [discriminate H |].
      apply list_elem_of_singleton in H. discriminate H.
    + intros [H | H]; [left; exact H | lia].
Qed.

Lemma play_matches_spec (n : nat) (a : adapter) :
  round_count (game_state_manager (play_matches n a))
  = round_count (game_state_manager a) + Z.of_nat n
  ∧ max_rounds (game_state_manager (play_matches n a))
    = max_rounds (game_state_manager a)
  ∧ (killed (play_matches n a)
     ↔ killed a
       ∨ ((1 <= n)%nat
          ∧ max_rounds (game_state_manager a)
            <= round_count (game_state_manager a) + Z.of_nat n)).
Proof.
  induction n as [| n (IHrc & IHmr & IHk)].
  - cbn. split; [lia |]. split; [reflexivity |].
    split; [intros H; left; exact H | intros [H | [H _]]; [exact H | lia]].
  - unfold play_matches in *. rewrite Nat.iter_succ.
    destruct (play_match_spec (Nat.iter n play_match a)) as [Hg Hk].
    rewrite Hg, Hk, IHk, IHrc, IHmr. cbn [round_count max_rounds].
    split; [lia |]. split; [reflexivity |].
    split.
    + intros [[H | [_ H]] | H]; [left; exact H | right; lia | right; lia].
    + intros [H | [_ H]]; [left; left; exact H | right; lia].
Qed.

(** X9. An experiment of the OpenArena adapter, counted in matches: each
    match is a game initialization followed by a match-end shutdown.  The
    adapter sends [killserver] within the first [n] matches exactly when
    [n >= 1] and [len(latencies) * repeats <= n + 1]: the round counter
    starts at 1, so the server is stopped at the end of match number
    [max(1, max_rounds - 1)]. *)
Theorem X9_experiment_length (latencies : list Z) (repeats : Z)
    (loop enabled : bool) (n : nat) :
  killed (play_matches n (fresh latencies repeats loop enabled))
  ↔ (1 <= n)%nat ∧ Z.of_nat (length latencies) * repeats <= Z.of_nat n + 1.
Proof.
  destruct (play_matches_spec n (fresh latencies repeats loop enabled))
    as (_ & _ & Hk).
  rewrite Hk. unfold killed. cbn.
  split.
  - intros [H | [Hn H]]; [apply elem_of_nil in H; contradiction |].
    split; [exact Hn | lia].
  - intros [Hn H]. right. split; [exact Hn | lia].
Qed.

(** X10. What one call of the match-end strategy does, by the state the
    state machine is in.  The round is counted only in state RUNNING;
    [killserver] is sent exactly when, in state RUNNING, the new round
    count reaches [max_rounds]; the latencies are rotated exactly when, in
    state RUNNING, it does not; and every call that does not stop the
    server announces the end of the match. *)
Theorem X10_match_end_effects (a : adapter) :
  ∃ es,
    effects (handle MatchShutdownStrategy a) = effects a ++ es
    ∧ (SendCommandSync "killserver" ∈ es
       ↔ current_state (game_state_manager a) = RUNNING
         ∧ max_rounds (game_state_manager a)
           <= round_count (game_state_manager a) + 1)
    ∧ (RotateLatencies ∈ es
       ↔ current_state (game_state_manager a) = RUNNING
         ∧ round_count (game_state_manager a) + 1
           < max_rounds (game_state_manager a))
    ∧ (SendCommandSync "say Match completed!" ∈ es
       ↔ SendCommandSync "killserver" ∉ es)
    ∧ round_count (game_state_manager (handle MatchShutdownStrategy a))
      = round_count (game_state_manager a)
        + (if bool_decide (current_state (game_state_manager a) = RUNNING)
           then 1 else 0).
Proof.
  cbn [handle]. rewrite match_handle_manager, match_handle_effects.
  eexists. split; [reflexivity |].
  set (sched := if _ && _ then _ else _).
  assert (Hsched : ∀ e, e ∈ sched → e = Scheduled stop_match_recording).
  { intros e. unfold sched. destruct (_ && _).
    - apply list_elem_of_singleton.
    - intros Hin. apply elem_of_nil in Hin. contradiction. }
  cbn [round_count].
  destruct (decide (current_state (game_state_manager a) = RUNNING))
    as [Hrun | Hrun].
  - rewrite (bool_decide_eq_true_2 _ Hrun).
    destruct (Z.leb_spec (max_rounds (game_state_manager a))
                         (round_count (game_state_manager a) + 1))
      as [Hle | Hgt].
    + rewrite !elem_of_app, !list_elem_of_singleton.
      split; [| split; [| split; [| reflexivity]]].
      * split; [intros _; split; [exact Hrun | exact Hle] |].
        intros _; right; reflexivity.
      * split; [| intros [_ H]; lia].
        intros [H | H]; [apply Hsched in H |]; discriminate H.
      * split.
        -- intros [H | H]; [apply Hsched in H |]; discriminate H.
        -- intros H. exfalso. apply H. right. reflexivity.
    + rewrite !elem_of_app, !elem_of_cons.
      split; [| split; [| split; [| reflexivity]]].
      * split; [| intros [_ H]; lia].
        intros [H | [H | H]]; [apply Hsched in H; discriminate H
                              | discriminate H |].
        rewrite elem_of_nil in H. destruct H as [H | H];
          [discriminate H | contradiction].
      * split; [intros _; split; [exact Hrun | exact Hgt] |].
        intros _. right. left. reflexivity.
      * split.
        -- intros _ [H | [H | H]]; [apply Hsched in H; discriminate H
                                   | discriminate H |].
           rewrite elem_of_nil in H. destruct H as [H | H];
             [discriminate H | contradiction].
        -- intros _. right. right. left. reflexivity.
  - rewrite (bool_decide_eq_false_2 _ Hrun).
    rewrite !elem_of_app, !list_elem_of_singleton.
    split; [| split; [| split; [| lia]]].
    + split; [| intros [H _]; contradiction].
      intros [H | H]; [apply Hsched in H |]; discriminate H.
    + split; [| intros [H _]; contradiction].
      intros [H | H]; [apply Hsched in H |]; discriminate H.
    + split.
      * intros _ [H | H]; [apply Hsched in H |]; discriminate H.
      * intros _. right. reflexivity.
Qed.

(** X11. Two shutdowns with no game initialization between them: whatever
    strategy handled the first (the warmup-end one with enough humans), a
    match-end shutdown that follows counts no round, rotates nothing and
    does not stop the server, even when the round count has reached
    [max_rounds]. *)
Theorem X11_shutdown_without_initialization (s : strategy) (a : adapter) :
  s = MatchShutdownStrategy ∨ insufficient_humans a = false →
  game_state_manager (handle MatchShutdownStrategy (handle s a))
  = game_state_manager (handle s a)
  ∧ effects (handle MatchShutdownStrategy (handle s a))
    = effects (handle s a)
      ++ (if async_loop (handle s a) && negb (shutdown_requested (handle s a))
          then [Scheduled stop_match_recording] else [])
      ++ [SendCommandSync "say Match completed!"].
Proof.
  intros Hs.
  assert (Hw : current_state (game_state_manager (handle s a)) = WAITING).
  { destruct Hs as [-> | Hh].
    - apply ShutdownFacts.match_handle_waiting.
    - destruct s; [apply ShutdownFacts.match_handle_waiting |].
      apply ShutdownFacts.warmup_handle_waiting, Hh. }
  revert Hw. generalize (handle s a). clear. intros b Hw. cbn [handle].
  rewrite match_handle_manager, match_handle_effects, Hw.
  split; [| reflexivity].
  revert Hw. destruct (game_state_manager b) as [st rc wrc mr].
  cbn. intros ->. reflexivity.
Qed.

Lemma X11_shutdown_without_initialization_witness :
  game_state_manager
    (handle MatchShutdownStrategy
       (handle WarmupShutdownStrategy
          (Adapter (Manager WARMUP 5 0 3) false true false true [])))
  = Manager WAITING 5 0 3.
Proof.
  destruct (X11_shutdown_without_initialization WarmupShutdownStrategy
              (Adapter (Manager WARMUP 5 0 3) false true false true []))
    as [Hg _]; [right; reflexivity |].
  rewrite Hg. reflexivity.
Defined.

End DispatchFacts.

(** ** The state machine seen from outside *)

Module StateQueryFacts.
Import GameStateManager ShutdownStrategies OAShutdownDispatch.

(** X22. The query [is_experiment_finished] and the match-end strategy.
    If the query answers yes, the next match-end shutdown stops the
    server; and once the strategy has returned the query answers no,
    whether or not the server was stopped. *)
Theorem X22_finished_query (a : adapter) :
  is_experiment_finished
    (game_state_manager (handle MatchShutdownStrategy a)) = false
  ∧ (is_experiment_finished (game_state_manager a) = true →
     killed (handle MatchShutdownStrategy a)).
Proof.
  split.
  - unfold is_experiment_finished. cbn [handle].
    rewrite (ShutdownFacts.match_handle_waiting a). reflexivity.
  - unfold is_experiment_finished, killed. intros Hfin.
    apply andb_true_iff in Hfin as [Hrun Hmax].
    cbn [handle]. rewrite DispatchFacts.match_handle_effects, Hrun.
    apply Z.leb_le in Hmax.
    destruct (Z.leb_spec (max_rounds (game_state_manager a))
                         (round_count (game_state_manager a) + 1));
      [| lia].
    rewrite !elem_of_app. right. right. left.
Qed.

Lemma X22_finished_query_witness :
  killed (handle MatchShutdownStrategy
            (Adapter (Manager RUNNING 4 0 4) false true false true [])).
Proof.
  apply (X22_finished_query
           (Adapter (Manager RUNNING 4 0 4) false true false true [])).
  reflexivity.
Defined.

(** X23. The [state_changed] flag of the reactive handlers.  For a warmup
    and for a match start the flag is set exactly when the state after the
    call differs from the state before it; a warmup always ends in WARMUP,
    a match start moves only from WARMUP, to RUNNING, and asks for the
    recording and the latency rules exactly then.  A game initialization
    always ends in RUNNING and always sets the flag, also when the state
    was RUNNING already.  None of the three touches the round count. *)
Theorem X23_state_changed_flag (g : t) :
  (flag "state_changed" (snd (handle_warmup_detected g)) = true
   ↔ current_state (fst (handle_warmup_detected g)) ≠ current_state g)
  ∧ current_state (fst (handle_warmup_detected g)) = WARMUP
  ∧ (flag "state_changed" (snd (handle_match_start_detected g)) = true
     ↔ current_state (fst (handle_match_start_detected g)) ≠ current_state g)
  ∧ (current_state (fst (handle_match_start_detected g)) = RUNNING
     ↔ current_state g = WARMUP ∨ current_state g = RUNNING)
  ∧ actions_of (snd (handle_match_start_detected g))
    = Some (if bool_decide (current_state g = WARMUP)
            then ["start_match_recording"; "apply_latency"] else [])
  ∧ current_state (fst (handle_game_initialization_detected g)) = RUNNING
  ∧ flag "state_changed" (snd (handle_game_initialization_detected g)) = true
  ∧ round_count (fst (handle_warmup_detected g)) = round_count g
  ∧ round_count (fst (handle_match_start_detected g)) = round_count g
  ∧ round_count (fst (handle_game_initialization_detected g)) = round_count g.
Proof.
  destruct g as [st rc wrc mr].
  unfold handle_warmup_detected, handle_match_start_detected,
    handle_game_initialization_detected.
  cbn [current_state].
  destruct st; cbn [fst snd set_state current_state round_count];
    (split; [split; [intros H; try discriminate H; congruence
                    | intros H; try reflexivity; congruence] |]);
    (split; [reflexivity |]);
    (split; [split; [intros H; try discriminate H; congruence
                    | intros H; try reflexivity; congruence] |]);
    (split; [split; [intros H; try discriminate H; auto
                    | intros [H | H]; try discriminate H; reflexivity] |]);
    repeat split.
Qed.

End StateQueryFacts.

(** ** Bots *)

Module BotFacts.
Import GameManager.

Lemma addbot_loop_returns (cfg : settings) (d : string) (indices : list nat)
    (g : t) :
  PyText.str_of_int (bot_difficulty cfg) = Some d →
  addbot_loop cfg indices g
  = (Manager (_bots_added g) (_bot_addition_in_progress g)
             (commands_sent g
              ++ map (fun i => "addbot " +:+ bot_name cfg i +:+ " " +:+ d)
                     indices),
     true).
Proof.
  intros Hd. revert g. induction indices as [| i rest IH]; intros g.
  - cbn. rewrite app_nil_r. destruct g; reflexivity.
  - cbn [addbot_loop map]. unfold addbot_command. rewrite Hd.
    cbn [mbind option_bind]. rewrite IH. cbn. rewrite <- app_assoc.
    reflexivity.
Qed.

Lemma addbot_loop_raises (cfg : settings) (indices : list nat) (g : t) :
  PyText.str_of_int (bot_difficulty cfg) = None → indices ≠ [] →
  addbot_loop cfg indices g = (g, false).
Proof.
  intros Hd Hne. destruct indices as [| i rest]; [contradiction |].
  cbn [addbot_loop]. unfold addbot_command. rewrite Hd. reflexivity.
Qed.

(** X12. [add_bots_to_server_async], called while no addition is in
    progress.  When the difficulty and the bot count can be formatted
    (they have at most 4300 digits): the call succeeds exactly when the
    bots are already there or the settings ask for bots; a successful
    first call sends exactly one [addbot <name> <difficulty>] command for
    each of the [bot_count] bots, in index order, followed by the one
    announcement [say Added <bot_count> bots to the server], and nothing
    else; any other call sends nothing; afterwards the bots count as
    added exactly when the call succeeded, the progress flag is clear,
    and a second call sends nothing more and gives the same answer.  When
    the difficulty cannot be formatted, a first call that should add bots
    raises inside the [try] block at the first bot: it returns [False],
    sends nothing and leaves the manager as it was. *)
Theorem X12_add_bots (cfg : settings) (g : t) :
  _bot_addition_in_progress g = false →
  let g' := fst (add_bots_to_server_async cfg g) in
  let ok := snd (add_bots_to_server_async cfg g) in
  (∀ d c : string,
     PyText.str_of_int (bot_difficulty cfg) = Some d →
     PyText.str_of_int (bot_count cfg) = Some c →
     (ok = true ↔ _bots_added g = true ∨ should_add_bots cfg = true)
     ∧ _bots_added g' = ok
     ∧ _bot_addition_in_progress g' = false
     ∧ commands_sent g'
       = commands_sent g
         ++ (if negb (_bots_added g) && should_add_bots cfg
             then map (fun i => "addbot " +:+ bot_name cfg i +:+ " " +:+ d)
                      (seq 0 (Z.to_nat (bot_count cfg)))
                  ++ ["say Added " +:+ c +:+ " bots to the server"]
             else [])
     ∧ add_bots_to_server_async cfg g' = (g', ok))
  ∧ (PyText.str_of_int (bot_difficulty cfg) = None →
     _bots_added g = false → should_add_bots cfg = true →
     add_bots_to_server_async cfg g = (g, false)).
Proof.
  intros Hfree. cbv zeta.
  destruct g as [added prog sent]. cbn in Hfree. subst prog. split.
  - intros d c Hd Hc. unfold add_bots_to_server_async.
    cbn [_bots_added _bot_addition_in_progress commands_sent].
    destruct added; cbn [negb andb fst snd].
    { split; [split; [intros _; left; reflexivity | reflexivity] |].
      split; [reflexivity |]. split; [reflexivity |].
      split; [| reflexivity].
      cbn [commands_sent]. rewrite app_nil_r. reflexivity. }
    destruct (should_add_bots cfg) eqn:Hshould; cbn [negb fst snd].
    + rewrite (addbot_loop_returns cfg d _ _ Hd), Hc. cbn -[seq].
      split; [split; [intros _; right; reflexivity | reflexivity] |].
      split; [reflexivity |]. split; [reflexivity |].
      split; [| reflexivity].
      rewrite <- app_assoc. reflexivity.
    + cbn [_bots_added _bot_addition_in_progress commands_sent fst snd].
      split; [split; [intros H; discriminate H
                     | intros [H | H]; discriminate H] |].
      split; [reflexivity |]. split; [reflexivity |].
      split; [| reflexivity].
      rewrite app_nil_r. reflexivity.
  - intros Hd Hadded Hshould. cbn in Hadded. subst added.
    unfold add_bots_to_server_async.
    cbn [_bots_added _bot_addition_in_progress commands_sent].
    rewrite Hshould. cbn [negb].
    rewrite (addbot_loop_raises cfg _ _ Hd); [reflexivity |].
    unfold should_add_bots in Hshould.
    apply andb_true_iff in Hshould as [_ Hpos]. apply Z.ltb_lt in Hpos.
    destruct (Z.to_nat (bot_count cfg)) eqn:Hn; [lia | discriminate].
Qed.

Lemma X12_add_bots_witness :
  commands_sent
    (fst (add_bots_to_server_async (Settings true 2 3 ["Neo"]) new))
  = ["addbot Neo 3"; "addbot Arachna 3"; "say Added 2 bots to the server"]
  ∧ _bots_added
      (fst (add_bots_to_server_async (Settings true 2 3 ["Neo"]) new))
    = true
  ∧ add_bots_to_server_async
      (Settings true 1 (10 ^ 4300) []) new = (new, false).
Proof.
  destruct (X12_add_bots (Settings true 2 3 ["Neo"]) new eq_refl)
    as [Hmain _].
  destruct (Hmain "3" "2" eq_refl eq_refl) as (_ & Hadded & _ & Hsent & _).
  destruct (X12_add_bots (Settings true 1 (10 ^ 4300) []) new eq_refl)
    as [_ Hraise].
  split; [rewrite Hsent; reflexivity |].
  split; [rewrite Hadded; vm_compute; reflexivity |].
  apply Hraise; [vm_compute; reflexivity | reflexivity | reflexivity].
Defined.

(** X13. A bot that [add_bots_to_server_async] names itself, because the
    settings give no name for its index, gets one of the names that the
    network manager treats as bot names: a client that later shows up
    under that name is registered as BOT, whatever address it reports. *)
Theorem X13_default_bot_names (cfg : settings) (i : nat)
    (st : NetworkManager.t) (client_id : Z) (ip : option string)
    (latency : option Z) (is_bot : bool) :
  bot_names cfg !! i = None ∨ bot_names cfg !! i = Some "" →
  bot_name cfg i ∈ NetworkManager.BOT_NAMES
  ∧ NetworkManager.client_type_map
      (NetworkManager.add_client st client_id ip latency
         (Some (bot_name cfg i)) is_bot) !! client_id = Some "BOT".
Proof.
  intros Hnone.
  assert (Hname : bot_name cfg i ∈ NetworkManager.BOT_NAMES).
  { unfold bot_name.
    assert (Hdef : default "" (default_bot_names
                                 !! (i mod length default_bot_names)%nat)
                   ∈ NetworkManager.BOT_NAMES).
    { assert (Hlt : (i mod length default_bot_names
                     < length default_bot_names)%nat)
        by (apply Nat.mod_upper_bound; discriminate).
      destruct (lookup_lt_is_Some_2 _ _ Hlt) as [name Hl]. rewrite Hl. cbn.
      apply (list_elem_of_lookup_2 _ _ _ Hl). }
    destruct Hnone as [-> | ->]; exact Hdef. }
  split; [exact Hname |].
  unfold NetworkManager.add_client.
  rewrite (NetworkFacts.bot_name_truthy _ Hname). cbn [default andb].
  rewrite (bool_decide_eq_true_2 _ Hname). cbn.
  apply lookup_insert_eq.
Qed.

Lemma X13_default_bot_names_witness :
  bot_name (Settings true 9 1 []) 8 = "Angelyss"
  ∧ bot_name (Settings true 9 1 []) 8 ∈ NetworkManager.BOT_NAMES.
Proof.
  destruct (X13_default_bot_names (Settings true 9 1 []) 8
              NetworkManager.new 0 None None false (or_introl eq_refl))
    as [Hin _].
  split; [reflexivity | exact Hin].
Defined.

End BotFacts.

(** ** Client tracking of the OpenArena adapter *)

Module TrackingFacts.
Import Base OAClientTracking.

Lemma next_latency_some (cfg : settings) (nm : NetworkManager.t) :
  latencies cfg ≠ [] → is_Some (next_latency cfg nm).
Proof.
  intros Hne. unfold next_latency.
  destruct (latencies cfg) as [| lat lats] eqn:Hl; [contradiction |].
  apply lookup_lt_is_Some_2, Nat.mod_upper_bound. discriminate.
Qed.

Lemma add_client_types (nm : NetworkManager.t) (id : Z) (ip : option string)
    (latency : option Z) (name : option string) (is_bot : bool) :
  ∃ ty, NetworkManager.client_type_map
          (NetworkManager.add_client nm id ip latency name is_bot)
        = <[id := ty]> (NetworkManager.client_type_map nm).
Proof.
  unfold NetworkManager.add_client.
  repeat match goal with
         | |- context [if ?c then _ else _] => destruct c
         | |- context [match ?m !! ?k with _ => _ end] => destruct (m !! k)
         end; cbn; eexists; reflexivity.
Qed.

Lemma network_of_run_async (a : t) (c : obs_call) :
  _network_manager (run_async a c) = _network_manager a.
Proof. unfold run_async. destruct (_ && _); reflexivity. Qed.

Lemma not_empty_string (s : string) : s ≠ "" → Py.is_empty s = false.
Proof. destruct s; [contradiction | reflexivity]. Qed.

(** One discovered client: the call returns, records the client unless
    its address is empty, and leaves the type of every client already
    tracked as it was. *)
Lemma discovered_step (cfg : settings) (a : t) (c : client_data) :
  latencies cfg ≠ [] →
  ∃ a', _process_discovered_client cfg a c = Some a'
        ∧ (ip c ≠ "" → tracked a' (client_id c))
        ∧ (∀ id, tracked a id →
                 NetworkManager.client_type_map (_network_manager a') !! id
                 = NetworkManager.client_type_map (_network_manager a) !! id).
Proof.
  intros Hne. unfold _process_discovered_client, tracked.
  destruct (NetworkManager.client_type_map (_network_manager a)
              !! client_id c) as [ty |] eqn:Hty.
  { exists a. split; [reflexivity |]. split; [| reflexivity].
    intros _. rewrite Hty. eauto. }
  assert (Hkeep : ∀ nm', (∃ ty, NetworkManager.client_type_map nm'
                               = <[client_id c := ty]>
                                   (NetworkManager.client_type_map
                                      (_network_manager a))) →
            is_Some (NetworkManager.client_type_map nm' !! client_id c)
            ∧ ∀ id, is_Some (NetworkManager.client_type_map
                               (_network_manager a) !! id) →
                    NetworkManager.client_type_map nm' !! id
                    = NetworkManager.client_type_map (_network_manager a) !! id).
  { intros nm' [ty Heq]. rewrite Heq. split.
    - rewrite lookup_insert_eq. eauto.
    - intros id [ty' Hid]. apply lookup_insert_ne. intros <-.
      rewrite Hty in Hid. discriminate Hid. }
  destruct (negb (Py.is_empty (ip c)) && negb (String.eqb (ip c) "bot"))
    eqn:Hhuman.
  - destruct (next_latency_some cfg (_network_manager a) Hne) as [lat Hlat].
    rewrite Hlat. cbn [mbind option_bind].
    eexists. split; [reflexivity |].
    cbn [_update_insufficient_humans _network_manager].
    rewrite network_of_run_async. cbn [set_network _network_manager].
    destruct (Hkeep _ (add_client_types (_network_manager a) (client_id c)
                         (Some (ip c)) (Some lat) (Some (name c)) false))
      as [Hin Hothers].
    split; [intros _; exact Hin | exact Hothers].
  - destruct (String.eqb_spec (ip c) "bot") as [Hbot | Hnot].
    + eexists. split; [reflexivity |].
      cbn [_update_insufficient_humans _network_manager set_network].
      destruct (Hkeep _ (add_client_types (_network_manager a) (client_id c)
                           None None (Some (name c)) true))
        as [Hin Hothers].
      split; [intros _; exact Hin | exact Hothers].
    + eexists. split; [reflexivity |].
      cbn [_update_insufficient_humans _network_manager].
      split; [| reflexivity].
      intros Hip. rewrite (not_empty_string _ Hip) in Hhuman.
      cbn in Hhuman. discriminate Hhuman.
Qed.

Lemma discovered_all (cfg : settings) (cs : list client_data) (a : t) :
  latencies cfg ≠ [] → Forall (fun c => ip c ≠ "") cs →
  ∃ a', process_all_discovered cfg a cs = Some a'
        ∧ (∀ c, c ∈ cs → tracked a' (client_id c))
        ∧ (∀ id, tracked a id →
                 NetworkManager.client_type_map (_network_manager a') !! id
                 = NetworkManager.client_type_map (_network_manager a) !! id).
Proof.
  intros Hne. revert a. induction cs as [| c rest IH]; intros a Hips.
  - exists a. split; [reflexivity |]. split; [| reflexivity].
    intros c Hc. apply elem_of_nil in Hc. contradiction.
  - apply Forall_cons in Hips as [Hip Hips]. cbn [process_all_discovered].
    destruct (discovered_step cfg a c Hne) as (a1 & Hstep & Hin1 & Hkeep1).
    rewrite Hstep. cbn [mbind option_bind].
    destruct (IH a1 Hips) as (a' & Hall & Hin & Hkeep).
    exists a'. split; [exact Hall |].
    assert (Hmono : ∀ id, tracked a1 id → tracked a' id).
    { intros id Ht. unfold tracked. rewrite (Hkeep id Ht). exact Ht. }
    split.
    + intros c' Hc'. apply elem_of_cons in Hc' as [-> | Hc'].
      * apply Hmono, Hin1, Hip.
      * apply Hin, Hc'.
    + intros id Ht. rewrite Hkeep.
      * apply Hkeep1, Ht.
      * unfold tracked. rewrite (Hkeep1 id Ht). exact Ht.
Qed.

Lemma discovered_new (cfg : settings) (a : t) (c : client_data) :
  latencies cfg ≠ [] → ¬ tracked a (client_id c) →
  ip c ≠ "" → ip c ≠ "bot" →
  ∃ a' latency,
    _process_discovered_client cfg a c = Some a'
    ∧ next_latency cfg (_network_manager a) = Some latency
    ∧ NetworkManager.client_type_map (_network_manager a') !! client_id c
      = Some (if bool_decide (name c ∈ NetworkManager.BOT_NAMES)
              then "BOT" else "HUMAN")
    ∧ (name c ∉ NetworkManager.BOT_NAMES →
       NetworkManager.client_ip_map (_network_manager a') !! client_id c
       = Some (ip c)
       ∧ NetworkManager.ip_latency_map (_network_manager a') !! ip c
         = Some (default latency
                   (NetworkManager.ip_latency_map (_network_manager a)
                      !! ip c)))
    ∧ scheduled a'
      = scheduled a ++ (if _async_loop a && negb (_shutdown_event a)
                        then [connect_single_client_immediately (ip c)]
                        else [])
    ∧ _insufficient_humans a'
      = (NetworkManager.human_count (_network_manager a')
         <? nplayers_threshold cfg)
    ∧ _process_discovered_client cfg a' c = Some a'.
Proof.
  intros Hne Hnew Hip Hbot.
  assert (Hty : NetworkManager.client_type_map (_network_manager a)
                  !! client_id c = None).
  { destruct (_ !! client_id c) eqn:H; [| reflexivity].
    exfalso. apply Hnew. unfold tracked. rewrite H. eauto. }
  destruct (next_latency_some cfg (_network_manager a) Hne) as [lat Hlat].
  assert (Hnotbot : String.eqb (ip c) "bot" = false)
    by (apply String.eqb_neq; exact Hbot).
  unfold _process_discovered_client at 1.
  rewrite Hty, (not_empty_string _ Hip), Hnotbot, Hlat.
  cbn [negb andb mbind option_bind].
  eexists. exists lat. split; [reflexivity |]. split; [reflexivity |].
  set (nm' := NetworkManager.add_client _ _ _ _ _ _).
  assert (Hnm : ∀ x, _network_manager
                       (_update_insufficient_humans cfg
                          (run_async (set_network a nm') x)) = nm').
  { intros x. cbn [_update_insufficient_humans _network_manager].
    rewrite network_of_run_async. reflexivity. }
  rewrite !Hnm.
  assert (Htype : NetworkManager.client_type_map nm' !! client_id c
                  = Some (if bool_decide (name c ∈ NetworkManager.BOT_NAMES)
                          then "BOT" else "HUMAN")).
  { unfold nm', NetworkManager.add_client.
    destruct (decide (name c ∈ NetworkManager.BOT_NAMES)) as [Hin | Hout].
    - rewrite (NetworkFacts.bot_name_truthy _ Hin). cbn [default andb].
      rewrite (bool_decide_eq_true_2 _ Hin).
      rewrite (bool_decide_eq_true_2 _ Hin). cbn. apply lookup_insert_eq.
    - cbn [default]. rewrite (bool_decide_eq_false_2 _ Hout), andb_false_r.
      rewrite (bool_decide_eq_false_2 _ Hout).
      cbn [negb andb NetworkManager.truthy].
      rewrite (not_empty_string _ Hip). cbn [negb].
      match goal with
      | |- context [match ?x with Some _ => _ | None => _ end] => destruct x
      end; cbn; apply lookup_insert_eq. }
  split; [exact Htype |].
  split; [| split; [| split]].
  - intros Hout. unfold nm', NetworkManager.add_client.
    cbn [default]. rewrite (bool_decide_eq_false_2 _ Hout), andb_false_r.
    cbn [negb andb NetworkManager.truthy].
    rewrite (not_empty_string _ Hip). cbn [negb].
    match goal with
    | |- context [match ?x with Some _ => _ | None => _ end] =>
        destruct x as [old |] eqn:Hold
    end; cbn.
    + split; [apply lookup_insert_eq |].
      change (id (ip c)) with (ip c) in Hold. rewrite Hold. reflexivity.
    + split; [apply lookup_insert_eq |].
      change (id (ip c)) with (ip c) in Hold.
      rewrite Hold. apply lookup_insert_eq.
  - unfold run_async. cbn [set_network _async_loop _shutdown_event].
    destruct (_async_loop a && negb (_shutdown_event a)); cbn;
      [reflexivity | rewrite app_nil_r; reflexivity].
  - cbn [_update_insufficient_humans _insufficient_humans _network_manager].
    rewrite network_of_run_async. reflexivity.
  - unfold _process_discovered_client. rewrite Hnm, Htype. reflexivity.
Qed.

(** X14. A status row of a client not yet tracked whose address is a
    real one (not empty, not [bot]), with a non-empty latency list in the
    settings.  The client is registered, as HUMAN unless its name is one
    of the bot names; a HUMAN gets its address recorded, with the next
    latency of the round-robin if the address is new; the connection to
    the client's OBS is scheduled when a loop is there; the
    insufficient-humans flag is recomputed; and handling the same row
    again changes nothing. *)
Theorem X14_discovered_client (cfg : settings) (a : t) (c : client_data) :
  latencies cfg ≠ [] → ¬ tracked a (client_id c) →
  ip c ≠ "" → ip c ≠ "bot" →
  ∃ a' latency,
    _process_discovered_client cfg a c = Some a'
    ∧ next_latency cfg (_network_manager a) = Some latency
    ∧ NetworkManager.client_type_map (_network_manager a') !! client_id c
      = Some (if bool_decide (name c ∈ NetworkManager.BOT_NAMES)
              then "BOT" else "HUMAN")
    ∧ (name c ∉ NetworkManager.BOT_NAMES →
       NetworkManager.client_ip_map (_network_manager a') !! client_id c
       = Some (ip c)
       ∧ NetworkManager.ip_latency_map (_network_manager a') !! ip c
         = Some (default latency
                   (NetworkManager.ip_latency_map (_network_manager a)
                      !! ip c)))
    ∧ scheduled a'
      = scheduled a ++ (if _async_loop a && negb (_shutdown_event a)
                        then [connect_single_client_immediately (ip c)]
                        else [])
    ∧ _insufficient_humans a'
      = (NetworkManager.human_count (_network_manager a')
         <? nplayers_threshold cfg)
    ∧ _process_discovered_client cfg a' c = Some a'.
Proof. apply discovered_new. Qed.

Lemma X14_discovered_client_witness :
  ∃ a',
    _process_discovered_client (Settings [0; 50] 2)
      (new (fun _ => false)) (ClientData 3 "Alice" "10.0.0.7") = Some a'
    ∧ NetworkManager.ip_latency_map (_network_manager a') !! "10.0.0.7"
      = Some 0
    ∧ _insufficient_humans a' = true.
Proof.
  destruct (X14_discovered_client (Settings [0; 50] 2)
              (new (fun _ => false)) (ClientData 3 "Alice" "10.0.0.7"))
    as (a' & lat & Hrun & Hlat & _ & Haddr & _ & Hflag & _).
  - discriminate.
  - unfold tracked. cbn. rewrite lookup_empty. intros [x Hx]. discriminate Hx.
  - discriminate.
  - discriminate.
  - exists a'. split; [exact Hrun |].
    vm_compute in Hlat. injection Hlat as <-.
    destruct Haddr as [_ Hl].
    + intros Hin. apply list_elem_of_In in Hin. vm_compute in Hin.
      repeat (destruct Hin as [Hin | Hin]; [discriminate Hin |]).
      exact Hin.
    + split; [exact Hl |].
      rewrite Hflag. injection Hrun as <-. reflexivity.
Defined.

(** X15. The adapter's handling of a status-complete message that the
    OpenArena processor produced, with a non-empty latency list in the
    settings: the handler returns, every client of the message's list is
    tracked afterwards, and no client tracked before has its type
    changed. *)
Theorem X15_status_block_tracked (cfg : settings) (a : t)
    (p p' : OAMessageProcessor.t) (raw : string) (m : ParsedMessage) :
  latencies cfg ≠ [] →
  OAMessageProcessor.process_message p raw = Some (p', m) →
  status_complete m →
  ∃ a' l,
    data m !! "client_data" = Some (VOAClients l)
    ∧ _on_status cfg a m = Some a'
    ∧ (∀ c, c ∈ l → tracked a' (OAStatusParser.client_id c))
    ∧ (∀ id, tracked a id →
             NetworkManager.client_type_map (_network_manager a') !! id
             = NetworkManager.client_type_map (_network_manager a) !! id).
Proof.
  intros Hne Hm Hc.
  destruct (StatusBlockFacts.process_message_ok p p' raw m Hm) as [Hok _].
  destruct (Hok Hc) as (_ & l & Hl & _ & Hfrom).
  unfold _on_status.
  set (a0 := if Py.startswith "map:" (raw_message m) then _ else a).
  assert (Hnm : _network_manager a0 = _network_manager a).
  { unfold a0. destruct (Py.startswith _ _); [| reflexivity].
    destruct (PyText.split_once _ _) as [[u r] |]; reflexivity. }
  unfold status_complete in Hc. rewrite Hc, Hl. cbn [truthy].
  destruct (discovered_all cfg (map of_oa l) a0 Hne) as (a' & Hrun & Hin & Hkeep).
  { apply Forall_fmap. eapply Forall_impl; [exact Hfrom |].
    intros c (line & _ & Hparse). cbn.
    apply (ParserFacts.oa_parse_ip_not_empty line c Hparse). }
  exists a', l. split; [reflexivity |]. split; [exact Hrun |]. split.
  - intros c Hcin.
    apply (Hin (of_oa c)), list_elem_of_fmap. exists c. split; [reflexivity | exact Hcin].
  - intros id Ht. unfold tracked in *. rewrite <- Hnm in Ht |- *.
    apply Hkeep, Ht.
Qed.

Lemma X15_status_block_tracked_witness :
  ∃ p' m a',
    OAMessageProcessor.process_message
      (fst (OAMessageProcessor.process_all (OAMessageProcessor.new true)
              (take 4 Scenarios.oa_block))) "" = Some (p', m)
    ∧ _on_status (Settings [0; 50] 2) (new (fun _ => false)) m = Some a'
    ∧ tracked a' 1.
Proof.
  destruct (OAMessageProcessor.process_message
              (fst (OAMessageProcessor.process_all
                      (OAMessageProcessor.new true)
                      (take 4 Scenarios.oa_block))) "")
    as [[p' m] |] eqn:Hm; [| vm_compute in Hm; discriminate Hm].
  destruct (X15_status_block_tracked (Settings [0; 50] 2)
              (new (fun _ => false))
              (fst (OAMessageProcessor.process_all
                      (OAMessageProcessor.new true)
                      (take 4 Scenarios.oa_block))) p' "" m)
    as (a' & l & Hl & Hrun & Hin & _).
  - discriminate.
  - exact Hm.
  - vm_compute in Hm. injection Hm as _ <-. reflexivity.
  - exists p', m, a'. split; [reflexivity |]. split; [exact Hrun |].
    vm_compute in Hm. injection Hm as _ <-.
    vm_compute in Hl. injection Hl as <-.
    exact (Hin _ (list_elem_of_here _ _)).
Defined.

Lemma disconnect_untracked (cfg : settings) (a : t) (id : Z) :
  ¬ tracked (_on_client_disconnect cfg a id) id.
Proof.
  unfold tracked, _on_client_disconnect.
  cbn [_update_insufficient_humans _network_manager set_network].
  unfold NetworkOps.remove_client.
  destruct (NetworkManager.client_ip_map _ !! id) as [ip0 |];
    [destruct (negb _) |]; cbn [NetworkManager.client_type_map];
    rewrite lookup_delete_eq; intros [x Hx]; discriminate Hx.
Qed.

(** X16. A client that comes back under an id the registry still holds
    is ignored: the row changes nothing, whatever name and address it
    carries.  Once the disconnect of that id has been handled the id is
    free again, and the same row registers the client as HUMAN under the
    address of the row. *)
Theorem X16_reconnect (cfg : settings) (a : t) (c : client_data) :
  latencies cfg ≠ [] → ip c ≠ "" → ip c ≠ "bot" →
  name c ∉ NetworkManager.BOT_NAMES →
  (tracked a (client_id c) → _process_discovered_client cfg a c = Some a)
  ∧ ¬ tracked (_on_client_disconnect cfg a (client_id c)) (client_id c)
  ∧ ∃ a',
      _process_discovered_client cfg
        (_on_client_disconnect cfg a (client_id c)) c = Some a'
      ∧ NetworkManager.client_type_map (_network_manager a') !! client_id c
        = Some "HUMAN"
      ∧ NetworkManager.client_ip_map (_network_manager a') !! client_id c
        = Some (ip c).
Proof.
  intros Hne Hip Hbot Hname. split; [| split].
  - intros [ty Hty]. unfold _process_discovered_client. rewrite Hty.
    reflexivity.
  - apply disconnect_untracked.
  - destruct (discovered_new cfg (_on_client_disconnect cfg a (client_id c)) c
                Hne (disconnect_untracked cfg a (client_id c)) Hip Hbot)
      as (a' & lat & Hrun & _ & Hty & Haddr & _).
    exists a'. split; [exact Hrun |].
    rewrite (bool_decide_eq_false_2 _ Hname) in Hty.
    split; [exact Hty | apply (Haddr Hname)].
Qed.

Lemma X16_reconnect_witness :
  ∃ a1 a2,
    _process_discovered_client (Settings [0; 50] 1) (new (fun _ => false))
      (ClientData 3 "Alice" "10.0.0.7") = Some a1
    ∧ _process_discovered_client (Settings [0; 50] 1) a1
        (ClientData 3 "Alice" "10.0.0.9") = Some a1
    ∧ _process_discovered_client (Settings [0; 50] 1)
        (_on_client_disconnect (Settings [0; 50] 1) a1 3)
        (ClientData 3 "Alice" "10.0.0.9") = Some a2
    ∧ NetworkManager.client_ip_map (_network_manager a2) !! 3
      = Some "10.0.0.9".
Proof.
  eexists. 
  destruct (X16_reconnect (Settings [0; 50] 1)
              (default (new (fun _ => false))
                 (_process_discovered_client (Settings [0; 50] 1)
                    (new (fun _ => false)) (ClientData 3 "Alice" "10.0.0.7")))
              (ClientData 3 "Alice" "10.0.0.9"))
    as (Hsame & _ & a2 & Hrun & _ & Hip).
  - discriminate.
  - discriminate.
  - discriminate.
  - intros Hin. apply list_elem_of_In in Hin. vm_compute in Hin.
    repeat (destruct Hin as [Hin | Hin]; [discriminate Hin |]).
    exact Hin.
  - exists a2. split; [reflexivity |]. split; [| split; [exact Hrun | exact Hip]].
    apply Hsame. unfold tracked. vm_compute. eauto.
Defined.

End TrackingFacts.

(** ** Console lines of the OpenArena server *)

Module LineFacts.
Import Py Re Base OAMessageProcessor.

Lemma digit_not_space (c : ascii) : is_digit c = true → is_space c = false.
Proof.
  unfold is_digit, is_space. intros H.
  apply andb_true_iff in H as [H1 H2].
  apply N.leb_le in H1. apply N.leb_le in H2.
  assert (E1 : (N_of_ascii c <=? 13)%N = false) by (apply N.leb_gt; lia).
  assert (E2 : (28 <=? N_of_ascii c)%N && (N_of_ascii c <=? 32)%N = false).
  { apply andb_false_iff. right. apply N.leb_gt. lia. }
  assert (E3 : (N_of_ascii c =? 133)%N = false) by (apply N.eqb_neq; lia).
  assert (E4 : (N_of_ascii c =? 160)%N = false) by (apply N.eqb_neq; lia).
  cbv zeta. rewrite E1, E2, E3, E4, !andb_false_r. reflexivity.
Qed.

Lemma rstrip_digits (s : string) :
  all_digits s = true → rstrip_with is_space s = s.
Proof.
  induction s as [| c r IH]; intros Hall; [reflexivity |].
  cbn in Hall. apply andb_true_iff in Hall as [Hc Hr].
  cbn [rstrip_with]. rewrite (IH Hr), (digit_not_space c Hc). reflexivity.
Qed.

Lemma rstrip_before_digits (pre ds : string) :
  is_decimal ds = true → rstrip_with is_space (pre +:+ ds) = pre +:+ ds.
Proof.
  intros Hdec. unfold is_decimal in Hdec.
  apply andb_true_iff in Hdec as [Hne Hall].
  induction pre as [| c pre IH].
  - rewrite PyFacts.append_nil. apply rstrip_digits, Hall.
  - rewrite PyFacts.append_cons. cbn [rstrip_with]. rewrite IH.
    assert (Hfull : is_empty (pre +:+ ds) = false).
    { destruct pre; [rewrite PyFacts.append_nil | reflexivity].
      destruct ds; [discriminate Hne | reflexivity]. }
    rewrite Hfull, andb_false_r. reflexivity.
Qed.

Lemma run_lit (s t : string) (n : nat) (cs : list (nat * (nat * nat)))
    (k : cursor -> option cursor) :
  run (lit s) (Cursor n (s +:+ t) cs) k
  = k (Cursor (n + String.length s) t cs).
Proof.
  revert n. induction s as [| c s IH]; intros n.
  - rewrite PyFacts.append_nil. cbn. rewrite Nat.add_0_r. reflexivity.
  - rewrite PyFacts.append_cons. cbn [lit run step_char rest pos caps].
    rewrite Ascii.eqb_refl. cbn [mbind option_bind]. rewrite IH.
    cbn [String.length]. f_equal. f_equal. lia.
Qed.

(** The greedy loop of [\d*] on a run of digits that is followed by
    something else: when the rest of the pattern matches after the whole
    run, that is the match found. *)
Lemma star_digits_loop (k : cursor -> option cursor) (ds t : string)
    (fuel n : nat) (cs : list (nat * (nat * nat))) :
  all_digits ds = true →
  match t with String c _ => is_digit c = false | EmptyString => True end →
  (String.length ds < fuel)%nat →
  is_Some (k (Cursor (n + String.length ds) t cs)) →
  (fix loop (fuel : nat) (c : cursor) : option cursor :=
     match fuel with
     | O => k c
     | S fuel' =>
         match run digit09 c (fun c' => if (pos c <? pos c')%nat
                                        then loop fuel' c' else None) with
         | Some c' => Some c'
         | None => k c
         end
     end) fuel (Cursor n (ds +:+ t) cs)
  = k (Cursor (n + String.length ds) t cs).
Proof.
  revert fuel n. induction ds as [| d ds IH]; intros fuel n Hall Ht Hfuel Hk.
  - rewrite PyFacts.append_nil. cbn [String.length] in *.
    rewrite Nat.add_0_r in *.
    destruct fuel as [| fuel]; [reflexivity |].
    destruct t as [| c t]; [reflexivity |].
    cbn [run digit09 step_char rest pos caps]. rewrite Ht. reflexivity.
  - rewrite PyFacts.append_cons. cbn in Hall.
    apply andb_true_iff in Hall as [Hd Hds].
    destruct fuel as [| fuel]; [cbn in Hfuel; lia |].
    cbn [run digit09 step_char rest pos caps].
    rewrite Hd. cbn [mbind option_bind pos].
    assert (Hlt : (n <? S n)%nat = true) by (apply Nat.ltb_lt; lia).
    rewrite Hlt.
    cbn [String.length] in Hfuel, Hk |- *.
    replace (n + S (String.length ds))%nat
      with (S n + String.length ds)%nat in Hk |- * by lia.
    pose proof (IH fuel (S n) Hds Ht ltac:(lia) Hk) as IH'.
    match goal with
    | |- match ?X with Some _ => _ | None => _ end = ?R =>
        replace X with R by (symmetry; exact IH')
    end.
    destruct Hk as [c' Hc']. rewrite Hc'. reflexivity.
Qed.

Lemma length_append (s t : string) :
  String.length (s +:+ t) = (String.length s + String.length t)%nat.
Proof.
  induction s as [| c s IH]; [rewrite PyFacts.append_nil; reflexivity |].
  rewrite PyFacts.append_cons. cbn [String.length]. rewrite IH. reflexivity.
Qed.

Lemma run_seq (r1 r2 : re) (cur : cursor) (k : cursor -> option cursor) :
  run (Seq r1 r2) cur k = run r1 cur (fun c1 => run r2 c1 k).
Proof. reflexivity. Qed.

Lemma run_cls (p : ascii -> bool) (d : ascii) (t : string) (n : nat)
    (cs : list (nat * (nat * nat))) (k : cursor -> option cursor) :
  run (Cls p) (Cursor n (String d t) cs) k
  = if p d then k (Cursor (S n) t cs) else None.
Proof. cbn. destruct (p d); reflexivity. Qed.

Lemma run_bol (s : string) (cs : list (nat * (nat * nat)))
    (k : cursor -> option cursor) :
  run Bol (Cursor 0 s cs) k = k (Cursor 0 s cs).
Proof. reflexivity. Qed.

Lemma run_grp (i : nat) (r : re) (cur : cursor)
    (k : cursor -> option cursor) :
  run (Grp i r) cur k
  = run r cur (fun c' =>
      k (Cursor (pos c') (rest c') ((i, (pos cur, pos c')) :: caps c'))).
Proof. reflexivity. Qed.

(** [\d*] on a run of digits. *)
Lemma run_star_digits (k : cursor -> option cursor) (ds t : string) (n : nat)
    (cs : list (nat * (nat * nat))) :
  all_digits ds = true →
  match t with String c _ => is_digit c = false | EmptyString => True end →
  is_Some (k (Cursor (n + String.length ds) t cs)) →
  run (Star digit09) (Cursor n (ds +:+ t) cs) k
  = k (Cursor (n + String.length ds) t cs).
Proof.
  intros Hall Ht Hk.
  apply (star_digits_loop k ds t (S (String.length (ds +:+ t))) n cs Hall Ht);
    [| exact Hk].
  rewrite length_append. lia.
Qed.

(** [\d+] on a non-empty run of digits. *)
Lemma run_plus_digits (k : cursor -> option cursor) (ds t : string) (n : nat)
    (cs : list (nat * (nat * nat))) :
  is_decimal ds = true →
  match t with String c _ => is_digit c = false | EmptyString => True end →
  is_Some (k (Cursor (n + String.length ds) t cs)) →
  run (plus digit09) (Cursor n (ds +:+ t) cs) k
  = k (Cursor (n + String.length ds) t cs).
Proof.
  intros Hdec Ht Hk. unfold is_decimal in Hdec.
  apply andb_true_iff in Hdec as [Hne Hall].
  destruct ds as [| d ds]; [discriminate Hne |].
  cbn in Hall. apply andb_true_iff in Hall as [Hd Hds].
  rewrite PyFacts.append_cons. unfold plus.
  rewrite run_seq. unfold digit09 at 1. rewrite run_cls, Hd.
  cbn [String.length] in Hk |- *.
  replace (n + S (String.length ds))%nat
    with (S n + String.length ds)%nat in Hk |- * by lia.
  apply (run_star_digits k ds t (S n) cs Hds Ht Hk).
Qed.

Lemma append_empty_r (s : string) : s +:+ "" = s.
Proof.
  induction s as [| c s IH]; [reflexivity |].
  rewrite PyFacts.append_cons, IH. reflexivity.
Qed.

(** [\d+] on a run of digits that ends the subject. *)
Lemma run_plus_digits_end (k : cursor -> option cursor) (ds : string)
    (n : nat) (cs : list (nat * (nat * nat))) :
  is_decimal ds = true →
  is_Some (k (Cursor (n + String.length ds) "" cs)) →
  run (plus digit09) (Cursor n ds cs) k
  = k (Cursor (n + String.length ds) "" cs).
Proof.
  intros Hdec Hk. rewrite <- (append_empty_r ds) at 1.
  apply run_plus_digits; [exact Hdec | exact I | exact Hk].
Qed.

Lemma substring_all (s : string) : substring 0 (String.length s) s = s.
Proof. induction s as [| c s IH]; [reflexivity |]. cbn. rewrite IH. reflexivity. Qed.

Lemma substring_prefix (s t : string) :
  substring 0 (String.length s) (s +:+ t) = s.
Proof.
  induction s as [| c s IH].
  - rewrite PyFacts.append_nil. destruct t; reflexivity.
  - rewrite PyFacts.append_cons. cbn. rewrite IH. reflexivity.
Qed.

Lemma substring_skip (pre s : string) (m : nat) :
  substring (String.length pre) m (pre +:+ s) = substring 0 m s.
Proof.
  induction pre as [| c pre IH]; [rewrite PyFacts.append_nil; reflexivity |].
  rewrite PyFacts.append_cons. cbn [String.length substring]. exact IH.
Qed.

Lemma strip_line (c : ascii) (pre ds : string) :
  is_space c = false → is_decimal ds = true →
  strip (String c pre +:+ ds) = String c pre +:+ ds.
Proof.
  intros Hc Hdec. unfold strip, strip_with.
  rewrite PyFacts.append_cons. cbn [lstrip_with]. rewrite Hc.
  rewrite <- PyFacts.append_cons. apply rstrip_before_digits, Hdec.
Qed.

Lemma disconnect_not_connect (ds : string) :
  re_match pat_CLIENT_CONNECT ("ClientDisconnect: " +:+ ds) = None.
Proof.
  repeat rewrite PyFacts.append_cons. rewrite PyFacts.append_nil.
  reflexivity.
Qed.

Lemma disconnect_match (ds : string) :
  is_decimal ds = true →
  re_match pat_CLIENT_DISCONNECT ("ClientDisconnect: " +:+ ds)
  = Some (Match ("ClientDisconnect: " +:+ ds) 0 (18 + String.length ds)
                [(1%nat, (18%nat, (18 + String.length ds)%nat))]).
Proof.
  intros Hdec. unfold re_match, match_at, pat_CLIENT_DISCONNECT.
  cbn [seq]. rewrite run_seq, run_bol, run_seq, run_lit, run_seq, run_grp.
  rewrite run_plus_digits_end; [reflexivity | exact Hdec |].
  cbn. eauto.
Qed.

Lemma disconnect_line (p : t) (ds : string) :
  is_decimal ds = true →
  process_message p ("ClientDisconnect: " +:+ ds)
  = client_id ← Py.int ds;
    Some (p, Parsed CLIENT_DISCONNECT ("ClientDisconnect: " +:+ ds)
               {["client_id" := VInt client_id]}).
Proof.
  intros Hdec. unfold process_message.
  rewrite (strip_line "C" "lientDisconnect: " ds eq_refl Hdec).
  change (is_empty ("ClientDisconnect: " +:+ ds)) with false. cbv iota.
  rewrite disconnect_not_connect, (disconnect_match ds Hdec).
  unfold _handle_client_disconnect, int_group, group.
  cbn [m_caps lookup_cap Nat.eqb mbind option_bind fst snd subject].
  replace (18 + String.length ds - 18)%nat with (String.length ds) by lia.
  pose proof (substring_skip "ClientDisconnect: " ds (String.length ds))
    as Hsub.
  cbn [String.length] in Hsub. rewrite Hsub.
  rewrite substring_all. reflexivity.
Qed.

(** X17. Whatever the state of the processor, the console line
    [ClientDisconnect: <digits>], with at most 4300 digits, is reported as
    a CLIENT_DISCONNECT whose [client_id] is the number the digits denote,
    leading zeros included, and the processor itself is left unchanged.
    With more than 4300 digits [int] raises ValueError and the call does
    not return. *)
Theorem X17_disconnect_line (p : t) (ds : string) :
  is_decimal ds = true →
  (count_digits ds <= int_max_str_digits →
   process_message p ("ClientDisconnect: " +:+ ds)
   = Some (p, Parsed CLIENT_DISCONNECT ("ClientDisconnect: " +:+ ds)
                {["client_id" := VInt (decimal_value ds)]}))
  ∧ (int_max_str_digits < count_digits ds →
     process_message p ("ClientDisconnect: " +:+ ds) = None).
Proof.
  intros Hdec. rewrite (disconnect_line p ds Hdec). split.
  - intros Hlimit. rewrite (PyFacts.int_decimal ds Hdec Hlimit). reflexivity.
  - intros Hover. rewrite (PyFacts.int_over_limit ds Hover). reflexivity.
Qed.

Lemma X17_disconnect_line_witness :
  process_message (new true) "ClientDisconnect: 007"
  = Some (new true,
          Parsed CLIENT_DISCONNECT "ClientDisconnect: 007"
            {["client_id" := VInt 7]})
  ∧ process_message (new true)
      ("ClientDisconnect: " +:+ Scenarios.padded_one) = None.
Proof.
  destruct (X17_disconnect_line (new true) "007" eq_refl) as [Hshort _].
  destruct (X17_disconnect_line (new true) Scenarios.padded_one)
    as [_ Hlong]; [vm_compute; reflexivity |].
  split.
  - apply Hshort. vm_compute. discriminate.
  - apply Hlong. vm_compute. reflexivity.
Defined.

Lemma rstrip_append (a b : string) :
  is_empty b = false → rstrip_with is_space b = b →
  rstrip_with is_space (a +:+ b) = a +:+ b ∧ is_empty (a +:+ b) = false.
Proof.
  intros Hne Hb. induction a as [| c a [IH IHne]].
  - rewrite PyFacts.append_nil. split; assumption.
  - rewrite PyFacts.append_cons. cbn [rstrip_with is_empty].
    rewrite IH, IHne, andb_false_r. split; reflexivity.
Qed.

Lemma run_lit_end (s : string) (n : nat) (cs : list (nat * (nat * nat)))
    (k : cursor -> option cursor) :
  run (lit s) (Cursor n s cs) k = k (Cursor (n + String.length s) "" cs).
Proof. rewrite <- (append_empty_r s) at 2. apply run_lit. Qed.

Lemma append_assoc (a b c : string) : (a +:+ b) +:+ c = a +:+ (b +:+ c).
Proof.
  induction a as [| x a IH]; [rewrite !PyFacts.append_nil; reflexivity |].
  rewrite !PyFacts.append_cons, IH. reflexivity.
Qed.

Lemma substring_at (pre s t : string) (n : nat) :
  n = String.length pre →
  substring n (String.length s) (pre +:+ (s +:+ t)) = s.
Proof. intros ->. rewrite substring_skip. apply substring_prefix. Qed.

Lemma connect_match (ids pings : string) :
  is_decimal ids = true → is_decimal pings = true →
  ∃ m, re_match pat_CLIENT_CONNECT
         ("Client " +:+ ids +:+ " connecting with " +:+ pings
          +:+ " challenge ping") = Some m
       ∧ group 1 m = Some ids ∧ group 2 m = Some pings.
Proof.
  intros Hi Hp.
  set (line := "Client " +:+ ids +:+ " connecting with " +:+ pings
               +:+ " challenge ping").
  assert (Hend : ∀ n cs,
             run (Seq (lit " challenge ping") (Seq Eol Eps))
               (Cursor n " challenge ping" cs) Some
             = Some (Cursor (n + 15) "" cs)).
  { intros n cs. rewrite run_seq, run_lit_end. reflexivity. }
  assert (Hmid : ∀ n cs,
             run (Seq (lit " connecting with ")
                    (Seq (Grp 2 (plus digit09))
                       (Seq (lit " challenge ping") (Seq Eol Eps))))
               (Cursor n (" connecting with " +:+ pings +:+ " challenge ping")
                       cs) Some
             = Some (Cursor (n + 17 + String.length pings + 15) ""
                            ((2%nat, ((n + 17)%nat,
                                      (n + 17 + String.length pings)%nat))
                               :: cs))).
  { intros n cs. rewrite run_seq, run_lit, run_seq, run_grp.
    rewrite run_plus_digits; [| exact Hp | exact (eq_refl false) |].
    - cbn [pos rest caps String.length]. apply Hend.
    - cbn [pos rest caps]. rewrite Hend. eauto. }
  assert (Hrun : run pat_CLIENT_CONNECT (Cursor 0 line []) Some
                 = Some (Cursor (7 + String.length ids + 17
                                 + String.length pings + 15) ""
                           [(2%nat, ((7 + String.length ids + 17)%nat,
                                     (7 + String.length ids + 17
                                      + String.length pings)%nat));
                            (1%nat, (7%nat, (7 + String.length ids)%nat))])).
  { unfold pat_CLIENT_CONNECT, line. cbn [seq].
    rewrite run_seq, run_bol, run_seq, run_lit, run_seq, run_grp.
    rewrite run_plus_digits; [| exact Hi | exact (eq_refl false) |].
    - cbn [pos rest caps String.length Nat.add]. apply Hmid.
    - cbn [pos rest caps]. rewrite Hmid. eauto. }
  unfold re_match, match_at. rewrite Hrun. cbn [mbind option_bind pos caps].
  eexists. split; [reflexivity |].
  unfold group. cbn [m_caps lookup_cap Nat.eqb mbind option_bind fst snd subject].
  split; f_equal.
  - replace (7 + String.length ids - 7)%nat with (String.length ids) by lia.
    apply (substring_at "Client " ids _ 7). reflexivity.
  - replace (7 + String.length ids + 17 + String.length pings
             - (7 + String.length ids + 17))%nat
      with (String.length pings) by lia.
    unfold line.
    rewrite <- (append_assoc ids " connecting with "),
            <- (append_assoc "Client ").
    apply substring_at. rewrite !length_append. cbn. lia.
Qed.

Lemma connect_line (p : t) (ids pings : string) :
  is_decimal ids = true → is_decimal pings = true →
  process_message p ("Client " +:+ ids +:+ " connecting with " +:+ pings
                     +:+ " challenge ping")
  = client_id ← Py.int ids;
    challenge_ping ← Py.int pings;
    Some (call_send_command p "status",
          Parsed CLIENT_CONNECT
            ("Client " +:+ ids +:+ " connecting with " +:+ pings
             +:+ " challenge ping")
            (<["client_id" := VInt client_id]>
             (<["challenge_ping" := VInt challenge_ping]>
              {["needs_status_parse" := VBool true]}))).
Proof.
  intros Hi Hp. unfold process_message.
  set (line := "Client " +:+ ids +:+ " connecting with " +:+ pings
               +:+ " challenge ping").
  assert (Hstrip : strip line = line).
  { unfold strip, strip_with, line. rewrite PyFacts.append_cons.
    cbn [lstrip_with]. change (is_space "C") with false. cbv iota.
    rewrite <- PyFacts.append_cons.
    repeat (apply rstrip_append; [| try reflexivity]);
      try reflexivity; apply rstrip_append; reflexivity. }
  rewrite Hstrip. change (is_empty line) with false. cbv iota.
  destruct (connect_match ids pings Hi Hp) as (m & Hm & Hg1 & Hg2).
  fold line in Hm. rewrite Hm.
  unfold _handle_client_connecting, int_group. rewrite Hg1, Hg2.
  reflexivity.
Qed.

(** X18. Whatever the state of the processor, the console line
    [Client <id> connecting with <ping> challenge ping], each number of at
    most 4300 digits, is reported as a CLIENT_CONNECT carrying the two
    numbers and the request for a status parse; when a command callback
    was given the command [status] is sent, once, and nothing else of the
    processor changes.  When one of the numbers has more than 4300 digits
    [int] raises ValueError: the call does not return and nothing is
    sent. *)
Theorem X18_connect_line (p : t) (ids pings : string) :
  is_decimal ids = true → is_decimal pings = true →
  (count_digits ids <= int_max_str_digits →
   count_digits pings <= int_max_str_digits →
   process_message p ("Client " +:+ ids +:+ " connecting with " +:+ pings
                      +:+ " challenge ping")
   = Some (call_send_command p "status",
           Parsed CLIENT_CONNECT
             ("Client " +:+ ids +:+ " connecting with " +:+ pings
              +:+ " challenge ping")
             (<["client_id" := VInt (decimal_value ids)]>
              (<["challenge_ping" := VInt (decimal_value pings)]>
               {["needs_status_parse" := VBool true]}))))
  ∧ (int_max_str_digits < count_digits ids
     ∨ int_max_str_digits < count_digits pings →
     process_message p ("Client " +:+ ids +:+ " connecting with " +:+ pings
                        +:+ " challenge ping") = None).
Proof.
  intros Hi Hp. rewrite (connect_line p ids pings Hi Hp). split.
  - intros Li Lp.
    rewrite (PyFacts.int_decimal ids Hi Li), (PyFacts.int_decimal pings Hp Lp).
    reflexivity.
  - intros [Hover | Hover].
    + rewrite (PyFacts.int_over_limit ids Hover). reflexivity.
    + rewrite (PyFacts.int_over_limit pings Hover).
      destruct (Py.int ids); reflexivity.
Qed.

Lemma X18_connect_line_witness :
  (∃ p' m,
     process_message (new true) "Client 3 connecting with 50 challenge ping"
     = Some (p', m)
     ∧ commands_sent p' = ["status"])
  ∧ process_message (new true)
      ("Client 3 connecting with " +:+ Scenarios.padded_one
       +:+ " challenge ping") = None.
Proof.
  destruct (X18_connect_line (new true) "3" "50" eq_refl eq_refl)
    as [Hshort _].
  destruct (X18_connect_line (new true) "3" Scenarios.padded_one eq_refl)
    as [_ Hlong]; [vm_compute; reflexivity |].
  split.
  - do 2 eexists. split.
    + apply Hshort; vm_compute; discriminate.
    + reflexivity.
  - apply Hlong. right. vm_compute. reflexivity.
Defined.




End LineFacts.

(** ** The polling loop of the AMP adapter *)

Module PollingFacts.
Import Base AMPGameAdapter AMPAdapterControl.

Lemma amp_raw_message (p : AMPMessageProcessor.t) (raw : string) :
  raw_message (snd (AMPMessageProcessor.process_message p raw))
  = Py.strip raw.
Proof.
  unfold AMPMessageProcessor.process_message.
  repeat match goal with
         | |- context [if ?c then _ else _] => destruct c
         | |- context [match AMPStatusParser.parse_client_line ?s with
                       | _ => _ end] =>
             destruct (AMPStatusParser.parse_client_line s)
         end; reflexivity.
Qed.

Lemma yield_lines_sound (lines : list string) (p : AMPMessageProcessor.t)
    (m : ParsedMessage) :
  m ∈ snd (yield_lines p lines) →
  ∃ line, line ∈ lines ∧ raw_message m = Py.strip line
          ∧ raw_message m ≠ "".
Proof.
  revert p. induction lines as [| line rest IH]; intros p Hin.
  - cbn in Hin. apply elem_of_nil in Hin. contradiction.
  - cbn [yield_lines] in Hin.
    destruct (Py.is_empty (Py.strip line)) eqn:Hblank.
    + destruct (IH p Hin) as (l & Hl & Hraw). exists l.
      split; [right; exact Hl | exact Hraw].
    + pose proof (amp_raw_message p line) as Hraw.
      destruct (AMPMessageProcessor.process_message p line) as [p1 parsed].
      cbn [snd] in Hraw.
      destruct (yield_lines p1 rest) as [p2 out] eqn:Hrest.
      cbn [snd] in Hin. apply elem_of_cons in Hin as [-> | Hin].
      * exists line. split; [left |]. split; [exact Hraw |].
        rewrite Hraw. intros Habs. rewrite Habs in Hblank.
        discriminate Hblank.
      * specialize (IH p1). rewrite Hrest in IH.
        destruct (IH Hin) as (l & Hl & Hr). exists l.
        split; [right; exact Hl | exact Hr].
Qed.

Lemma handle_entries_sound (entries : list ConsoleEntry) (a : t)
    (m : ParsedMessage) :
  m ∈ snd (handle_entries a entries) →
  ∃ e line, e ∈ entries ∧ line ∈ Py.split_on Re.newline (contents e)
            ∧ raw_message m = Py.strip line ∧ raw_message m ≠ "".
Proof.
  revert a. induction entries as [| e rest IH]; intros a Hin.
  - cbn in Hin. apply elem_of_nil in Hin. contradiction.
  - rewrite DedupFacts.handle_entries_cons in Hin. cbn [snd] in Hin.
    apply elem_of_app in Hin as [Hin | Hin].
    + exists e. unfold handle_entry in Hin.
      destruct (seen _ _).
      { cbn in Hin. apply elem_of_nil in Hin. contradiction. }
      pose proof (yield_lines_sound
                    (Py.split_on Re.newline (contents e))
                    (_message_processor a) m) as Hy.
      destruct (yield_lines _ _) as [p out]. cbn [snd] in Hin, Hy.
      destruct (Hy Hin) as (line & Hl & Hr).
      exists line. split; [left |]. split; [exact Hl | exact Hr].
    + destruct (IH _ Hin) as (e' & line & He & Hl & Hr).
      exists e', line. split; [right; exact He |]. split; [exact Hl | exact Hr].
Qed.

Lemma poll_loop_sound (polls : list rpc_result) (a : t) (m : ParsedMessage) :
  m ∈ snd (poll_loop a polls) →
  ∃ line, delivered polls line ∧ raw_message m = Py.strip line
          ∧ raw_message m ≠ "".
Proof.
  revert a. induction polls as [| r rest IH]; intros a Hin.
  - cbn in Hin. apply elem_of_nil in Hin. contradiction.
  - assert (Hlater : ∀ line, delivered rest line → delivered (r :: rest) line).
    { intros line (es & e & Hes & He & Hl). exists es, e.
      split; [right; exact Hes |]. split; assumption. }
    cbn [poll_loop] in Hin. destruct (loop_condition a).
    2: { cbn in Hin. apply elem_of_nil in Hin. contradiction. }
    destruct r as [entries | [|]]; cbn [poll_once] in Hin.
    + pose proof (handle_entries_sound entries a m) as He.
      destruct (handle_entries a entries) as [a1 out1]. cbn [snd] in He.
      specialize (IH a1).
      destruct (poll_loop a1 rest) as [a2 out2]. cbn [snd] in Hin, IH.
      apply elem_of_app in Hin as [Hin | Hin].
      * destruct (He Hin) as (e & line & Hein & Hl & Hr).
        exists line. split; [| exact Hr].
        exists entries, e. split; [left |]. split; assumption.
      * destruct (IH Hin) as (line & Hd & Hr).
        exists line. split; [apply Hlater, Hd | exact Hr].
    + specialize (IH (set_authenticated a true)).
      destruct (poll_loop (set_authenticated a true) rest) as [a2 out2].
      cbn [snd] in Hin, IH. rewrite app_nil_l in Hin.
      destruct (IH Hin) as (line & Hd & Hr).
      exists line. split; [apply Hlater, Hd | exact Hr].
    + cbn in Hin. apply elem_of_nil in Hin. contradiction.
Qed.

(** X20. Every message that [read_messages] yields is the parse of a line
    of a console entry that a poll returned: its raw text is that line
    with the surrounding white space stripped, and it is never empty.  No
    message is made up, and blank lines yield nothing. *)
Theorem X20_read_messages_sound (a : t) (polls : list rpc_result)
    (m : ParsedMessage) :
  m ∈ snd (read_messages a polls) →
  ∃ line, delivered polls line ∧ raw_message m = Py.strip line
          ∧ raw_message m ≠ "".
Proof. unfold read_messages. apply poll_loop_sound. Qed.

Lemma X20_read_messages_sound_witness :
  ∃ line, delivered [Updates [Scenarios.hello]] line
          ∧ Py.strip line = "hello".
Proof.
  destruct (X20_read_messages_sound Scenarios.logged_in
              [Updates [Scenarios.hello]]
              (Parsed UNKNOWN "hello" no_data))
    as (line & Hd & Hraw & _).
  - apply list_elem_of_In. vm_compute. left. reflexivity.
  - exists line. split; [exact Hd | symmetry; exact Hraw].
Defined.

Lemma poll_loop_stopped (a : t) (polls : list rpc_result) :
  loop_condition a = false → poll_loop a polls = (a, []).
Proof.
  intros Hc. destruct polls as [| r rest]; [reflexivity |].
  cbn [poll_loop]. rewrite Hc. reflexivity.
Qed.

Lemma poll_loop_failed_login (pre rest : list rpc_result) (a : t) :
  poll_loop a (pre ++ RpcError false :: rest)
  = poll_loop a (pre ++ [RpcError false]).
Proof.
  revert a. induction pre as [| r pre IH]; intros a.
  - cbn. destruct (loop_condition a); reflexivity.
  - cbn [app poll_loop]. destruct (loop_condition a); [| reflexivity].
    destruct (poll_once a r) as [[a1 out1] continue].
    destruct continue; [| reflexivity]. rewrite IH. reflexivity.
Qed.

(** X21. When the polling loop stops.  [read_messages] yields nothing,
    whatever the panel would answer, if a shutdown was requested, if the
    adapter was disconnected, or if it is not authenticated; and once a
    poll has failed and the login after it has failed too, no later
    answer of the panel is read. *)
Theorem X21_polling_stops (a : t) (polls pre rest : list rpc_result) :
  snd (read_messages (request_shutdown a) polls) = []
  ∧ snd (read_messages (disconnect a) polls) = []
  ∧ (authenticated a = false → snd (read_messages a polls) = [])
  ∧ read_messages a (pre ++ RpcError false :: rest)
    = read_messages a (pre ++ [RpcError false]).
Proof.
  unfold read_messages. split; [| split; [| split]].
  - rewrite poll_loop_stopped; [reflexivity |].
    unfold loop_condition. cbn. apply andb_false_r.
  - rewrite poll_loop_stopped; [reflexivity |].
    unfold loop_condition, disconnect.
    destruct (authenticated a); reflexivity.
  - intros Hauth. rewrite poll_loop_stopped; [reflexivity |].
    unfold loop_condition. cbn. rewrite Hauth. reflexivity.
  - apply poll_loop_failed_login.
Qed.

Lemma X21_polling_stops_witness :
  snd (read_messages AMPGameAdapter.new [Updates [Scenarios.hello]]) = [].
Proof.
  destruct (X21_polling_stops AMPGameAdapter.new [Updates [Scenarios.hello]]
              [] []) as (_ & _ & Hauth & _).
  apply Hauth. reflexivity.
Defined.

End PollingFacts.
